(** * Extraction scripts of the bws repository: a shallow embedding

    Two scripts are embedded here:
    - [parse-shopee.py]: reads saved listing pages, extracts one record per
      listing container and writes a CSV file;
    - [scrape-bricklink.py]: derives a catalog locator from a URL, fetches two
      pages and extracts four price buckets with regular expressions.

    Python values are modelled as follows.  A [str] is a Rocq [string]: an
    ASCII character is one character of it, any other character is held as
    the bytes of its UTF-8 encoding.  The character classes and the case
    mappings ([isspace], [lower], [upper], the sets of [re] and its
    IGNORECASE flag) are embedded as they act on ASCII text.  [None] is
    [option]; a raised exception is the [Raise] branch of [Ex]; a [dict]
    whose keys vary is a [gmap]; a [dict] or object with fixed keys is a
    record.  The [re] module is embedded as a small backtracking matcher
    over a syntax tree of the patterns the scripts use.  The documents that
    BeautifulSoup builds are trees of [node]; the navigation methods the
    scripts call are collected in the interface [Navigation], whose
    operations may raise, with the tree-walking instance [dom_bs4] as
    reference. *)

From Stdlib Require Import List String Ascii ZArith Lia Bool Arith.
From stdpp Require Import base option list strings gmap pretty sorting.
Import ListNotations.
Local Open Scope string_scope.
Local Open Scope char_scope.

(** ** Python basics: exceptions, truthiness, [str] methods *)

Module Py.

(** The exception classes the scripts can meet.  [ValueError] stands for
    its subclasses too ([UnicodeEncodeError] is one). *)
Inductive exn : Type :=
| ValueError (msg : string)
| HTTPError (status : Z)
| RequestException (msg : string)
| OSError (msg : string)
| Exception (msg : string).

(** The outcome of evaluating an expression: a value or a raised exception. *)
Inductive Ex (A : Type) : Type :=
| Ok (a : A)
| Raise (e : exn).
Arguments Ok {A} a.
Arguments Raise {A} e.

#[global] Instance Ex_ret : MRet Ex := fun A a => Ok a.
#[global] Instance Ex_bind : MBind Ex := fun A B f c =>
  match c with
  | Ok a => f a
  | Raise e => Raise e
  end.

(** A statement that mutates a state [St]: the state survives an exception,
    as the objects a Python block has mutated do. *)
Definition M (St A : Type) : Type := St -> Ex A * St.

#[global] Instance M_ret {St} : MRet (M St) := fun A a st => (Ok a, st).
#[global] Instance M_bind {St} : MBind (M St) := fun A B f c st =>
  match c st with
  | (Ok a, st') => f a st'
  | (Raise e, st') => (Raise e, st')
  end.

Definition lift {St A} (c : Ex A) : M St A := fun st => (c, st).
Definition raise {St A} (e : exn) : M St A := fun st => (Raise e, st).
Definition modify {St} (f : St -> St) : M St unit := fun st => (Ok tt, f st).
Definition gets {St A} (f : St -> A) : M St A := fun st => (Ok (f st), st).

(** [try: body except Exception as e: handler e]. *)
Definition try_except {St A} (body : M St A) (handler : exn -> M St A) : M St A :=
  fun st =>
    match body st with
    | (Ok a, st') => (Ok a, st')
    | (Raise e, st') => handler e st'
    end.

(** [for x in xs: body x], stopping at the first exception that escapes. *)
Fixpoint for_each {St A} (xs : list A) (body : A -> M St unit) : M St unit :=
  match xs with
  | [] => mret tt
  | x :: rest => body x ≫= fun _ => for_each rest body
  end.

(** Truthiness of an optional string: [None] and [''] are false. *)
Definition truthy (o : option string) : bool :=
  match o with
  | Some s => negb (s =? "")%string
  | None => false
  end.

(** [x if x else d] for an optional string. *)
Definition or_default (o : option string) (d : string) : string :=
  match o with
  | Some s => if (s =? "")%string then d else s
  | None => d
  end.

Definition code (c : ascii) : N := N_of_ascii c.
Definition in_range (lo hi c : ascii) : bool :=
  (code lo <=? code c)%N && (code c <=? code hi)%N.

(** [c.isspace()] on ASCII: TAB..CR, FS..US and the space. *)
Definition is_space (c : ascii) : bool :=
  ((9 <=? code c)%N && (code c <=? 13)%N)
  || ((28 <=? code c)%N && (code c <=? 32)%N).

Definition is_digit (c : ascii) : bool := in_range "0" "9" c.

Definition lower_char (c : ascii) : ascii :=
  if in_range "A" "Z" c then ascii_of_N (code c + 32) else c.
Definition upper_char (c : ascii) : ascii :=
  if in_range "a" "z" c then ascii_of_N (code c - 32) else c.

Fixpoint str_map (f : ascii -> ascii) (s : string) : string :=
  match s with
  | EmptyString => EmptyString
  | String c s' => String (f c) (str_map f s')
  end.

(** [s.lower()] and [s.upper()], as they act on ASCII text: the letters
    a-z and A-Z change case, every other character is kept. *)
Definition lower : string -> string := str_map lower_char.
Definition upper : string -> string := str_map upper_char.

Fixpoint lstrip (s : string) : string :=
  match s with
  | EmptyString => EmptyString
  | String c s' => if is_space c then lstrip s' else s
  end.

Fixpoint rstrip (s : string) : string :=
  match s with
  | EmptyString => EmptyString
  | String c s' =>
      match rstrip s' with
      | EmptyString => if is_space c then EmptyString else String c EmptyString
      | r => String c r
      end
  end.

(** [s.strip()]. *)
Definition strip (s : string) : string := rstrip (lstrip s).

(** [s.replace(old, new)] for a one-character [old]. *)
Fixpoint replace (old : ascii) (new : string) (s : string) : string :=
  match s with
  | EmptyString => EmptyString
  | String c s' =>
      if Ascii.eqb c old then (new ++ replace old new s')%string
      else String c (replace old new s')
  end.

(** [c in s] for a character. *)
Fixpoint has_char (c : ascii) (s : string) : bool :=
  match s with
  | EmptyString => false
  | String d s' => Ascii.eqb d c || has_char c s'
  end.

Fixpoint drop (n : nat) (s : string) : string :=
  match n, s with
  | O, _ => s
  | S n', String _ s' => drop n' s'
  | S _, EmptyString => EmptyString
  end.

Fixpoint take (n : nat) (s : string) : string :=
  match n, s with
  | S n', String c s' => String c (take n' s')
  | _, _ => EmptyString
  end.

(** [needle in hay] for strings. *)
Fixpoint contains (needle hay : string) : bool :=
  String.prefix needle hay ||
  match hay with
  | EmptyString => false
  | String _ hay' => contains needle hay'
  end.

(** [s.split(sep)] for a one-character separator: never the empty list. *)
Fixpoint split (sep : ascii) (s : string) : list string :=
  match s with
  | EmptyString => [EmptyString]
  | String c s' =>
      if Ascii.eqb c sep then EmptyString :: split sep s'
      else match split sep s' with
           | w :: ws => String c w :: ws
           | [] => [String c EmptyString]
           end
  end.

(** [s.split(sep, 1)]: one piece, or the pieces around the first [sep]. *)
Fixpoint split1 (sep : ascii) (s : string) : string * option string :=
  match s with
  | EmptyString => (EmptyString, None)
  | String c s' =>
      if Ascii.eqb c sep then (EmptyString, Some s')
      else let '(a, b) := split1 sep s' in (String c a, b)
  end.

(** [sep.join(parts)]. *)
Definition join (sep : string) (parts : list string) : string :=
  String.concat sep parts.

(** Maximal runs of non-whitespace characters, as [re.findall(r'\S+', s)]
    returns them. *)
Fixpoint words_go (cur : string) (s : string) : list string :=
  match s with
  | EmptyString => match cur with EmptyString => [] | _ => [cur] end
  | String c s' =>
      if is_space c
      then match cur with
           | EmptyString => words_go EmptyString s'
           | _ => cur :: words_go EmptyString s'
           end
      else words_go (cur ++ String c EmptyString)%string s'
  end.
Definition words : string -> list string := words_go EmptyString.

(** [s.isascii()] *)
Fixpoint isascii (s : string) : bool :=
  match s with
  | EmptyString => true
  | String c s' => (code c <? 128)%N && isascii s'
  end.

Definition DOUBLE_QUOTE : ascii := "034".
Definition BACKSLASH : ascii := "092".

Definition hex_digit (n : N) : ascii :=
  ascii_of_N (if (n <? 10)%N then 48 + n else 87 + n).
Definition hex2 (n : N) : string :=
  String (hex_digit (n / 16)) (String (hex_digit (n mod 16)) EmptyString).

(** One character of [repr(s)] between the quotes [quote]. *)
Definition repr_char (quote c : ascii) : string :=
  if Ascii.eqb c quote || Ascii.eqb c BACKSLASH
  then String BACKSLASH (String c EmptyString)
  else if Ascii.eqb c "009" then String BACKSLASH "t"
  else if Ascii.eqb c "010" then String BACKSLASH "n"
  else if Ascii.eqb c "013" then String BACKSLASH "r"
  else if (code c <? 32)%N || (code c =? 127)%N
  then String BACKSLASH (String "x" (hex2 (code c)))
  else String c EmptyString.

Fixpoint repr_chars (quote : ascii) (s : string) : string :=
  match s with
  | EmptyString => EmptyString
  | String c s' => (repr_char quote c ++ repr_chars quote s')%string
  end.

(** [repr(s)]: in single quotes, or in double quotes when [s] holds a single
    quote and no double quote; control characters are escaped.  (Bytes above
    127 are kept as they are.) *)
Definition repr (s : string) : string :=
  let quote := if has_char "'" s && negb (has_char DOUBLE_QUOTE s)
               then DOUBLE_QUOTE else "'" in
  String quote (repr_chars quote s ++ String quote EmptyString).







Definition digit_value (c : ascii) : Z := Z.of_N (code c) - 48.
Fixpoint int_go (acc : Z) (s : string) : Z :=
  match s with
  | EmptyString => acc
  | String c s' => int_go (10 * acc + digit_value c) s'
  end.

(** The blanks that [int] skips around an ASCII numeral. *)
Definition is_c_space (c : ascii) : bool :=
  ((9 <=? code c)%N && (code c <=? 13)%N) || (code c =? 32)%N.

Fixpoint lstrip_with (f : ascii -> bool) (s : string) : string :=
  match s with
  | EmptyString => EmptyString
  | String c s' => if f c then lstrip_with f s' else s
  end.

Fixpoint rstrip_with (f : ascii -> bool) (s : string) : string :=
  match s with
  | EmptyString => EmptyString
  | String c s' =>
      match rstrip_with f s' with
      | EmptyString => if f c then EmptyString else String c EmptyString
      | r => String c r
      end
  end.

(** The digits of a numeral: digits, with single underscores between
    them. *)
Fixpoint numeral_digits (after_digit : bool) (s : string) : option string :=
  match s with
  | EmptyString => if after_digit then Some EmptyString else None
  | String c s' =>
      if is_digit c then String c <$> numeral_digits true s'
      else if Ascii.eqb c "_" && after_digit then numeral_digits false s'
      else None
  end.

(** [sys.get_int_max_str_digits()], as the interpreter starts. *)
Definition MAX_STR_DIGITS : nat := 4300.

(** [int(s)] for an ASCII string: blanks around the numeral are skipped, a
    sign may lead it, and a numeral of more than [MAX_STR_DIGITS] digits is
    refused. *)
Definition int (s : string) : Ex Z :=
  let numeral := rstrip_with is_c_space (lstrip_with is_c_space s) in
  let '(negative, body) :=
    match numeral with
    | String c body =>
        if Ascii.eqb c "-" then (true, body)
        else if Ascii.eqb c "+" then (false, body)
        else (false, numeral)
    | EmptyString => (false, numeral)
    end in
  match numeral_digits false body with
  | Some digits =>
      if (MAX_STR_DIGITS <? String.length digits)%nat
      then Raise (ValueError
             ("Exceeds the limit (4300 digits) for integer string conversion: value has "
              ++ pretty (String.length digits)
              ++ " digits; use sys.set_int_max_str_digits() to increase the limit"))
      else Ok (if negative then - int_go 0 digits else int_go 0 digits)%Z
  | None =>
      Raise (ValueError ("invalid literal for int() with base 10: "
                         ++ take 200 (repr s)))
  end.

End Py.

(** ** The [re] module: patterns, backtracking match, [search] *)

Module Re.
Import Py.

(** One member of a character set. *)
Inductive item : Type :=
| Char (c : ascii)            (* a literal character *)
| Range (lo hi : ascii)       (* lo-hi *)
| Space                       (* \s *)
| Digit.                      (* \d *)

(** The pattern syntax the scripts use.  All repetitions are greedy. *)
Inductive regex : Type :=
| Eps
| Set_ (items : list item)    (* [...], or one literal character *)
| Dot                         (* any character but a newline *)
| Seq (r1 r2 : regex)
| Star (r : regex)
| Group (n : nat) (r : regex).

(** A compiled pattern: its syntax and the [re.IGNORECASE] flag. *)
Record pattern : Type := compile { syntax : regex; ignorecase : bool }.

Fixpoint lit (s : string) : regex :=
  match s with
  | EmptyString => Eps
  | String c s' => Seq (Set_ [Char c]) (lit s')
  end.
Definition seq (rs : list regex) : regex := fold_right Seq Eps rs.
Definition plus (r : regex) : regex := Seq r (Star r).
Fixpoint rep (n : nat) (r : regex) : regex :=
  match n with
  | O => Eps
  | S n' => Seq r (rep n' r)
  end.

Definition item_match (it : item) (c : ascii) : bool :=
  match it with
  | Char d => Ascii.eqb c d
  | Range lo hi => in_range lo hi c
  | Space => is_space c
  | Digit => is_digit c
  end.

(** Set membership; under IGNORECASE a character also matches through its
    lower-case and upper-case forms (those of ASCII, which is all that the
    sets of the scripts hold). *)
Definition set_match (ic : bool) (items : list item) (c : ascii) : bool :=
  existsb (fun it =>
    item_match it c
    || (ic && (item_match it (lower_char c) || item_match it (upper_char c))))
    items.

(** The text of the numbered groups of a match. *)
Abbreviation groups := (gmap nat string).

Section Matcher.
Context {R : Type}.
Variable ic : bool.

(** [rmatch r s g k]: match [r] at the head of [s], then hand the rest of the
    text and the groups to [k]; alternatives are tried in the order Python's
    backtracking tries them (a greedy star tries one more round first). *)
Fixpoint rmatch (r : regex) (s : string) (g : groups)
    (k : string -> groups -> option R) {struct r} : option R :=
  match r with
  | Eps => k s g
  | Set_ items =>
      match s with
      | String c s' => if set_match ic items c then k s' g else None
      | EmptyString => None
      end
  | Dot =>
      match s with
      | String c s' => if Ascii.eqb c "010" then None else k s' g
      | EmptyString => None
      end
  | Seq r1 r2 => rmatch r1 s g (fun s' g' => rmatch r2 s' g' k)
  | Star r' =>
      (fix star (fuel : nat) (s : string) (g : groups) {struct fuel} : option R :=
         match fuel with
         | O => k s g
         | S fuel' =>
             match rmatch r' s g (fun s' g' =>
                     if (String.length s' <? String.length s)%nat
                     then star fuel' s' g' else None) with
             | Some x => Some x
             | None => k s g
             end
         end) (String.length s) s g
  | Group n r' =>
      rmatch r' s g (fun s' g' =>
        k s' (<[n := take (String.length s - String.length s')%nat s]> g'))
  end.
End Matcher.

(** A match object: where the match starts, and its groups. *)
Record match_ : Type := mk_match { m_start : nat; m_groups : groups }.

(** [m.group(n)]; every group of the patterns below takes part in every
    match, so the [None] of Python's API does not arise. *)
Definition group (m : match_) (n : nat) : string := default EmptyString (m_groups m !! n).

(** Match at the head of [s]: the rest of the text and the groups. *)
Definition match_here (p : pattern) (s : string) : option (string * groups) :=
  rmatch (ignorecase p) (syntax p) s ∅ (fun s' g => Some (s', g)).

(** [p.search(text)] scanning from offset [i]: the leftmost match. *)
Fixpoint search_from (p : pattern) (i : nat) (s : string) : option match_ :=
  match match_here p s with
  | Some (_, g) => Some (mk_match i g)
  | None =>
      match s with
      | EmptyString => None
      | String _ s' => search_from p (S i) s'
      end
  end.
Definition search (p : pattern) (text : string) : option match_ := search_from p 0 text.

(** Every offset of [s], counted from [i], at which [p] matches. *)
Fixpoint positions_from (p : pattern) (i : nat) (s : string) : list nat :=
  (match match_here p s with Some _ => [i] | None => [] end)
  ++ match s with
     | EmptyString => []
     | String _ s' => positions_from p (S i) s'
     end.
Definition positions (p : pattern) (text : string) : list nat := positions_from p 0 text.

(** What is left of [s] after the literal text [str], if [s] starts with it
    (in either case of its letters when [ic]). *)
Fixpoint lit_rest (ic : bool) (str s : string) : option string :=
  match str with
  | EmptyString => Some s
  | String c str' =>
      match s with
      | String d s' => if set_match ic [Char c] d then lit_rest ic str' s' else None
      | EmptyString => None
      end
  end.

End Re.

(** ** BeautifulSoup: the navigation interface and document trees *)

Module Bs4.
Import Py Re.

(** The methods of a [Tag] that the scripts call.  Each may raise. *)
Class Navigation (Tag : Type) : Type := {
  (** [tag.find_all(name, class_=cls)] for a string [cls] *)
  find_all_class : Tag -> string -> string -> Ex (list Tag);
  (** [tag.find_all(string=p)] for a compiled pattern [p]: the matching
      text nodes *)
  find_all_string : Tag -> pattern -> Ex (list string);
  (** [tag.find(name, class_=p)] for a compiled pattern [p] *)
  find_class : Tag -> string -> pattern -> Ex (option Tag);
  (** [tag.get_text(separator, strip)]; [tag.text] is [get_text tag "" false] *)
  get_text : Tag -> string -> bool -> Ex string
}.

(** [BeautifulSoup(markup, parser)]: the HTML parsers are not embedded. *)
Class Builder (Tag : Type) : Type := {
  BeautifulSoup : string -> string -> Ex Tag
}.

(** [tag.select_one(css)] and [tag.select(css)]: the selector engine is not
    embedded. *)
Class Css (Tag : Type) : Type := {
  select_one : Tag -> string -> Ex (option Tag);
  select : Tag -> string -> Ex (list Tag)
}.

(** A parsed document: text nodes and elements with their attributes. *)
#[warnings="-register-all"]
Inductive node : Type :=
| Text (s : string)
| Elem (name : string) (attrs : list (string * string)) (children : list node).

(** The nodes below [n], in document order. *)
Fixpoint descendants (n : node) : list node :=
  match n with
  | Text _ => []
  | Elem _ _ children => flat_map (fun c => c :: descendants c) children
  end.

Definition attr (key : string) (n : node) : option string :=
  match n with
  | Text _ => None
  | Elem _ attrs _ => snd <$> List.find (fun kv => (fst kv =? key)%string) attrs
  end.

(** [class] is a multi-valued attribute: BeautifulSoup stores the list of its
    whitespace-separated values. *)
Definition classes (n : node) : option (list string) := words <$> attr "class" n.

Definition has_name (name : string) (n : node) : bool :=
  match n with
  | Text _ => false
  | Elem nm _ _ => (nm =? name)%string
  end.

(** How [class_=] is matched: against each value of the attribute, then
    against the values joined by spaces; a tag without the attribute never
    matches. *)
Definition class_matches (test : string -> bool) (n : node) : bool :=
  match classes n with
  | None => false
  | Some cs => existsb test cs || test (join " " cs)
  end.

Definition found (p : pattern) (s : string) : bool :=
  match search p s with Some _ => true | None => false end.

Definition text_of (n : node) : option string :=
  match n with
  | Text s => Some s
  | Elem _ _ _ => None
  end.

(** The strings [get_text] joins: every text node below the tag; with
    [strip] each one is stripped and the empty ones are left out. *)
Definition all_strings (strip_ : bool) (n : node) : list string :=
  let strings := omap text_of (descendants n) in
  if strip_
  then List.filter (fun s => negb (s =? "")%string) (List.map strip strings)
  else strings.

(** The reference implementation of the navigation methods on trees. *)
#[global] Instance dom_bs4 : Navigation node := {
  find_all_class n name cls :=
    Ok (List.filter (fun d => has_name name d && class_matches (String.eqb cls) d)
          (descendants n));
  find_all_string n p :=
    Ok (List.filter (found p) (omap text_of (descendants n)));
  find_class n name p :=
    Ok (List.find (fun d => has_name name d && class_matches (found p) d)
          (descendants n));
  get_text n separator strip_ := Ok (join separator (all_strings strip_ n))
}.

End Bs4.

(** ** parse-shopee.py *)

Module ParseShopee.
Import Py Re Bs4.

(** One row of the output, keyed as the script's dict is. *)
Record ProductRecord : Type := {
  product_name_ : string;   (* 'Product Name' *)
  price_rm : string;        (* 'Price (RM)' *)
  units_sold : string       (* 'Units Sold' *)
}.

(** What a call of [parse_shopee_html] mutates: its list [products] and the
    console. *)
Record state : Type := {
  products : list ProductRecord;
  stdout : list string
}.

(** No record and nothing printed yet. *)
Definition start : state := {| products := []; stdout := [] |}.

(** What [print] does with a line: it writes it, or it raises, the encoder
    of [sys.stdout] a [UnicodeEncodeError], the system an [OSError];
    [print_error line] is the exception, if there is one. *)
Class Console : Type := { print_error : string -> option exn }.

(** The console that writes every line.  Statements that name no console
    are about this one. *)
#[global] Instance reliable : Console := {| print_error _ := None |}.

(** [print(line)]: nothing is written when it raises. *)
Definition print {Con : Console} (line : string) : M state unit := fun st =>
  match print_error line with
  | Some e => (Raise e, st)
  | None => (Ok tt, {| products := products st; stdout := stdout st ++ [line] |})
  end.
Definition products_append (r : ProductRecord) : M state unit :=
  modify (fun st => {| products := products st ++ [r]; stdout := stdout st |}).

(** [str(x)] inside an f-string. *)
Definition str_opt (o : option string) : string := default "None"%string o.
Definition str_exn (e : exn) : string :=
  match e with
  | ValueError msg | RequestException msg | OSError msg | Exception msg => msg
  | HTTPError status => pretty status
  end.

(** r'LEGO.*\d{5}' with re.IGNORECASE *)
Definition RE_NAME : pattern :=
  compile (seq [lit "LEGO"; Star Dot; rep 5 (Set_ [Digit])]) true.
(** r'line-clamp-2' *)
Definition RE_NAME_DIV : pattern := compile (lit "line-clamp-2") false.
(** r'text-base/5.*font-medium' *)
Definition RE_PRICE_SPAN : pattern :=
  compile (seq [lit "text-base/5"; Star Dot; lit "font-medium"]) false.
(** r'RM\s*([0-9,.]+)' *)
Definition RE_PRICE : pattern :=
  compile (seq [lit "RM"; Star (Set_ [Space]);
                Group 1 (plus (Set_ [Range "0" "9"; Char ","; Char "."]))]) false.
(** r'text-shopee-black87.*text-xs' *)
Definition RE_SOLD_DIV : pattern :=
  compile (seq [lit "text-shopee-black87"; Star Dot; lit "text-xs"]) false.
(** r'([0-9kK.+,]+)\s*sold' *)
Definition RE_SOLD : pattern :=
  compile (seq [Group 1 (plus (Set_ [Range "0" "9"; Char "k"; Char "K";
                                     Char "."; Char "+"; Char ","]));
                Star (Set_ [Space]); lit "sold"]) false.

Section Extractor.
Context {Tag : Type} {Nav : Navigation Tag} {Bld : Builder Tag} {Con : Console}.

(** Lines 19-28: the product name, or a falsy value. *)
Definition extract_name (item : Tag) : Ex (option string) :=
  text_elements ← find_all_string item RE_NAME;
  let product_name :=
    match text_elements with
    | s :: _ => Some (strip s)
    | [] => None
    end in
  if truthy product_name then mret product_name
  else
    name_div ← find_class item "div" RE_NAME_DIV;
    match name_div with
    | Some d => t ← get_text d "" true; mret (Some t)
    | None => mret product_name
    end.

(** Lines 30-39: the price, or a falsy value. *)
Definition extract_price (item : Tag) : Ex (option string) :=
  price_span ← find_class item "span" RE_PRICE_SPAN;
  price ← match price_span with
          | Some sp => t ← get_text sp "" true; mret (Some (replace "," "" t))
          | None => mret None
          end;
  if truthy price then mret price
  else
    text ← get_text item "" false;
    match search RE_PRICE text with
    | Some price_match => mret (Some (replace "," "" (group price_match 1)))
    | None => mret price
    end.

(** Lines 41-52: the units sold, or a falsy value. *)
Definition extract_sold (item : Tag) : Ex (option string) :=
  sold_div ← find_class item "div" RE_SOLD_DIV;
  sold_units ← match sold_div with
               | Some d =>
                   t ← get_text d "" false;
                   match search RE_SOLD t with
                   | Some sold_match => mret (Some (strip (group sold_match 1)))
                   | None => mret None
                   end
               | None => mret None
               end;
  if truthy sold_units then mret sold_units
  else
    text ← get_text item "" false;
    match search RE_SOLD text with
    | Some sold_match => mret (Some (strip (group sold_match 1)))
    | None => mret sold_units
    end.

(** Lines 19-61: the body of the [try] block for the item numbered [idx]. *)
Definition process_item (idx : nat) (item : Tag) : M state unit :=
  product_name ← lift (extract_name item);
  price ← lift (extract_price item);
  sold_units ← lift (extract_sold item);
  if truthy product_name then
    products_append {| product_name_ := str_opt product_name;
                       price_rm := or_default price "N/A";
                       units_sold := or_default sold_units "N/A" |};;
    print ("Product " ++ pretty idx ++ ": " ++ str_opt product_name
           ++ " | RM" ++ str_opt price ++ " | " ++ str_opt sold_units ++ " sold")
  else mret tt.

(** Lines 17-64: the loop over [enumerate(items, idx)]. *)
Fixpoint parse_items (idx : nat) (items : list Tag) : M state unit :=
  match items with
  | [] => mret tt
  | item :: rest =>
      try_except (process_item idx item)
        (fun e => print ("Error parsing item " ++ pretty idx ++ ": " ++ str_exn e));;
      parse_items (S idx) rest
  end.

(** The records the container [item] adds to [products]. *)
Definition item_records (item : Tag) : list ProductRecord :=
  products (snd (process_item 0 item start)).

(** [parse_shopee_html(html_content)]; [products] starts empty. *)
Definition parse_shopee_html (html_content : string) : M state (list ProductRecord) :=
  soup ← lift (BeautifulSoup html_content "html.parser");
  modify (fun st => {| products := []; stdout := stdout st |});;
  items ← lift (find_all_class soup "div" "shop-search-result-view__item");
  print ("Found " ++ pretty (List.length items) ++ " product items");;
  parse_items 1 items;;
  gets products.

(** *** [main]: the working directory, the console and the CSV file *)

(** An entry of the working directory, as [open(...).read()] finds it. *)
Inductive file : Type :=
| Readable (content : string)
| Unreadable (e : exn).

(** What [main] acts on: the console, the directory, and the log of the
    files opened for writing with the text written to each. *)
Record world : Type := {
  console : list string;
  files : gmap string file;
  writes : list (string * string)
}.

Definition print_w (line : string) : M world unit := fun w =>
  match print_error line with
  | Some e => (Raise e, w)
  | None => (Ok tt, {| console := console w ++ [line]; files := files w;
                       writes := writes w |})
  end.

Definition ends_with (suffix s : string) : bool :=
  (String.length suffix <=? String.length s)%nat
  && (drop (String.length s - String.length suffix) s =? suffix)%string.

(** [fnmatch(name, 'shop-listing-*.txt')] *)
Definition fnmatch_listing (name : string) : bool :=
  String.prefix "shop-listing-" name && ends_with ".txt" (drop 13 name).

(** [sorted(glob.glob('shop-listing-*.txt'))] *)
Definition sorted_glob (w : world) : list string :=
  merge_sort String.le (List.filter fnmatch_listing (elements (dom (files w)))).

(** [open(file, 'r', encoding='utf-8')] and [f.read()] *)
Definition read_file (name : string) : M world string := fun w =>
  match files w !! name with
  | Some (Readable content) => (Ok content, w)
  | Some (Unreadable e) => (Raise e, w)
  | None => (Raise (OSError "No such file or directory"), w)
  end.

(** [open(name, 'w', ...)] followed by the writes that leave [content]. *)
Definition write_file (name content : string) : M world unit :=
  modify (fun w => {| console := console w;
                      files := <[name := Readable content]> (files w);
                      writes := writes w ++ [(name, content)] |}).

(** The call [parse_shopee_html(content)] from [main]: it prints on the
    same console. *)
Definition call_parse (content : string) : M world (list ProductRecord) := fun w =>
  let '(r, st) := parse_shopee_html content {| products := []; stdout := console w |} in
  (r, {| console := stdout st; files := files w; writes := writes w |}).

Definition QUOTE : ascii := "034".
Definition CR : ascii := "013".
Definition LF : ascii := "010".
Definition CRLF : string := String CR (String LF EmptyString).

(** One field as [csv.writer] writes it with the default dialect: quoted
    when it holds a delimiter, a quote or a line break, quotes doubled. *)
Definition csv_field (s : string) : string :=
  if has_char "," s || has_char QUOTE s || has_char CR s || has_char LF s
  then String QUOTE (replace QUOTE (String QUOTE (String QUOTE EmptyString)) s
                     ++ String QUOTE EmptyString)
  else s.
Definition csv_row (fields : list string) : string :=
  join "," (List.map csv_field fields) ++ CRLF.

Definition fieldnames : list string := ["Product Name"; "Price (RM)"; "Units Sold"]%string.

(** [writer.writeheader()] then [writer.writerows(all_products)] *)
Definition csv_text (rows : list ProductRecord) : string :=
  csv_row fieldnames
  ++ String.concat "" (List.map (fun r =>
       csv_row [product_name_ r; price_rm r; units_sold r]) rows).

(** Lines 74-79: the loop over the input files. *)
Fixpoint read_all (names : list string) (all_products : list ProductRecord)
    : M world (list ProductRecord) :=
  match names with
  | [] => mret all_products
  | name :: rest =>
      print_w (String LF ("Parsing " ++ name ++ "..."));;
      content ← read_file name;
      products ← call_parse content;
      read_all rest (all_products ++ products)
  end.

(** Lines 70-79: the records of all the input files. *)
Definition collect : M world (list ProductRecord) :=
  names ← gets sorted_glob;
  print_w ("Found " ++ pretty (List.length names) ++ " shop listing files" ++ String LF "");;
  read_all names [].

Definition main : M world unit :=
  all_products ← collect;
  match all_products with
  | _ :: _ =>
      write_file "shopee-products.csv" (csv_text all_products);;
      print_w (String LF ("✓ Exported " ++ pretty (List.length all_products)
                          ++ " products to shopee-products.csv"))
  | [] => mret tt
  end.

End Extractor.
End ParseShopee.

(** ** scrape-bricklink.py *)

Module ScrapeBricklink.
Import Py Re Bs4.

Fixpoint count_char (c : ascii) (s : string) : nat :=
  match s with
  | EmptyString => 0
  | String d s' => (if Ascii.eqb d c then 1 else 0) + count_char c s'
  end.
Fixpoint all_chars (f : ascii -> bool) (s : string) : bool :=
  match s with
  | EmptyString => true
  | String c s' => f c && all_chars f s'
  end.

(** *** [urllib.parse] *)

(** The kind of address that [ipaddress.ip_address] returns. *)
Inductive ip_version : Type := IPv4 | IPv6.

(** What [urlsplit] asks of the modules [ipaddress] and [unicodedata], which
    are not embedded. *)
Class UrlModules : Type := {
  (** [ipaddress.ip_address(s)]: the kind of the address [s], or [None] when
      [s] is no address and the call raises its [ValueError] *)
  ip_address : string -> option ip_version;
  (** [unicodedata.normalize('NFKC', s)] *)
  normalize_NFKC : string -> string
}.

(** The five components of [urlsplit]. *)
Record SplitResult : Type := {
  scheme_ : string;
  netloc_ : string;
  path_ : string;
  query_ : string;
  fragment_ : string
}.

(** [_WHATWG_C0_CONTROL_OR_SPACE]: the characters stripped from the head of
    a URL. *)
Definition c0_or_space (c : ascii) : bool := (code c <=? 32)%N.

Definition is_alpha (c : ascii) : bool := in_range "a" "z" c || in_range "A" "Z" c.

(** [c in scheme_chars] *)
Definition scheme_char (c : ascii) : bool :=
  is_alpha c || is_digit c || has_char c "+-.".

(** The scheme and the rest: the text before the first colon is the scheme
    when it starts with an ASCII letter and is made of [scheme_chars]. *)
Definition split_scheme (url : string) : string * string :=
  match split1 ":" url with
  | (String c more, Some rest) =>
      if is_alpha c && all_chars scheme_char (String c more)
      then (lower (String c more), rest)
      else (EmptyString, url)
  | _ => (EmptyString, url)
  end.

(** [_splitnetloc(url, 2)], given the text after the two slashes: the
    netloc ends before the first of the delimiters [/], [?] and [#]. *)
Fixpoint splitnetloc (s : string) : string * string :=
  match s with
  | EmptyString => (EmptyString, EmptyString)
  | String c s' =>
      if has_char c "/?#" then (EmptyString, s)
      else let '(netloc, rest) := splitnetloc s' in (String c netloc, rest)
  end.

(** [s.rpartition(sep)[2]]: what follows the last [sep], or all of [s]. *)
Definition after_last (sep : ascii) (s : string) : string :=
  List.last (split sep s) EmptyString.

(** r"\Av[a-fA-F0-9]+\..+\Z" *)
Definition RE_IPVFUTURE : regex :=
  seq [lit "v"; plus (Set_ [Range "a" "f"; Range "A" "F"; Range "0" "9"]);
       lit "."; plus Dot].

(** [re.match] of a pattern that ends in [\Z]: the pattern matches all of
    [s]. *)
Definition match_all (r : regex) (s : string) : bool :=
  match rmatch false r s ∅
          (fun s' _ => if (s' =? "")%string then Some tt else None) with
  | Some _ => true
  | None => false
  end.

Section UrlSplit.
Context {Url : UrlModules}.

(** [_check_bracketed_host(hostname)] *)
Definition check_bracketed_host (hostname : string) : Ex unit :=
  if String.prefix "v" hostname then
    if match_all RE_IPVFUTURE hostname then Ok tt
    else Raise (ValueError "IPvFuture address is invalid")
  else
    match ip_address hostname with
    | None =>
        Raise (ValueError (repr hostname
                           ++ " does not appear to be an IPv4 or IPv6 address"))
    | Some IPv4 => Raise (ValueError "An IPv4 address cannot be in brackets")
    | Some IPv6 => Ok tt
    end.

(** [_check_bracketed_netloc(netloc)] *)
Definition check_bracketed_netloc (netloc : string) : Ex unit :=
  let hostname_and_port := after_last "@" netloc in
  match split1 "[" hostname_and_port with
  | (before_bracket, Some bracketed) =>
      if negb (before_bracket =? "")%string
      then Raise (ValueError "Invalid IPv6 URL")
      else
        let '(hostname, after) := split1 "]" bracketed in
        let port := default EmptyString after in
        if negb (port =? "")%string && negb (String.prefix ":" port)
        then Raise (ValueError "Invalid IPv6 URL")
        else check_bracketed_host hostname
  | (_, None) => check_bracketed_host (fst (split1 ":" hostname_and_port))
  end.

(** [_checknetloc(netloc)] *)
Definition checknetloc (netloc : string) : Ex unit :=
  if (netloc =? "")%string || isascii netloc then Ok tt
  else
    let n := replace "?" "" (replace "#" "" (replace ":" "" (replace "@" "" netloc))) in
    let netloc2 := normalize_NFKC n in
    if (n =? netloc2)%string then Ok tt
    else if existsb (fun c => has_char c netloc2) ["/"; "?"; "#"; "@"; ":"]
    then Raise (ValueError ("netloc '" ++ netloc
                            ++ "' contains invalid characters under NFKC normalization"))
    else Ok tt.

(** The netloc of a text that starts with two slashes, checked, and what
    follows it. *)
Definition split_netloc (url : string) : Ex (string * string) :=
  if String.prefix "//" url then
    let '(netloc, rest) := splitnetloc (drop 2 url) in
    let opened := has_char "[" netloc in
    let closed := has_char "]" netloc in
    if (opened && negb closed) || (closed && negb opened)
    then Raise (ValueError "Invalid IPv6 URL")
    else
      (if opened && closed then check_bracketed_netloc netloc else Ok tt);;
      Ok (netloc, rest)
  else Ok (EmptyString, url).

(** [urllib.parse.urlsplit(url)], as in CPython 3.11.4 and later: leading
    controls and blanks are stripped, tabs and line breaks are removed, the
    scheme and the netloc are split off and the netloc is checked, the
    fragment is cut at the first [#] and the query at the first [?] of what
    is left. *)
Definition urlsplit (url : string) : Ex SplitResult :=
  let url := lstrip_with c0_or_space url in
  let url := replace "010" "" (replace "013" "" (replace "009" "" url)) in
  let '(scheme, url) := split_scheme url in
  '(netloc, url) ← split_netloc url;
  let '(url, fragment) := split1 "#" url in
  let '(url, query) := split1 "?" url in
  checknetloc netloc;;
  mret {| scheme_ := scheme; netloc_ := netloc; path_ := url;
          query_ := default EmptyString query;
          fragment_ := default EmptyString fragment |}.

(** [urllib.parse.urlparse(url).query]: [urlparse] leaves the query of
    [urlsplit] as it is. *)
Definition urlparse_query (url : string) : Ex string :=
  parsed ← urlsplit url; mret (query_ parsed).

End UrlSplit.

Definition hex_value (c : ascii) : option N :=
  if is_digit c then Some (code c - 48)%N
  else if in_range "a" "f" c then Some (code c - 87)%N
  else if in_range "A" "F" c then Some (code c - 55)%N
  else None.

(** [urllib.parse.unquote(s)]: a [%] with two hex digits becomes the
    character of that code, any other [%] stays.  (Codes above 127 are kept
    as they are; Python decodes them as UTF-8.) *)
Fixpoint unquote (s : string) : string :=
  match s with
  | EmptyString => EmptyString
  | String c rest =>
      if Ascii.eqb c "%" then
        match rest with
        | String a (String b s') =>
            match hex_value a, hex_value b with
            | Some x, Some y => String (ascii_of_N (16 * x + y)) (unquote s')
            | _, _ => String c (unquote rest)
            end
        | _ => String c (unquote rest)
        end
      else String c (unquote rest)
  end.

(** [urllib.parse.parse_qsl(qs)]: the [name=value] pairs between [&], those
    without [=] or with an empty value left out. *)
Definition parse_qsl (qs : string) : list (string * string) :=
  flat_map (fun name_value =>
    match split1 "=" name_value with
    | (name, Some value) =>
        if (value =? "")%string then []
        else [(unquote (replace "+" " " name), unquote (replace "+" " " value))]
    | (_, None) => []
    end) (split "&" qs).

(** [urllib.parse.parse_qs(qs)]: the values of each name, in order. *)
Definition parse_qs (qs : string) : gmap string (list string) :=
  fold_left (fun (parsed_result : gmap string (list string)) '(name, value) =>
    match parsed_result !! name with
    | Some values => <[name := (values ++ [value])%list]> parsed_result
    | None => <[name := [value]]> parsed_result
    end) (parse_qsl qs) ∅.

(** *** The network and the numbers *)

Record request : Type := {
  url_ : string;
  headers_ : list (string * string);
  timeout_ : Z
}.
Record response : Type := { status_code : Z; text : string }.

(** [requests.get]: what the network answers to a request. *)
Class Http : Type := { requests_get : request -> Ex response }.

(** Python's [float] values; [nearest s] is the double nearest to the
    decimal numeral [s]. *)
Class Float : Type := { float_t : Type; nearest : string -> float_t }.

(** The requests issued so far. *)
Abbreviation net := (list request).

(** [response.raise_for_status()] *)
Definition raise_for_status (r : response) : Ex unit :=
  if ((400 <=? status_code r) && (status_code r <? 600))%Z
  then Raise (HTTPError (status_code r))
  else Ok tt.

(** The strings of digits and dots that [float] accepts: at most one dot and
    at least one digit. *)
Definition decimal_numeral (s : string) : bool :=
  all_chars (fun c => is_digit c || Ascii.eqb c ".") s
  && (count_char "." s <=? 1)%nat
  && (count_char "." s <? String.length s)%nat.

(** [float(s)] for a string of digits and dots, which is all that
    [[\d,\.]+] leaves once its commas are removed.  (The signs, exponents
    and blanks that [float] accepts as well never reach it.) *)
Definition float {Flt : Float} (s : string) : Ex float_t :=
  if decimal_numeral s then Ok (nearest s)
  else Raise (ValueError ("could not convert string to float: " ++ repr s)).

(** *** The locator *)

Definition KEYS : list string := ["P"; "S"; "M"; "G"; "C"; "I"; "O"; "B"]%string.

(** Lines 38-46: the first key of [keys] that [params] holds, with the first
    of its values. *)
Fixpoint detect (keys : list string) (params : gmap string (list string))
    : Ex (option string * option string) :=
  match keys with
  | [] => Ok (None, None)
  | key :: rest =>
      match params !! key with
      | Some (v :: _) => Ok (Some key, Some v)
      | Some [] => Raise (Exception "list index out of range")
      | None => detect rest params
      end
  end.

(** Lines 35-49: item type and item id of a URL. *)
Definition locate {Url : UrlModules} (url : string) : Ex (string * string) :=
  query ← urlparse_query url;
  let params := parse_qs query in
  '(item_type, item_id) ← detect KEYS params;
  if negb (truthy item_type) || negb (truthy item_id)
  then Raise (ValueError ("Could not extract item type and ID from URL: " ++ url))
  else Ok (default EmptyString item_type, default EmptyString item_id).

(** *** Price boxes *)

Definition ws : regex := Set_ [Space].
Definition letters : regex := Set_ [Range "A" "Z"].
Definition amount_chars : regex := Set_ [Digit; Char ","; Char "."].

(** The tail the four price patterns share: \s*([A-Z]+)\s+([\d,\.]+) *)
Definition price_tail : list regex :=
  [Star ws; Group 1 (plus letters); plus ws; Group 2 (plus amount_chars)].
Definition count_tail : list regex := [Star ws; Group 1 (plus (Set_ [Digit]))].

Definition RE_TIMES_SOLD : pattern := compile (seq (lit "Times Sold:" :: count_tail)) true.
Definition RE_TOTAL_LOTS : pattern := compile (seq (lit "Total Lots:" :: count_tail)) true.
Definition RE_TOTAL_QTY : pattern := compile (seq (lit "Total Qty:" :: count_tail)) true.
Definition RE_MIN_PRICE : pattern := compile (seq (lit "Min Price:" :: price_tail)) true.
Definition RE_AVG_PRICE : pattern := compile (seq (lit "Avg Price:" :: price_tail)) true.
Definition RE_QTY_AVG_PRICE : pattern := compile (seq (lit "Qty Avg Price:" :: price_tail)) true.
Definition RE_MAX_PRICE : pattern := compile (seq (lit "Max Price:" :: price_tail)) true.

(** The pattern that the text "Avg Price:" alone makes, with IGNORECASE. *)
Definition AVG_LABEL : pattern := compile (seq [lit "Avg Price:"]) true.

Section Fetcher.
Context {Tag : Type} {Nav : Navigation Tag} {Bld : Builder Tag} {Sel : Css Tag}
  {Net : Http} {Flt : Float} {Url : UrlModules}.

(** A value of the dict [data]: a count, or a dict of currency and amount. *)
Inductive value : Type :=
| VInt (n : Z)
| VMoney (currency : string) (amount : float_t).

Abbreviation bucket := (gmap string value).

(** [{'currency': m.group(1).upper(), 'amount': float(m.group(2).replace(',', ''))}] *)
Definition money (m : match_) : Ex value :=
  amount ← float (replace "," "" (group m 2));
  mret (VMoney (upper (group m 1)) amount).

Definition set_count (key : string) (p : pattern) (text : string) (data : bucket)
    : Ex bucket :=
  match search p text with
  | Some m => n ← int (group m 1); mret (<[key := VInt n]> data)
  | None => mret data
  end.

Definition set_price (key : string) (p : pattern) (text : string) (data : bucket)
    : Ex bucket :=
  match search p text with
  | Some m => v ← money m; mret (<[key := v]> data)
  | None => mret data
  end.

(** The count that [p] finds in [text], if it finds one, has no more digits
    than [int] accepts. *)
Definition count_ok (p : pattern) (text : string) : bool :=
  match search p text with
  | Some m => (String.length (group m 1) <=? MAX_STR_DIGITS)%nat
  | None => true
  end.

(** The amount that [p] finds in [text], if it finds one, is a numeral that
    [float] accepts once its commas are removed. *)
Definition amount_ok (p : pattern) (text : string) : bool :=
  match search p text with
  | Some m => decimal_numeral (replace "," "" (group m 2))
  | None => true
  end.

(** Lines 94-142: a bucket from the text of its box. *)
Definition extract_price_text (text : string) : Ex (option bucket) :=
  if contains "(unavailable)" (lower text) then mret None
  else
    let data : bucket := ∅ in
    data ← set_count "times_sold" RE_TIMES_SOLD text data;
    data ← set_count "total_lots" RE_TOTAL_LOTS text data;
    data ← set_count "total_qty" RE_TOTAL_QTY text data;
    data ← set_price "min_price" RE_MIN_PRICE text data;
    data ← set_price "avg_price" RE_AVG_PRICE text data;
    data ← set_price "qty_avg_price" RE_QTY_AVG_PRICE text data;
    data ← set_price "max_price" RE_MAX_PRICE text data;
    mret (if bool_decide (size data = 0%nat) then None else Some data).

(** [extract_price_box(box)] *)
Definition extract_price_box (box : Tag) : Ex (option bucket) :=
  text ← get_text box (String "010" EmptyString) true;
  extract_price_text text.

(** *** [scrape_bricklink_item] *)

Record ItemPriceSummary : Type := {
  item_id : string;
  item_type : string;
  title : option string;
  weight : option string;
  six_month_new : option bucket;
  six_month_used : option bucket;
  current_new : option bucket;
  current_used : option bucket
}.

Definition headers : list (string * string) :=
  [("User-Agent", "Mozilla/5.0 (Windows NT 10.0; Win64; x64) AppleWebKit/537.36 (KHTML, like Gecko) Chrome/117.0.0.0 Safari/537.36");
   ("Accept", "text/html,application/xhtml+xml,application/xml;q=0.9,*/*;q=0.8");
   ("Accept-Language", "en-US,en;q=0.9")]%string.

Definition SELECTOR_PRICE_BOXES : string :=
  "#id-main-legacy-table > tr table > tr:nth-of-type(3) > td > table > tr > td".

(** [requests.get(url, headers=headers, timeout=30)]: the request is issued,
    then answered or failed. *)
Definition http_get (url : string) : M net response := fun issued =>
  let req := {| url_ := url; headers_ := headers; timeout_ := 30 |} in
  (requests_get req, (issued ++ [req])%list).

(** [elem.text.strip() if elem else None] *)
Definition text_or_none (elem : option Tag) : Ex (option string) :=
  match elem with
  | Some e => t ← get_text e "" false; mret (Some (strip t))
  | None => mret None
  end.

(** [boxes[i]] *)
Definition getitem (boxes : list Tag) (i : nat) : Ex Tag :=
  match boxes !! i with
  | Some b => Ok b
  | None => Raise (Exception "list index out of range")
  end.

(** Lines 145-156: the four buckets, all or none. *)
Definition pricing_data (price_boxes : list Tag)
    : Ex (option bucket * option bucket * option bucket * option bucket) :=
  if (4 <=? List.length price_boxes)%nat then
    b0 ← getitem price_boxes 0; six_month_new ← extract_price_box b0;
    b1 ← getitem price_boxes 1; six_month_used ← extract_price_box b1;
    b2 ← getitem price_boxes 2; current_new ← extract_price_box b2;
    b3 ← getitem price_boxes 3; current_used ← extract_price_box b3;
    mret (six_month_new, six_month_used, current_new, current_used)
  else mret (None, None, None, None).

Definition scrape_bricklink_item (url : string) : M net ItemPriceSummary :=
  '(item_type, item_id) ← lift (locate url);
  response ← http_get url;
  lift (raise_for_status response);;
  soup ← lift (BeautifulSoup (text response) "lxml");
  title_elem ← lift (select_one soup "h1#item-name-title");
  title ← lift (text_or_none title_elem);
  weight_elem ← lift (select_one soup "span#item-weight-info");
  weight ← lift (text_or_none weight_elem);
  let price_guide_url :=
    ("https://www.bricklink.com/catalogPG.asp?" ++ item_type ++ "=" ++ item_id)%string in
  price_response ← http_get price_guide_url;
  lift (raise_for_status price_response);;
  price_soup ← lift (BeautifulSoup (text price_response) "lxml");
  price_boxes ← lift (select price_soup SELECTOR_PRICE_BOXES);
  '(b0, b1, b2, b3) ← lift (pricing_data price_boxes);
  mret {| item_id := item_id; item_type := item_type;
          title := title; weight := weight;
          six_month_new := b0; six_month_used := b1;
          current_new := b2; current_used := b3 |}.

End Fetcher.
End ScrapeBricklink.

(** ** Sample inputs and test doubles *)

Module Examples.
Import Py Re Bs4 ParseShopee ScrapeBricklink.
Local Open Scope string_scope.

(** A container with the styled name, price and sold elements. *)
Definition item_styled : node :=
  Elem "div" [("class", "shop-search-result-view__item col-xs-2")]
    [Elem "div" [("class", "line-clamp-2 break-words")] [Text " LEGO City 60312 Police Car "];
     Elem "span" [("class", "text-base/5 truncate font-medium")] [Text "1,299.00"];
     Elem "div" [("class", "truncate text-shopee-black87 text-xs min-h-4")] [Text "1,234 sold"]].

(** A container that is plain text. *)
Definition item_plain : node :=
  Elem "div" [("class", "shop-search-result-view__item")]
    [Text "LEGO Star Wars 75192 ... RM 1,299.00 ... 2.3k sold"].

(** A container with a title and nothing else. *)
Definition item_title_only : node :=
  Elem "div" [("class", "shop-search-result-view__item")]
    [Elem "div" [("class", "line-clamp-2")] [Text "Brick separator"]].

(** A container without a name. *)
Definition item_nameless : node :=
  Elem "div" [("class", "shop-search-result-view__item")] [Text "RM 5.00 3 sold"].

(** A plain-text container whose sold count is comma-grouped. *)
Definition item_plain_grouped : node :=
  Elem "div" [("class", "shop-search-result-view__item")]
    [Text "LEGO Creator 10281 RM 1,299.00 1,234 sold"].






(** Modules that know the two loopback addresses and normalize nothing. *)
Definition loopback_modules : UrlModules := {|
  ip_address s :=
    if s =? "::1" then Some IPv6
    else if s =? "127.0.0.1" then Some IPv4
    else None;
  normalize_NFKC s := s
|}.

(** A parser that answers every markup with the same document. *)
Definition fixed_builder (doc : node) : Builder node := {|
  BeautifulSoup _ _ := Ok doc
|}.

(** A saved page with two containers, one of them nameless. *)
Definition listing_page : node :=
  Elem "html" [] [Elem "body" [] [item_nameless; item_title_only]].

(** A directory with one listing file and one other file. *)
Definition one_listing : world := {|
  console := [];
  files := {[ "shop-listing-1.txt" := Readable "<html>...</html>";
              "notes.txt" := Readable "to do" ]};
  writes := []
|}.

(** A network that answers every request with status 200 and the URL as
    body. *)
Definition echo_http : Http := {|
  requests_get req := Ok {| status_code := 200; text := url_ req |}
|}.

(** A selector engine that finds no single element and the same list of
    boxes on every page. *)
Definition fixed_css (boxes : list node) : Css node := {|
  select_one _ _ := Ok None;
  select _ _ := Ok boxes
|}.

(** Floats stood for by their numerals. *)
Definition numeral_float : Float := {| float_t := string; nearest s := s |}.

Definition page : node := Elem "html" [] [Elem "body" [] []].

(** A box marked unavailable that also shows a price line. *)
Definition box_unavailable : node :=
  Elem "td" [] [Elem "b" [] [Text " (Unavailable) "];
                Text "Qty Avg Price: USD 5.00"].

(** A box without any of the seven fields. *)
Definition box_blank : node := Elem "td" [] [Text "Price Guide"].

(** A box with a count and the quantity average only. *)
Definition box_qty_avg : node :=
  Elem "td" [] [Text "Times Sold: 12"; Text " "; Text "Qty Avg Price: usd 1,012.34"].

(** A box whose quantity average is not a number. *)
Definition box_bad_amount : node :=
  Elem "td" [] [Text "Qty Avg Price: USD 1.2.3"].

(** A text whose count has 4301 digits, one more than [int] accepts. *)
Definition text_long_count : string :=
  "Times Sold: " ++ String.concat "" (repeat "7" 4301)
  ++ String "010" "Qty Avg Price: USD 5.00".

Definition text_unavailable : string :=
  "(Unavailable)" ++ String "010" "Qty Avg Price: USD 5.00".
Definition text_qty_avg : string :=
  "Times Sold: 12" ++ String "010" "Qty Avg Price: usd 1,012.34".

(** A directory with two listing files, the second of them unreadable. *)
Definition unreadable_listing : world := {|
  console := [];
  files := {[ "shop-listing-1.txt" := Readable "<html>...</html>";
              "shop-listing-2.txt" := Unreadable (OSError "Permission denied") ]};
  writes := []
|}.

(** A network on which every page answers with status 404. *)
Definition missing_http : Http := {|
  requests_get req := Ok {| status_code := 404; text := "Not Found" |}
|}.

(** Five boxes, the fifth of them malformed. *)
Definition boxes_five : list node :=
  [box_qty_avg; box_unavailable; box_blank; box_qty_avg; box_bad_amount].

(** Four boxes, the second of them malformed. *)
Definition boxes_bad_second : list node :=
  [box_qty_avg; box_bad_amount; box_blank; box_blank].

Definition url_set : string :=
  "https://www.bricklink.com/v2/catalog/catalogitem.page?S=31113-1".
Definition url_set_and_part : string :=
  "https://www.bricklink.com/v2/catalog/catalogitem.page?S=31113-1&P=3001".
Definition url_no_locator : string :=
  "https://www.bricklink.com/v2/catalog/catalogitem.page?id=31113".

End Examples.

(** ** What a pattern matches, stated without the matcher *)

Module ReSpec.
Import Py Re.
Local Open Scope string_scope.

(** [matches ic r w g g']: the pattern [r] matches exactly the text [w],
    and the groups [g] become [g']. *)
Inductive matches (ic : bool) : regex -> string -> groups -> groups -> Prop :=
| matches_eps (g : groups) : matches ic Eps "" g g
| matches_set (items : list item) (c : ascii) (g : groups) :
    set_match ic items c = true ->
    matches ic (Set_ items) (String c "") g g
| matches_dot (c : ascii) (g : groups) :
    Ascii.eqb c "010" = false ->
    matches ic Dot (String c "") g g
| matches_seq (r1 r2 : regex) (w1 w2 : string) (g g1 g2 : groups) :
    matches ic r1 w1 g g1 -> matches ic r2 w2 g1 g2 ->
    matches ic (Seq r1 r2) (w1 ++ w2) g g2
| matches_star_stop (r : regex) (g : groups) : matches ic (Star r) "" g g
| matches_star_more (r : regex) (w1 w2 : string) (g g1 g2 : groups) :
    matches ic r w1 g g1 -> matches ic (Star r) w2 g1 g2 ->
    matches ic (Star r) (w1 ++ w2) g g2
| matches_group (n : nat) (r : regex) (w : string) (g g1 : groups) :
    matches ic r w g g1 ->
    matches ic (Group n r) w g (<[n := w]> g1).

(** Patterns without a numbered group. *)
Fixpoint group_free (r : regex) : bool :=
  match r with
  | Eps | Set_ _ | Dot => true
  | Seq r1 r2 => group_free r1 && group_free r2
  | Star r' => group_free r'
  | Group _ _ => false
  end.

(** The characters of the sets the scripts' patterns capture. *)
Definition sold_char (c : ascii) : bool :=
  is_digit c || has_char c "kK.+,".
Definition price_char (c : ascii) : bool :=
  is_digit c || Ascii.eqb c ".".
Definition upper_letter (c : ascii) : bool := in_range "A" "Z" c.
Definition not_space (c : ascii) : bool := negb (is_space c).

(** A match with the text of its groups in upper case. *)
Definition upper_match (m : match_) : match_ :=
  mk_match (m_start m) (upper <$> m_groups m).

Fixpoint every (f : ascii -> bool) (s : string) : bool :=
  match s with
  | EmptyString => true
  | String c s' => f c && every f s'
  end.

End ReSpec.

(** ** The records of one input file *)

Module Batch.
Import Py Bs4 ParseShopee.

Section Files.
Context {Tag : Type} {Nav : Navigation Tag} {Bld : Builder Tag}.



End Files.
End Batch.

(** ** Well-formed buckets and the two requests *)

Module Buckets.
Import Py Re Bs4 ScrapeBricklink ReSpec.
Local Open Scope string_scope.

Definition count_keys : list string := ["times_sold"; "total_lots"; "total_qty"].
Definition price_keys : list string :=
  ["min_price"; "avg_price"; "qty_avg_price"; "max_price"].

Section Values.
Context {Flt : Float}.

(** A count under a count key and not negative; a price under a price key,
    with a non-empty currency of upper-case letters and the float of a
    numeral as amount. *)
Definition well_formed (key : string) (v : value) : Prop :=
  match v with
  | VInt n => key ∈ count_keys /\ (0 <= n)%Z
  | VMoney currency amount =>
      key ∈ price_keys
      /\ currency <> "" /\ every upper_letter currency = true
      /\ exists numeral, decimal_numeral numeral = true /\ amount = nearest numeral
  end.

End Values.

(** The request that [requests.get] sends for [url]. *)
Definition page_request (url : string) : request :=
  {| url_ := url; headers_ := headers; timeout_ := 30 |}.

(** The address of the price guide of an item. *)
Definition price_guide_url (kind id : string) : string :=
  "https://www.bricklink.com/catalogPG.asp?" ++ kind ++ "=" ++ id.

End Buckets.

(** ** Properties of the pattern matcher *)

Module ReProofs.
Import Py Re.
Local Open Scope string_scope.
Local Open Scope list_scope.

Lemma drop_empty (n : nat) : drop n "" = "".
Proof. by destruct n. Qed.

Lemma drop_drop (n m : nat) (s : string) : drop n (drop m s) = drop (m + n) s.
Proof.
  revert s. induction m as [|m IH]; intros s; [reflexivity|].
  destruct s as [|c s]; simpl; [apply drop_empty|apply IH].
Qed.

(** A literal consumes its text and nothing else. *)
Lemma rmatch_lit {R : Type} (ic : bool) (str s : string) (g : groups)
    (k : string -> groups -> option R) :
  rmatch ic (lit str) s g k
  = match lit_rest ic str s with
    | Some s' => k s' g
    | None => None
    end.
Proof.
  revert s. induction str as [|c str IH]; intros s; [reflexivity|].
  cbn [lit rmatch lit_rest].
  destruct s as [|d s]; [reflexivity|].
  destruct (set_match ic [Char c] d); [apply IH|reflexivity].
Qed.

Lemma lit_rest_app (ic : bool) (a b s : string) :
  lit_rest ic (a ++ b)%string s
  = match lit_rest ic a s with
    | Some s' => lit_rest ic b s'
    | None => None
    end.
Proof.
  revert s. induction a as [|c a IH]; intros s; [reflexivity|].
  change (String c a ++ b)%string with (String c (a ++ b)%string).
  cbn [lit_rest]. destruct s as [|d s]; [reflexivity|].
  destruct (set_match ic [Char c] d); [apply IH|reflexivity].
Qed.

Lemma lit_rest_drop (ic : bool) (str s s' : string) :
  lit_rest ic str s = Some s' ->
  s' = drop (String.length str) s /\ String.length str <= String.length s.
Proof.
  revert s. induction str as [|c str IH]; intros s.
  - intros [= <-]. simpl. split; [reflexivity|lia].
  - cbn [lit_rest]. destruct s as [|d s]; [discriminate|].
    destruct (set_match ic [Char c] d); [|discriminate].
    intros H. destruct (IH s H) as [-> Hlen]. simpl. split; [reflexivity|lia].
Qed.

(** A pattern that starts with a literal matches only where the literal
    does. *)
Lemma match_here_lit_head (ic : bool) (str : string) (tail : list regex)
    (s : string) (r : string * groups) :
  match_here (compile (seq (lit str :: tail)) ic) s = Some r ->
  exists s', lit_rest ic str s = Some s'.
Proof.
  unfold match_here. cbn [syntax ignorecase seq fold_right rmatch].
  rewrite rmatch_lit. destruct (lit_rest ic str s) as [s'|]; [eauto|discriminate].
Qed.

(** Prefixing a pattern with more literal text moves its matches by the
    length of that text and changes nothing else. *)
Lemma match_here_lit_prefix (ic : bool) (a b : string) (tail : list regex)
    (s : string) (r : string * groups) :
  match_here (compile (seq (lit (a ++ b)%string :: tail)) ic) s = Some r ->
  String.length a <= String.length s
  /\ match_here (compile (seq (lit b :: tail)) ic) (drop (String.length a) s) = Some r.
Proof.
  unfold match_here. cbn [syntax ignorecase seq fold_right rmatch].
  rewrite !rmatch_lit, lit_rest_app.
  destruct (lit_rest ic a s) as [s1|] eqn:Ha; [|discriminate].
  destruct (lit_rest_drop ic a s s1 Ha) as [-> Hlen].
  intros H. split; [exact Hlen|exact H].
Qed.

(** [search] returns the leftmost offset at which the pattern matches. *)
Lemma search_from_inv (p : pattern) (s : string) (i : nat) (m : match_) :
  search_from p i s = Some m ->
  exists k rest,
    k <= String.length s
    /\ m_start m = i + k
    /\ match_here p (drop k s) = Some (rest, m_groups m)
    /\ forall j, j < k -> match_here p (drop j s) = None.
Proof.
  revert i. induction s as [|c s IH]; intros i; cbn [search_from].
  - destruct (match_here p "") as [[rest g]|] eqn:Hm; [|discriminate].
    intros [= <-]. exists 0, rest. simpl.
    split; [lia|split; [lia|split; [exact Hm|intros; lia]]].
  - destruct (match_here p (String c s)) as [[rest g]|] eqn:Hm.
    + intros [= <-]. exists 0, rest. simpl.
      split; [lia|split; [lia|split; [exact Hm|intros; lia]]].
    + intros H. destruct (IH (S i) H) as (k & rest & Hk & Hst & Hmk & Hlt).
      exists (S k), rest. simpl.
      split; [lia|split; [lia|split; [exact Hmk|]]].
      intros [|j] Hj; [exact Hm|]. simpl. apply Hlt. lia.
Qed.

Lemma search_from_intro (p : pattern) (s : string) (i k : nat) (rest : string)
    (g : groups) :
  k <= String.length s ->
  match_here p (drop k s) = Some (rest, g) ->
  (forall j, j < k -> match_here p (drop j s) = None) ->
  search_from p i s = Some (mk_match (i + k) g).
Proof.
  revert i s. induction k as [|k IH]; intros i s Hk Hm Hlt.
  - simpl in Hm. destruct s as [|c s]; cbn [search_from]; rewrite Hm;
      by rewrite Nat.add_0_r.
  - destruct s as [|c s]; [simpl in Hk; lia|].
    cbn [search_from]. pose proof (Hlt 0 ltac:(lia)) as H0. simpl in H0.
    rewrite H0. replace (i + S k) with (S i + k) by lia.
    apply IH; [simpl in Hk; lia|exact Hm|].
    intros j Hj. apply (Hlt (S j)). lia.
Qed.

Lemma length_drop (n : nat) (s : string) :
  String.length (drop n s) = String.length s - n.
Proof.
  revert s. induction n as [|n IH]; intros s; [simpl; lia|].
  destruct s as [|c s]; [reflexivity|]. simpl. apply IH.
Qed.

(** [positions] lists every offset at which the pattern matches. *)
Lemma positions_from_complete (p : pattern) (s : string) (i j : nat)
    (r : string * groups) :
  j <= String.length s ->
  match_here p (drop j s) = Some r ->
  i + j ∈ positions_from p i s.
Proof.
  revert i s. induction j as [|j IH]; intros i s Hj Hm.
  - simpl in Hm. rewrite Nat.add_0_r.
    destruct s as [|c s]; cbn [positions_from]; rewrite Hm; set_solver.
  - destruct s as [|c s]; [simpl in Hj; lia|].
    cbn [positions_from]. apply elem_of_app. right.
    replace (i + S j) with (S i + j) by lia.
    apply IH; [simpl in Hj; lia|exact Hm].
Qed.

End ReProofs.

(** ** The matcher agrees with the declarative reading of patterns *)

Module ReSpecProofs.
Import Py Re ReSpec ReProofs ParseShopee ScrapeBricklink.
Local Open Scope string_scope.
Local Open Scope list_scope.

Lemma app_assoc_string (a b c : string) :
  (a ++ (b ++ c))%string = ((a ++ b) ++ c)%string.
Proof.
  induction a as [|d a IH]; [reflexivity|].
  change (String d a ++ (b ++ c))%string with (String d (a ++ (b ++ c))%string).
  change ((String d a ++ b) ++ c)%string with (String d ((a ++ b) ++ c)%string).
  by rewrite IH.
Qed.

Lemma length_app_string (a b : string) :
  String.length (a ++ b)%string = String.length a + String.length b.
Proof.
  induction a as [|d a IH]; [reflexivity|].
  change (String d a ++ b)%string with (String d (a ++ b)%string).
  simpl. by rewrite IH.
Qed.

Lemma take_app_exact (w s' : string) :
  take (String.length (w ++ s')%string - String.length s') (w ++ s')%string = w.
Proof.
  rewrite length_app_string.
  replace (String.length w + String.length s' - String.length s')
    with (String.length w) by lia.
  induction w as [|d w IH]; [by destruct s'|].
  change (String d w ++ s')%string with (String d (w ++ s')%string).
  simpl. by rewrite IH.
Qed.

(** Whatever the matcher accepts, it accepts by consuming a prefix that the
    pattern matches, and it hands the rest and the groups to the
    continuation. *)
Lemma rmatch_sound {R : Type} (ic : bool) (r : regex) :
  forall (s : string) (g : groups) (k : string -> groups -> option R) (x : R),
    rmatch ic r s g k = Some x ->
    exists w s' g', s = (w ++ s')%string /\ matches ic r w g g' /\ k s' g' = Some x.
Proof.
  induction r as [|items| |r1 IH1 r2 IH2|r IH|n r IH]; intros s g k x; cbn [rmatch].
  - intros Hk. exists "", s, g. repeat split; [constructor|exact Hk].
  - destruct s as [|c s]; [discriminate|].
    destruct (set_match ic items c) eqn:Hc; [|discriminate].
    intros Hk. exists (String c ""), s, g. repeat split; [by constructor|exact Hk].
  - destruct s as [|c s]; [discriminate|].
    destruct (Ascii.eqb c "010") eqn:Hc; [discriminate|].
    intros Hk. exists (String c ""), s, g. repeat split; [by constructor|exact Hk].
  - intros H. apply IH1 in H as (w1 & s1 & g1 & -> & Hm1 & H).
    apply IH2 in H as (w2 & s2 & g2 & -> & Hm2 & H).
    exists (w1 ++ w2)%string, s2, g2. rewrite app_assoc_string.
    repeat split; [by econstructor|exact H].
  - generalize (String.length s). intros fuel. revert s g.
    induction fuel as [|fuel IHf]; intros s g.
    + intros Hk. exists "", s, g. repeat split; [constructor|exact Hk].
    + match goal with
      | |- context [rmatch ic r s g ?k'] => destruct (rmatch ic r s g k') as [y|] eqn:Hr
      end.
      * intros [= ->]. apply IH in Hr as (w1 & s1 & g1 & -> & Hm1 & Hr).
        destruct (String.length s1 <? String.length (w1 ++ s1)%string)%nat;
          [|discriminate].
        apply IHf in Hr as (w2 & s2 & g2 & -> & Hm2 & Hr).
        exists (w1 ++ w2)%string, s2, g2. rewrite app_assoc_string.
        repeat split; [by econstructor|exact Hr].
      * intros Hk. exists "", s, g. repeat split; [constructor|exact Hk].
  - intros H. apply IH in H as (w & s' & g1 & -> & Hm & H).
    rewrite take_app_exact in H.
    exists w, s', (<[n := w]> g1). repeat split; [by constructor|exact H].
Qed.

Lemma matches_group_free (ic : bool) (r : regex) (w : string) (g g' : groups) :
  matches ic r w g g' -> group_free r = true -> g' = g.
Proof.
  induction 1 as [| | |r1 r2 w1 w2 g g1 g2 _ IH1 _ IH2| |r w1 w2 g g1 g2 _ IH1 _ IH2|];
    cbn [group_free]; intros Hf; try reflexivity.
  - apply andb_true_iff in Hf as [Hf1 Hf2]. by rewrite (IH2 Hf2), (IH1 Hf1).
  - by rewrite (IH2 Hf), (IH1 Hf).
  - discriminate.
Qed.

Lemma every_app (f : ascii -> bool) (a b : string) :
  every f (a ++ b)%string = every f a && every f b.
Proof.
  induction a as [|c a IH]; [reflexivity|].
  change (String c a ++ b)%string with (String c (a ++ b)%string).
  simpl. rewrite IH. by rewrite andb_assoc.
Qed.

Lemma every_impl (f h : ascii -> bool) (s : string) :
  (forall c, f c = true -> h c = true) -> every f s = true -> every h s = true.
Proof.
  intros Hfh. induction s as [|c s IH]; [done|]. simpl.
  intros [Hc Hs]%andb_true_iff. by rewrite (Hfh c Hc), (IH Hs).
Qed.

(** A starred set matches a run of characters of the set. *)
Lemma matches_star_set (ic : bool) (items : list item) (w : string) (g g' : groups) :
  matches ic (Star (Set_ items)) w g g' ->
  g' = g /\ every (set_match ic items) w = true.
Proof.
  intros H. remember (Star (Set_ items)) as r eqn:Hr.
  induction H as [| | | | |r w1 w2 g g1 g2 H1 _ H2 IH2|]; try discriminate.
  - done.
  - injection Hr as ->. destruct (IH2 eq_refl) as [-> Hw2].
    inversion H1 as [|items' c g0 Hc| | | | |]; subst. split; [reflexivity|].
    rewrite every_app, Hw2. simpl. by rewrite Hc.
Qed.

(** One or more characters of a set: a run of the set that is not empty. *)
Lemma matches_plus_set (ic : bool) (items : list item) (w : string) (g g' : groups) :
  matches ic (plus (Set_ items)) w g g' ->
  g' = g /\ w <> "" /\ every (set_match ic items) w = true.
Proof.
  unfold plus. intros H. inversion H as [| | |r1 r2 w1 w2 g0 g1 g2 H1 H2| | |]; subst.
  inversion H1 as [|items' c g0' Hc| | | | |]; subst.
  apply matches_star_set in H2 as [-> Hw2].
  split; [reflexivity|]. split; [done|].
  change (String c "" ++ w2)%string with (String c w2). simpl.
  by rewrite Hc, Hw2.
Qed.

(** A run without blanks is its own [strip]. *)
Lemma strip_no_space (w : string) : every not_space w = true -> strip w = w.
Proof.
  intros Hw. unfold strip.
  assert (Hl : lstrip w = w).
  { destruct w as [|c w]; [reflexivity|]. simpl in *.
    apply andb_true_iff in Hw as [Hc _]. unfold not_space in Hc.
    by destruct (is_space c). }
  rewrite Hl. induction w as [|c w IH]; [reflexivity|].
  simpl in Hw. apply andb_true_iff in Hw as [Hc Hw].
  assert (Hlw : lstrip w = w).
  { destruct w as [|d w']; [reflexivity|]. simpl in *.
    apply andb_true_iff in Hw as [Hd _]. unfold not_space in Hd.
    by destruct (is_space d). }
  cbn [rstrip]. rewrite (IH Hw Hlw).
  unfold not_space in Hc. destruct w; [by destruct (is_space c)|reflexivity].
Qed.

Lemma matches_seq_inv (ic : bool) (r1 r2 : regex) (w : string) (g g' : groups) :
  matches ic (Seq r1 r2) w g g' ->
  exists w1 w2 g1,
    w = (w1 ++ w2)%string /\ matches ic r1 w1 g g1 /\ matches ic r2 w2 g1 g'.
Proof.
  inversion 1 as [| | |r1' r2' w1 w2 g0 g1 g2 H1 H2| | |]; subst.
  by exists w1, w2, g1.
Qed.

Lemma matches_group_inv (ic : bool) (n : nat) (r : regex) (w : string)
    (g g' : groups) :
  matches ic (Group n r) w g g' ->
  exists g1, matches ic r w g g1 /\ g' = <[n := w]> g1.
Proof.
  inversion 1 as [| | | | | |n' r' w' g0 g1 H1]; subst. by exists g1.
Qed.

Lemma matches_eps_inv (ic : bool) (w : string) (g g' : groups) :
  matches ic Eps w g g' -> g' = g.
Proof. by inversion 1. Qed.

Lemma lit_group_free (str : string) : group_free (lit str) = true.
Proof. induction str as [|c str IH]; [reflexivity|exact IH]. Qed.

(** The groups of a match that [search] returns are those of some text
    that the pattern matches. *)
Lemma search_matches (p : pattern) (text : string) (m : match_) :
  search p text = Some m ->
  exists w, matches (ignorecase p) (syntax p) w ∅ (m_groups m).
Proof.
  intros H. apply search_from_inv in H as (k & rest & _ & _ & Hm & _).
  unfold match_here in Hm.
  apply rmatch_sound in Hm as (w & s' & g' & _ & Hw & [= _ <-]).
  by exists w.
Qed.

Ltac by_cases_of c :=
  destruct c as [[] [] [] [] [] [] [] []];
  vm_compute; intros; first [reflexivity | discriminate].

Lemma sold_set_char (c : ascii) :
  set_match false [Range "0" "9"; Char "k"; Char "K"; Char "."; Char "+"; Char ","] c
    = true ->
  sold_char c && not_space c = true.
Proof. by_cases_of c. Qed.

Lemma price_set_char (ic : bool) (c : ascii) :
  set_match ic [Range "0" "9"; Char ","; Char "."] c = true ->
  price_char c || Ascii.eqb c "," = true.
Proof. destruct ic; by_cases_of c. Qed.

Lemma amount_set_char (ic : bool) (c : ascii) :
  set_match ic [Digit; Char ","; Char "."] c = true ->
  price_char c || Ascii.eqb c "," = true.
Proof. destruct ic; by_cases_of c. Qed.

Lemma digit_set_char (ic : bool) (c : ascii) :
  set_match ic [Digit] c = true -> is_digit c = true.
Proof. destruct ic; by_cases_of c. Qed.

Lemma letter_set_char (c : ascii) :
  set_match true [Range "A" "Z"] c = true -> upper_letter (upper_char c) = true.
Proof. by_cases_of c. Qed.

(** The first group of a match of the sold pattern is a non-empty run of
    the characters [0-9kK.+,]. *)
Lemma sold_group (text : string) (m : match_) :
  search RE_SOLD text = Some m ->
  group m 1 <> "" /\ every sold_char (group m 1) = true
  /\ every not_space (group m 1) = true.
Proof.
  intros H. apply search_matches in H as [w H].
  cbn [RE_SOLD ignorecase syntax seq fold_right] in H.
  apply matches_seq_inv in H as (w1 & w2 & g1 & _ & Hg & Hrest).
  apply matches_group_free in Hrest; [|reflexivity].
  apply matches_group_inv in Hg as (g0 & Hplus & ->).
  apply matches_plus_set in Hplus as (-> & Hne & Hall).
  unfold group. rewrite Hrest, lookup_insert_eq. cbn [default].
  split; [exact Hne|]. split.
  - eapply every_impl; [|exact Hall].
    intros c Hc. by apply sold_set_char, andb_true_iff in Hc as [? _].
  - eapply every_impl; [|exact Hall].
    intros c Hc. by apply sold_set_char, andb_true_iff in Hc as [_ ?].
Qed.

(** The first group of a match of the price pattern is a non-empty run of
    digits, commas and dots. *)
Lemma price_group (text : string) (m : match_) :
  search RE_PRICE text = Some m ->
  every (fun c => price_char c || Ascii.eqb c ",") (group m 1) = true.
Proof.
  intros H. apply search_matches in H as [w H].
  cbn [RE_PRICE ignorecase syntax seq fold_right] in H.
  apply matches_seq_inv in H as (w1 & w2 & g1 & _ & Hlit & H).
  apply matches_group_free in Hlit; [|apply lit_group_free]. subst g1.
  apply matches_seq_inv in H as (w3 & w4 & g2 & _ & Hws & H).
  apply matches_group_free in Hws; [|reflexivity]. subst g2.
  apply matches_seq_inv in H as (w5 & w6 & g3 & _ & Hg & Heps).
  apply matches_eps_inv in Heps.
  apply matches_group_inv in Hg as (g0 & Hplus & ->).
  apply matches_plus_set in Hplus as (-> & _ & Hall).
  unfold group. rewrite Heps, lookup_insert_eq. cbn [default].
  eapply every_impl; [|exact Hall]. intros c. apply price_set_char.
Qed.

(** The group of a match of one of the three count patterns is a non-empty
    run of digits. *)
Lemma count_group (label text : string) (m : match_) :
  search (compile (seq (lit label :: count_tail)) true) text = Some m ->
  group m 1 <> "" /\ every is_digit (group m 1) = true.
Proof.
  intros H. apply search_matches in H as [w H].
  cbn [ignorecase syntax seq fold_right count_tail] in H.
  apply matches_seq_inv in H as (w1 & w2 & g1 & _ & Hlit & H).
  apply matches_group_free in Hlit; [|apply lit_group_free]. subst g1.
  apply matches_seq_inv in H as (w3 & w4 & g2 & _ & Hws & H).
  apply matches_group_free in Hws; [|reflexivity]. subst g2.
  apply matches_seq_inv in H as (w5 & w6 & g3 & _ & Hg & Heps).
  apply matches_eps_inv in Heps.
  apply matches_group_inv in Hg as (g0 & Hplus & ->).
  apply matches_plus_set in Hplus as (-> & Hne & Hall).
  unfold group. rewrite Heps, lookup_insert_eq. cbn [default].
  split; [exact Hne|].
  eapply every_impl; [|exact Hall]. intros c. apply digit_set_char.
Qed.

(** The groups of a match of one of the four price patterns: letters, then
    digits, commas and dots, neither empty. *)
Lemma money_groups (label text : string) (m : match_) :
  search (compile (seq (lit label :: price_tail)) true) text = Some m ->
  group m 1 <> ""
  /\ every (fun c => upper_letter (upper_char c)) (group m 1) = true
  /\ group m 2 <> ""
  /\ every (fun c => price_char c || Ascii.eqb c ",") (group m 2) = true.
Proof.
  intros H. apply search_matches in H as [w H].
  cbn [ignorecase syntax seq fold_right price_tail] in H.
  apply matches_seq_inv in H as (w1 & w2 & g1 & _ & Hlit & H).
  apply matches_group_free in Hlit; [|apply lit_group_free]. subst g1.
  apply matches_seq_inv in H as (w3 & w4 & g2 & _ & Hws & H).
  apply matches_group_free in Hws; [|reflexivity]. subst g2.
  apply matches_seq_inv in H as (cur & w6 & g3 & _ & Hcur & H).
  apply matches_group_inv in Hcur as (g0 & Hcur & ->).
  apply matches_plus_set in Hcur as (-> & Hcne & Hcall).
  apply matches_seq_inv in H as (w7 & w8 & g4 & _ & Hws2 & H).
  apply matches_group_free in Hws2; [|reflexivity]. subst g4.
  apply matches_seq_inv in H as (amt & w9 & g5 & _ & Hamt & Heps).
  apply matches_eps_inv in Heps.
  apply matches_group_inv in Hamt as (g6 & Hamt & ->).
  apply matches_plus_set in Hamt as (-> & Hane & Haall).
  unfold group. rewrite Heps, lookup_insert_eq.
  rewrite lookup_insert_ne, lookup_insert_eq by done. cbn [default].
  split; [exact Hcne|]. split; [|split; [exact Hane|]].
  - eapply every_impl; [|exact Hcall]. intros c. apply letter_set_char.
  - eapply every_impl; [|exact Haall]. intros c. apply amount_set_char.
Qed.

End ReSpecProofs.

(** ** Properties of parse-shopee.py *)

Module ParseShopeeProofs.
Import Py Re Bs4 ParseShopee Examples ReSpec ReProofs ReSpecProofs.
Local Open Scope string_scope.
Local Open Scope list_scope.

Section Container.
Context {Tag : Type} {Nav : Navigation Tag}.

(** What [process_item] does, by the outcome of the three extractions. *)
Lemma process_item_unfold (idx : nat) (item : Tag) (st : state) :
  process_item idx item st =
  match extract_name item with
  | Raise e => (Raise e, st)
  | Ok product_name =>
      match extract_price item with
      | Raise e => (Raise e, st)
      | Ok price =>
          match extract_sold item with
          | Raise e => (Raise e, st)
          | Ok sold_units =>
              if truthy product_name then
                (Ok tt,
                 {| products := products st ++
                      [{| product_name_ := str_opt product_name;
                          price_rm := or_default price "N/A";
                          units_sold := or_default sold_units "N/A" |}];
                    stdout := stdout st ++
                      ["Product " ++ pretty idx ++ ": " ++ str_opt product_name
                       ++ " | RM" ++ str_opt price ++ " | "
                       ++ str_opt sold_units ++ " sold"]%string |})
              else (Ok tt, st)
          end
      end
  end.
Proof.
  unfold process_item, mbind, M_bind, lift.
  destruct (extract_name item) as [product_name|e]; [|reflexivity].
  destruct (extract_price item) as [price|e]; [|reflexivity].
  destruct (extract_sold item) as [sold_units|e]; [|reflexivity].
  destruct (truthy product_name); reflexivity.
Qed.

Lemma or_default_falsy (o : option string) (d : string) :
  truthy o = false -> or_default o d = d.
Proof.
  destruct o as [s|]; simpl; [|reflexivity].
  destruct (s =? "")%string; [reflexivity|discriminate].
Qed.

Lemma or_default_truthy (o : option string) (d : string) :
  truthy o = true -> Some (or_default o d) = o.
Proof.
  destruct o as [s|]; simpl; [|discriminate].
  destruct (s =? "")%string; [discriminate|reflexivity].
Qed.

(** C1. A container whose three extractions return adds a record to
    [products] if and only if its name is truthy; the record is one, it
    carries the name, and a falsy price or units-sold is written as the
    sentinel "N/A". *)
Theorem C1_record_iff_name (idx : nat) (item : Tag) (st : state)
    (product_name price sold_units : option string) :
  extract_name item = Ok product_name ->
  extract_price item = Ok price ->
  extract_sold item = Ok sold_units ->
  let st' := snd (process_item idx item st) in
  fst (process_item idx item st) = Ok tt
  /\ ((exists r, products st' = products st ++ [r]) <-> truthy product_name = true)
  /\ (truthy product_name = false -> products st' = products st)
  /\ (truthy product_name = true ->
      exists r, products st' = products st ++ [r]
        /\ Some (product_name_ r) = product_name
        /\ price_rm r = or_default price "N/A"
        /\ units_sold r = or_default sold_units "N/A"
        /\ (truthy price = false -> price_rm r = "N/A"%string)
        /\ (truthy sold_units = false -> units_sold r = "N/A"%string)).
Proof.
  intros Hn Hp Hs st'. subst st'.
  rewrite process_item_unfold, Hn, Hp, Hs.
  destruct (truthy product_name) eqn:Ht; simpl.
  - split; [reflexivity|]. split; [|split]; [|discriminate|].
    + split; [reflexivity|]. intros _. eexists. reflexivity.
    + intros _. eexists. split; [reflexivity|]. simpl.
      split; [|split; [reflexivity|split; [reflexivity|]]].
      * destruct product_name as [n|]; [reflexivity|discriminate].
      * split; apply or_default_falsy.
  - split; [reflexivity|]. split; [|split]; [|reflexivity|discriminate].
    split; [|discriminate]. intros [r Hr].
    apply (f_equal (@List.length _)) in Hr. rewrite length_app in Hr.
    simpl in Hr. lia.
Qed.

End Container.

Lemma C1_record_iff_name_witness :
  extract_name item_title_only = Ok (Some "Brick separator"%string)
  /\ products (snd (process_item 1 item_title_only start))
     = [{| product_name_ := "Brick separator"; price_rm := "N/A"; units_sold := "N/A" |}].
Proof.
  assert (Hn : extract_name item_title_only = Ok (Some "Brick separator"%string))
    by reflexivity.
  assert (Hp : extract_price item_title_only = Ok None) by reflexivity.
  assert (Hs : extract_sold item_title_only = Ok None) by reflexivity.
  split; [exact Hn|].
  destruct (C1_record_iff_name 1 item_title_only start _ _ _ Hn Hp Hs)
    as (_ & _ & _ & H).
  destruct (H eq_refl) as (r & Hr & Hr1 & Hr2 & Hr3 & _).
  rewrite Hr. destruct r as [n p s]; simpl in *.
  injection Hr1 as ->. rewrite Hr2, Hr3. reflexivity.
Defined.

Lemma append_empty_l (s : string) : ("" ++ s)%string = s.
Proof. reflexivity. Qed.

Lemma replace_removes (c : ascii) (s : string) :
  has_char c (replace c "" s) = false.
Proof.
  induction s as [|d s IH]; [reflexivity|].
  simpl. destruct (Ascii.eqb d c) eqn:E.
  - rewrite append_empty_l. exact IH.
  - simpl. rewrite E. exact IH.
Qed.

Section Fields.
Context {Tag : Type} {Nav : Navigation Tag} {Con : Console}.

(** What [process_item] does on any console, by the outcome of the three
    extractions: the record is appended before the line is printed. *)
Lemma process_item_run (idx : nat) (item : Tag) (st : state) :
  process_item idx item st =
  match extract_name item with
  | Raise e => (Raise e, st)
  | Ok product_name =>
      match extract_price item with
      | Raise e => (Raise e, st)
      | Ok price =>
          match extract_sold item with
          | Raise e => (Raise e, st)
          | Ok sold_units =>
              if truthy product_name then
                print ("Product " ++ pretty idx ++ ": " ++ str_opt product_name
                       ++ " | RM" ++ str_opt price ++ " | "
                       ++ str_opt sold_units ++ " sold")%string
                  {| products := products st ++
                       [{| product_name_ := str_opt product_name;
                           price_rm := or_default price "N/A";
                           units_sold := or_default sold_units "N/A" |}];
                     stdout := stdout st |}
              else (Ok tt, st)
          end
      end
  end.
Proof.
  unfold process_item, mbind, M_bind, lift, products_append, modify.
  destruct (extract_name item) as [product_name|e]; [|reflexivity].
  destruct (extract_price item) as [price|e]; [|reflexivity].
  destruct (extract_sold item) as [sold_units|e]; [|reflexivity].
  destruct (truthy product_name); reflexivity.
Qed.

(** Printing a line leaves [products] as it is, whether it raises or not. *)
Lemma print_products (line : string) (st : state) :
  products (snd (print line st)) = products st.
Proof. unfold print. by destruct (print_error line). Qed.

(** The price, on either path, is [None] or a text whose commas are gone. *)
Lemma extract_price_no_comma (item : Tag) (price : option string) :
  extract_price item = Ok price ->
  has_char "," (or_default price "N/A") = false.
Proof.
  unfold extract_price, mbind, Ex_bind, mret, Ex_ret.
  destruct (find_class item "span" RE_PRICE_SPAN) as [[sp|]|e]; [| |discriminate].
  - destruct (get_text sp "" true) as [t|e]; [|discriminate].
    destruct (truthy (Some (replace "," "" t))) eqn:Ht.
    + intros [= <-]. simpl in *.
      destruct (replace "," "" t =? "")%string; [discriminate|].
      apply replace_removes.
    + destruct (get_text item "" false) as [text|e]; [|discriminate].
      destruct (search RE_PRICE text) as [m|]; intros [= <-].
      * simpl. destruct (replace "," "" (group m 1) =? "")%string;
          [reflexivity|apply replace_removes].
      * rewrite or_default_falsy by exact Ht. reflexivity.
  - simpl. destruct (get_text item "" false) as [text|e]; [|discriminate].
    destruct (search RE_PRICE text) as [m|]; intros [= <-]; [|reflexivity].
    simpl. destruct (replace "," "" (group m 1) =? "")%string;
      [reflexivity|apply replace_removes].
Qed.

(** What the sold pattern captures survives [strip] and is truthy. *)
Lemma sold_group_kept (t : string) (m : match_) :
  search RE_SOLD t = Some m ->
  strip (group m 1) = group m 1 /\ truthy (Some (group m 1)) = true.
Proof.
  intros Hm. destruct (sold_group t m Hm) as (Hne & _ & Hns).
  split; [by apply strip_no_space|].
  simpl. by apply negb_true_iff, String.eqb_neq.
Qed.

(** The units sold come from the sold element when the pattern is found in
    its text, else from the container's text when the pattern is found
    there, and else there are none. *)
Lemma extract_sold_cases (item : Tag) (sold_units : option string) :
  extract_sold item = Ok sold_units ->
  (exists d t m,
     find_class item "div" RE_SOLD_DIV = Ok (Some d)
     /\ get_text d "" false = Ok t
     /\ search RE_SOLD t = Some m
     /\ sold_units = Some (group m 1))
  \/ ((find_class item "div" RE_SOLD_DIV = Ok None
       \/ exists d t,
            find_class item "div" RE_SOLD_DIV = Ok (Some d)
            /\ get_text d "" false = Ok t
            /\ search RE_SOLD t = None)
      /\ exists t,
           get_text item "" false = Ok t
           /\ ((exists m, search RE_SOLD t = Some m /\ sold_units = Some (group m 1))
               \/ (search RE_SOLD t = None /\ sold_units = None))).
Proof.
  assert (Hfallback :
    match get_text item "" false with
    | Ok text =>
        match search RE_SOLD text with
        | Some sold_match => Ok (Some (strip (group sold_match 1)))
        | None => Ok None
        end
    | Raise e => Raise e
    end = Ok sold_units ->
    exists t,
      get_text item "" false = Ok t
      /\ ((exists m, search RE_SOLD t = Some m /\ sold_units = Some (group m 1))
          \/ (search RE_SOLD t = None /\ sold_units = None))).
  { destruct (get_text item "" false) as [text|e]; [|discriminate].
    destruct (search RE_SOLD text) as [m|] eqn:Hm; intros [= <-]; exists text;
      (split; [reflexivity|]).
    - left. exists m. split; [exact Hm|].
      by rewrite (proj1 (sold_group_kept text m Hm)).
    - right. by split. }
  unfold extract_sold, mbind, Ex_bind, mret, Ex_ret.
  destruct (find_class item "div" RE_SOLD_DIV) as [[d|]|e]; [| |discriminate].
  - destruct (get_text d "" false) as [t|e] eqn:Ht; [|discriminate].
    destruct (search RE_SOLD t) as [m|] eqn:Hm.
    + destruct (sold_group_kept t m Hm) as [Hstrip Htruthy].
      rewrite Hstrip, Htruthy. intros [= <-]. left. by exists d, t, m.
    + cbn [truthy]. intros H. right. split; [|exact (Hfallback H)].
      right. by exists d, t.
  - cbn [truthy]. intros H. right. split; [by left|exact (Hfallback H)].
Qed.

(** C2, as amended. The price of every record that a container adds holds
    no comma, whether it came from the styled element or from the pattern
    over the container's text.  The units sold are the text that the sold
    pattern captures in the text of the sold element or, when it is not
    found there, in the text of the container (the blanks that [strip]
    would remove are not in it), and "N/A" when it is found in neither:
    nothing takes a comma out of them. *)
Theorem C2_price_without_commas (idx : nat) (item : Tag) (st : state)
    (r : ProductRecord) :
  products (snd (process_item idx item st)) = products st ++ [r] ->
  has_char "," (price_rm r) = false
  /\ ((exists d t m,
         find_class item "div" RE_SOLD_DIV = Ok (Some d)
         /\ get_text d "" false = Ok t
         /\ search RE_SOLD t = Some m
         /\ units_sold r = group m 1)
      \/ ((find_class item "div" RE_SOLD_DIV = Ok None
           \/ exists d t,
                find_class item "div" RE_SOLD_DIV = Ok (Some d)
                /\ get_text d "" false = Ok t
                /\ search RE_SOLD t = None)
          /\ exists t,
               get_text item "" false = Ok t
               /\ ((exists m, search RE_SOLD t = Some m /\ units_sold r = group m 1)
                   \/ (search RE_SOLD t = None /\ units_sold r = "N/A")))).
Proof.
  rewrite process_item_run.
  assert (Hno : forall P : Prop, products st = products st ++ [r] -> P).
  { intros P H. apply (f_equal (@List.length _)) in H.
    rewrite length_app in H. simpl in H. lia. }
  destruct (extract_name item) as [product_name|e]; [|apply Hno].
  destruct (extract_price item) as [price|e] eqn:Hp; [|apply Hno].
  destruct (extract_sold item) as [sold_units|e] eqn:Hs; [|apply Hno].
  destruct (truthy product_name); [|apply Hno].
  rewrite print_products. cbn [products].
  intros H. apply app_inj_tail in H as [_ <-]. cbn [price_rm units_sold]. split.
  - exact (extract_price_no_comma item price Hp).
  - destruct (extract_sold_cases item sold_units Hs)
      as [(d & t & m & Hd & Ht & Hm & ->)
         |[Hmiss (t & Ht & [(m & Hm & ->)|[Hm ->]])]].
    + left. exists d, t, m. repeat split; try done.
      destruct (sold_group_kept t m Hm) as [_ Htr]. simpl in Htr |- *.
      by destruct (group m 1 =? "").
    + right. split; [exact Hmiss|]. exists t. split; [exact Ht|]. left.
      exists m. split; [exact Hm|].
      destruct (sold_group_kept t m Hm) as [_ Htr]. simpl in Htr |- *.
      by destruct (group m 1 =? "").
    + right. split; [exact Hmiss|]. exists t. split; [exact Ht|]. by right.
Qed.


(** Nor does it depend on the console. *)
Lemma item_records_console (item : Tag) :
  item_records (Con := Con) item = item_records (Con := reliable) item.
Proof.
  unfold item_records, process_item, mbind, M_bind, lift, products_append, modify.
  destruct (extract_name item) as [product_name|e]; [|reflexivity].
  destruct (extract_price item) as [price|e]; [|reflexivity].
  destruct (extract_sold item) as [sold_units|e]; [|reflexivity].
  destruct (truthy product_name); [|reflexivity].
  unfold print. cbn [print_error reliable]. by destruct (print_error _).
Qed.




(** When the line of line 64 cannot be printed either, the exception of
    [print] leaves the loop: the containers after this one are not
    processed. *)
Lemma parse_items_handler_raises (idx : nat) (item : Tag) (rest : list Tag)
    (st : state) (e e' : exn) :
  fst (process_item idx item st) = Raise e ->
  print_error ("Error parsing item " ++ pretty idx ++ ": " ++ str_exn e)%string = Some e' ->
  parse_items idx (item :: rest) st = (Raise e', snd (process_item idx item st)).
Proof.
  cbn [parse_items]. unfold mbind, M_bind, try_except.
  destruct (process_item idx item st) as [[[]|e0] st1]; simpl; [discriminate|].
  intros [= ->] H. unfold print. by rewrite H.
Qed.

End Fields.

Section Reliable.
Context {Tag : Type} {Nav : Navigation Tag}.


End Reliable.

(** C2, as stated, fails: the units-sold text keeps its comma, from the
    styled element as from the pattern over the container's text. *)
Lemma C2_units_sold_comma_counterexample :
  get_text item_styled "" false
    = Ok " LEGO City 60312 Police Car 1,299.001,234 sold"
  /\ products (snd (process_item 1 item_styled start))
     = [{| product_name_ := "LEGO City 60312 Police Car";
           price_rm := "1299.00"; units_sold := "1,234" |}]
  /\ products (snd (process_item 1 item_plain_grouped start))
     = [{| product_name_ := "LEGO Creator 10281 RM 1,299.00 1,234 sold";
           price_rm := "1299.00"; units_sold := "1,234" |}]
  /\ has_char "," "1,234" = true.
Proof. repeat split; reflexivity. Qed.

Lemma C2_price_without_commas_witness :
  products (snd (process_item 1 item_styled start))
    = products start ++ [{| product_name_ := "LEGO City 60312 Police Car";
                            price_rm := "1299.00"; units_sold := "1,234" |}]
  /\ has_char "," "1299.00" = false.
Proof.
  assert (H : products (snd (process_item 1 item_styled start))
    = products start ++ [{| product_name_ := "LEGO City 60312 Police Car";
                            price_rm := "1299.00"; units_sold := "1,234" |}])
    by reflexivity.
  split; [exact H|].
  exact (proj1 (C2_price_without_commas 1 item_styled start _ H)).
Defined.

(** A run of [main] on a directory with one listing file. *)
Example main_one_listing :
  let w := snd (main (Nav := dom_bs4) (Bld := fixed_builder listing_page) one_listing) in
  writes w = [("shopee-products.csv",
               "Product Name,Price (RM),Units Sold" ++ CRLF
               ++ "Brick separator,N/A,N/A" ++ CRLF)%string]
  /\ console w = ["Found 1 shop listing files" ++ String LF "";
                  String LF "Parsing shop-listing-1.txt...";
                  "Found 2 product items";
                  "Product 2: Brick separator | RMNone | None sold";
                  String LF "✓ Exported 1 products to shopee-products.csv"]%string.
Proof. vm_compute. split; reflexivity. Qed.

Section Batch.
Context {Tag : Type} {Nav : Navigation Tag} {Bld : Builder Tag} {Con : Console}.



Lemma call_parse_frame (content : string) (w : world) :
  files (snd (call_parse content w)) = files w
  /\ writes (snd (call_parse content w)) = writes w.
Proof.
  unfold call_parse.
  destruct (parse_shopee_html content _) as [r st]. by simpl.
Qed.

(** Reading and parsing the input files touches the console only. *)
Lemma read_all_frame (names : list string) (acc : list ProductRecord) (w : world) :
  files (snd (read_all names acc w)) = files w
  /\ writes (snd (read_all names acc w)) = writes w.
Proof.
  revert acc w. induction names as [|name rest IH]; intros acc w; [by simpl|].
  cbn [read_all]. unfold mbind, M_bind, print_w, read_file.
  destruct (print_error _); [by simpl|]. cbn [files].
  destruct (files w !! name) as [[content|e]|]; [|by simpl..].
  match goal with
  | |- context [call_parse content ?w1] =>
      destruct (call_parse_frame content w1) as [Hf Hw];
      destruct (call_parse content w1) as [[recs|e] w2]
  end; simpl in Hf, Hw; [|by simpl].
  destruct (IH (acc ++ recs) w2) as [Hf' Hw']. by rewrite Hf', Hw', Hf, Hw.
Qed.

Lemma collect_frame (w : world) :
  files (snd (collect w)) = files w /\ writes (snd (collect w)) = writes w.
Proof.
  unfold collect, mbind, M_bind, gets, print_w.
  destruct (print_error _); [by simpl|].
  match goal with
  | |- context [read_all ?n ?a ?w1] => exact (read_all_frame n a w1)
  end.
Qed.



End Batch.

Section Output.
Context {Tag : Type} {Nav : Navigation Tag} {Bld : Builder Tag}.

(** C9. The CSV file is written by [main] exactly when the records collected
    from the input files are not empty: with no record (or when reading a
    file raises) no file is written and the directory is as before; with at
    least one record the file is written once, and its text starts with the
    header line of the three column names. *)
Theorem C9_csv_only_with_records (w : world) :
  match collect w with
  | (Ok [], w') =>
      main w = (Ok tt, w') /\ writes w' = writes w /\ files w' = files w
  | (Ok (r :: rs), w') =>
      exists w'' rows,
        main w = (Ok tt, w'')
        /\ writes w'' = writes w ++ [("shopee-products.csv", csv_text (r :: rs))]
        /\ files w'' !! "shopee-products.csv" = Some (Readable (csv_text (r :: rs)))
        /\ csv_text (r :: rs)
           = ("Product Name,Price (RM),Units Sold" ++ CRLF ++ rows)%string
  | (Raise e, w') =>
      main w = (Raise e, w') /\ writes w' = writes w /\ files w' = files w
  end.
Proof.
  destruct (collect_frame w) as [Hf Hw].
  unfold main, mbind, M_bind.
  destruct (collect w) as [[[|r rs]|e] w'] eqn:Hc; simpl in Hf, Hw.
  - by rewrite Hf, Hw.
  - eexists _, _. split; [reflexivity|]. simpl.
    rewrite Hw. split; [reflexivity|]. split; [by rewrite lookup_insert_eq|].
    reflexivity.
  - by rewrite Hf, Hw.
Qed.

End Output.



End ParseShopeeProofs.

(** ** Properties of scrape-bricklink.py *)

Module ScrapeBricklinkProofs.
Import Py Re Bs4 ScrapeBricklink Examples ReSpec ReProofs ReSpecProofs.
Local Open Scope string_scope.
Local Open Scope list_scope.

(** *** The locator *)

Lemma replace_nonempty (c : ascii) (new s : string) :
  new <> "" -> s <> "" -> replace c new s <> "".
Proof.
  intros Hnew Hs. destruct s as [|d s]; [done|]. simpl.
  destruct (Ascii.eqb d c); [|done].
  destruct new as [|n new]; done.
Qed.

Lemma unquote_nonempty (s : string) : s <> "" -> unquote s <> "".
Proof.
  intros Hs. destruct s as [|c rest]; [done|]. cbn [unquote].
  destruct (Ascii.eqb c "%"); [|done].
  destruct rest as [|a [|b s']]; [done..|].
  destruct (hex_value a), (hex_value b); done.
Qed.

Lemma parse_qsl_value_nonempty (qs name value : string) :
  (name, value) ∈ parse_qsl qs -> value <> "".
Proof.
  unfold parse_qsl. rewrite list_elem_of_In, in_flat_map.
  intros (name_value & _ & Hin).
  destruct (split1 "=" name_value) as [n [v|]]; [|by destruct Hin].
  destruct (v =? "") eqn:Hv; [by destruct Hin|].
  destruct Hin as [[= _ <-]|[]].
  apply unquote_nonempty, replace_nonempty; [done|].
  intros ->. discriminate.
Qed.

(** Every name that [parse_qs] holds has a first value, and it is not
    empty. *)
Lemma parse_qs_first_value (qs key : string) (values : list string) :
  parse_qs qs !! key = Some values ->
  exists v rest, values = v :: rest /\ v <> "".
Proof.
  unfold parse_qs.
  assert (Hgen : forall (pairs : list (string * string))
                        (acc : gmap string (list string)),
    (forall n v, (n, v) ∈ pairs -> v <> "") ->
    (forall k vs, acc !! k = Some vs -> exists v rest, vs = v :: rest /\ v <> "") ->
    forall k vs,
      fold_left (fun (parsed_result : gmap string (list string)) '(name, value) =>
        match parsed_result !! name with
        | Some values => <[name := values ++ [value]]> parsed_result
        | None => <[name := [value]]> parsed_result
        end) pairs acc !! k = Some vs ->
      exists v rest, vs = v :: rest /\ v <> "").
  { induction pairs as [|[n v] pairs IH]; intros acc Hp Hacc k vs; [apply Hacc|].
    cbn [fold_left]. apply IH.
    - intros n' v' Hin. apply (Hp n' v'). by right.
    - assert (Hv : v <> "") by (apply (Hp n v); left).
      intros k' vs'. destruct (acc !! n) as [old|] eqn:Hold.
      + destruct (decide (n = k')) as [->|Hne].
        * rewrite lookup_insert_eq. intros [= <-].
          destruct (Hacc _ _ Hold) as (v0 & rest & -> & Hv0).
          exists v0, (rest ++ [v]). done.
        * rewrite lookup_insert_ne by done. apply Hacc.
      + destruct (decide (n = k')) as [->|Hne].
        * rewrite lookup_insert_eq. intros [= <-]. by exists v, [].
        * rewrite lookup_insert_ne by done. apply Hacc. }
  apply Hgen.
  - intros n v. apply parse_qsl_value_nonempty.
  - intros k vs. by rewrite lookup_empty.
Qed.

Lemma detect_skip (earlier later : list string) (params : gmap string (list string)) :
  (forall k, k ∈ earlier -> params !! k = None) ->
  detect (earlier ++ later) params = detect later params.
Proof.
  induction earlier as [|k earlier IH]; intros Hnone; [reflexivity|].
  cbn [app detect]. rewrite (Hnone k) by left.
  apply IH. intros k' Hk'. apply Hnone. by right.
Qed.

Lemma detect_none (keys : list string) (params : gmap string (list string)) :
  (forall k, k ∈ keys -> params !! k = None) ->
  detect keys params = Ok (None, None).
Proof.
  intros Hnone. rewrite <- (app_nil_r keys). by rewrite detect_skip.
Qed.

Lemma has_char_app (c : ascii) (a b : string) :
  has_char c (a ++ b)%string = has_char c a || has_char c b.
Proof.
  induction a as [|d a IH]; [reflexivity|].
  change (String d a ++ b)%string with (String d (a ++ b)%string).
  simpl. rewrite IH. by rewrite orb_assoc.
Qed.

Lemma string_app_assoc (a b c : string) :
  (a ++ (b ++ c))%string = ((a ++ b) ++ c)%string.
Proof.
  induction a as [|d a IH]; [reflexivity|].
  change (String d a ++ (b ++ c))%string with (String d (a ++ (b ++ c))%string).
  change ((String d a ++ b) ++ c)%string with (String d ((a ++ b) ++ c)%string).
  by rewrite IH.
Qed.

Lemma replace_app (c : ascii) (new a b : string) :
  replace c new (a ++ b)%string = (replace c new a ++ replace c new b)%string.
Proof.
  induction a as [|d a IH]; [reflexivity|].
  change (String d a ++ b)%string with (String d (a ++ b)%string).
  simpl. rewrite IH. destruct (Ascii.eqb d c); [|reflexivity].
  apply string_app_assoc.
Qed.

Lemma has_char_remove (x c : ascii) (s : string) :
  has_char x s = false -> has_char x (replace c "" s) = false.
Proof.
  induction s as [|d s IH]; [done|]. simpl.
  intros [Hd Hs]%orb_false_iff.
  destruct (Ascii.eqb d c); [by apply IH|]. simpl. rewrite Hd. by apply IH.
Qed.

Lemma split1_absent (c : ascii) (s : string) :
  has_char c s = false -> split1 c s = (s, None).
Proof.
  induction s as [|d s IH]; [done|]. simpl.
  intros [Hd Hs]%orb_false_iff. rewrite Hd, (IH Hs). reflexivity.
Qed.

Lemma split1_first (c : ascii) (a b : string) :
  has_char c a = false -> split1 c (a ++ String c b)%string = (a, Some b).
Proof.
  induction a as [|d a IH]; intros Ha.
  - change ("" ++ String c b)%string with (String c b). simpl.
    by rewrite Ascii.eqb_refl.
  - change (String d a ++ String c b)%string with (String d (a ++ String c b)%string).
    simpl in *. apply orb_false_iff in Ha as [Hd Ha].
    rewrite Hd, (IH Ha). reflexivity.
Qed.

(** *** What [urlsplit] removes and what it keeps *)

Lemma all_chars_app (P : ascii -> bool) (a b : string) :
  all_chars P (a ++ b)%string = all_chars P a && all_chars P b.
Proof.
  induction a as [|d a IH]; [reflexivity|].
  change (String d a ++ b)%string with (String d (a ++ b)%string).
  simpl. rewrite IH. by rewrite andb_assoc.
Qed.

Lemma has_char_all_chars (c : ascii) (s : string) :
  has_char c s = false <-> all_chars (fun d => negb (Ascii.eqb d c)) s = true.
Proof.
  induction s as [|d s IH]; [done|]. simpl.
  by rewrite orb_false_iff, andb_true_iff, negb_true_iff, IH.
Qed.

Lemma isascii_all_chars (s : string) :
  isascii s = all_chars (fun c => (code c <? 128)%N) s.
Proof. induction s as [|c s IH]; [done|]. simpl. by rewrite IH. Qed.

Lemma all_chars_lstrip (P f : ascii -> bool) (s : string) :
  all_chars P s = true -> all_chars P (lstrip_with f s) = true.
Proof.
  induction s as [|c s IH]; [done|]. cbn [lstrip_with].
  destruct (f c); [|done]. simpl. intros [_ H]%andb_true_iff. by apply IH.
Qed.

Lemma all_chars_replace (P : ascii -> bool) (c : ascii) (s : string) :
  all_chars P s = true -> all_chars P (replace c "" s) = true.
Proof.
  induction s as [|d s IH]; [done|]. simpl.
  intros [Hd Hs]%andb_true_iff. destruct (Ascii.eqb d c).
  - change ("" ++ replace c "" s)%string with (replace c "" s). by apply IH.
  - simpl. by rewrite Hd, IH.
Qed.

Lemma all_chars_split1 (P : ascii -> bool) (c : ascii) (s a : string)
    (b : option string) :
  all_chars P s = true -> split1 c s = (a, b) ->
  all_chars P a = true /\ all_chars P (default "" b) = true.
Proof.
  revert a b. induction s as [|d s IH]; intros a b.
  - by intros _ [= <- <-].
  - simpl. intros [Hd Hs]%andb_true_iff. destruct (Ascii.eqb d c).
    + by intros [= <- <-].
    + destruct (split1 c s) as [a' b'] eqn:E. intros [= <- <-].
      destruct (IH a' b' Hs eq_refl) as [Ha Hb]. simpl. by rewrite Hd, Ha.
Qed.

Lemma all_chars_drop (P : ascii -> bool) (n : nat) (s : string) :
  all_chars P s = true -> all_chars P (drop n s) = true.
Proof.
  revert s. induction n as [|n IH]; intros s; [done|].
  destruct s as [|c s]; [done|]. simpl. intros [_ Hs]%andb_true_iff. by apply IH.
Qed.

Lemma all_chars_splitnetloc (P : ascii -> bool) (s : string) :
  all_chars P s = true ->
  all_chars P (fst (splitnetloc s)) = true /\ all_chars P (snd (splitnetloc s)) = true.
Proof.
  induction s as [|c s IH]; [done|]. cbn [splitnetloc]. intros H.
  destruct (has_char c "/?#"); [done|].
  simpl in H. apply andb_true_iff in H as [Hc Hs]. destruct (IH Hs) as [H1 H2].
  destruct (splitnetloc s) as [n r]. simpl in *. by rewrite Hc, H1.
Qed.

Lemma all_chars_split_scheme (P : ascii -> bool) (url : string) :
  all_chars P url = true -> all_chars P (snd (split_scheme url)) = true.
Proof.
  intros H. unfold split_scheme. destruct (split1 ":" url) as [h r] eqn:E.
  destruct (all_chars_split1 P ":" url h r H E) as [_ Hr].
  destruct h as [|c more]; [done|]. destruct r as [rest|]; [|done].
  by destruct (is_alpha c && all_chars scheme_char (String c more)).
Qed.

(** The URL once its head is stripped and its tabs and line breaks are
    removed holds no character that the URL does not hold. *)
Lemma all_chars_prepared (P : ascii -> bool) (url : string) :
  all_chars P url = true ->
  all_chars P (replace "010" "" (replace "013" ""
                 (replace "009" "" (lstrip_with c0_or_space url)))) = true.
Proof. intros H. by do 3 apply all_chars_replace; apply all_chars_lstrip. Qed.

Lemma lstrip_with_app (f : ascii -> bool) (a : string) (c : ascii) (b : string) :
  f c = false ->
  lstrip_with f (a ++ String c b)%string = (lstrip_with f a ++ String c b)%string.
Proof.
  intros Hc. induction a as [|d a IH].
  - change ("" ++ String c b)%string with (String c b). cbn [lstrip_with].
    by rewrite Hc.
  - change (String d a ++ String c b)%string with (String d (a ++ String c b)%string).
    cbn [lstrip_with]. destruct (f d); [exact IH|reflexivity].
Qed.

Lemma split1_none_whole (c : ascii) (s h : string) :
  split1 c s = (h, None) -> h = s.
Proof.
  revert h. induction s as [|d s IH]; intros h; [by intros [= <-]|]. simpl.
  destruct (Ascii.eqb d c); [discriminate|].
  destruct (split1 c s) as [a [b|]]; [discriminate|].
  intros [= <-]. by rewrite (IH a eq_refl).
Qed.

Lemma split1_app_absent (c : ascii) (a b : string) :
  has_char c b = false ->
  split1 c (a ++ b)%string
  = match split1 c a with
    | (h, Some r) => (h, Some (r ++ b)%string)
    | (h, None) => ((h ++ b)%string, None)
    end.
Proof.
  intros Hb. induction a as [|d a IH].
  - change ("" ++ b)%string with b. by rewrite split1_absent.
  - change (String d a ++ b)%string with (String d (a ++ b)%string).
    cbn [split1]. destruct (Ascii.eqb d c); [reflexivity|].
    rewrite IH. by destruct (split1 c a) as [h [r|]].
Qed.

Lemma split_scheme_app (a b : string) :
  has_char ":" b = false ->
  split_scheme (a ++ b)%string
  = (fst (split_scheme a), (snd (split_scheme a) ++ b)%string).
Proof.
  intros Hb. unfold split_scheme. rewrite split1_app_absent by exact Hb.
  destruct (split1 ":" a) as [h [r|]] eqn:E.
  - destruct h as [|c more]; [reflexivity|].
    by destruct (is_alpha c && all_chars scheme_char (String c more)).
  - apply split1_none_whole in E. subst h.
    destruct a as [|c more]; [by destruct b|reflexivity].
Qed.

Lemma splitnetloc_app (a : string) (c : ascii) (b : string) :
  has_char c "/?#" = true ->
  splitnetloc (a ++ String c b)%string
  = (fst (splitnetloc a), (snd (splitnetloc a) ++ String c b)%string).
Proof.
  intros Hc. induction a as [|d a IH].
  - change ("" ++ String c b)%string with (String c b). cbn [splitnetloc].
    by rewrite Hc.
  - change (String d a ++ String c b)%string with (String d (a ++ String c b)%string).
    cbn [splitnetloc]. destruct (has_char d "/?#"); [reflexivity|].
    rewrite IH. by destruct (splitnetloc a).
Qed.

Ltac value_error :=
  let H := fresh in
  intros H; first [discriminate H | injection H as <-; by eexists].

Section Locator.
Context {Url : UrlModules}.

Lemma check_bracketed_host_raises (hostname : string) (e : exn) :
  check_bracketed_host hostname = Raise e -> exists msg, e = ValueError msg.
Proof.
  unfold check_bracketed_host. destruct (String.prefix "v" hostname).
  - destruct (match_all RE_IPVFUTURE hostname); value_error.
  - destruct (ip_address hostname) as [[]|]; value_error.
Qed.

Lemma check_bracketed_netloc_raises (netloc : string) (e : exn) :
  check_bracketed_netloc netloc = Raise e -> exists msg, e = ValueError msg.
Proof.
  unfold check_bracketed_netloc.
  destruct (split1 "[" (after_last "@" netloc)) as [before [bracketed|]].
  - destruct (negb (before =? "")); [value_error|].
    destruct (split1 "]" bracketed) as [hostname after].
    destruct (negb (default "" after =? "") && negb (String.prefix ":" (default "" after)));
      [value_error|apply check_bracketed_host_raises].
  - apply check_bracketed_host_raises.
Qed.

Lemma split_netloc_raises (url : string) (e : exn) :
  split_netloc url = Raise e -> exists msg, e = ValueError msg.
Proof.
  unfold split_netloc. destruct (String.prefix "//" url); [|value_error].
  destruct (splitnetloc (drop 2 url)) as [netloc rest].
  destruct (has_char "[" netloc), (has_char "]" netloc); cbn [andb orb negb];
    try value_error.
  destruct (check_bracketed_netloc netloc) as [[]|e1] eqn:E; cbn [mbind Ex_bind];
    [value_error|].
  intros [= <-]. exact (check_bracketed_netloc_raises netloc e1 E).
Qed.

Lemma checknetloc_raises (netloc : string) (e : exn) :
  checknetloc netloc = Raise e -> exists msg, e = ValueError msg.
Proof.
  unfold checknetloc. destruct ((netloc =? "") || isascii netloc); [value_error|].
  destruct (_ =? _); [value_error|]. destruct (existsb _ _); value_error.
Qed.

(** [urlparse] raises nothing but a [ValueError]. *)
Lemma urlparse_query_raises (url : string) (e : exn) :
  urlparse_query url = Raise e -> exists msg, e = ValueError msg.
Proof.
  unfold urlparse_query, urlsplit.
  destruct (split_scheme _) as [scheme url3].
  destruct (split_netloc url3) as [[netloc rest]|e1] eqn:E1; cbn [mbind Ex_bind].
  - destruct (split1 "#" rest) as [rest' fragment].
    destruct (split1 "?" rest') as [path query].
    destruct (checknetloc netloc) as [[]|e2] eqn:E2; cbn [mbind Ex_bind];
      [value_error|].
    intros [= <-]. exact (checknetloc_raises netloc e2 E2).
  - intros [= <-]. exact (split_netloc_raises url3 e1 E1).
Qed.

Lemma all_chars_split_netloc (P : ascii -> bool) (url netloc rest : string) :
  split_netloc url = Ok (netloc, rest) ->
  all_chars P url = true ->
  all_chars P netloc = true /\ all_chars P rest = true.
Proof.
  unfold split_netloc. destruct (String.prefix "//" url).
  - intros H Hall.
    pose proof (all_chars_splitnetloc P _ (all_chars_drop P 2 url Hall)) as Hs.
    destruct (splitnetloc (drop 2 url)) as [n r]. simpl in Hs.
    destruct ((has_char "[" n && negb (has_char "]" n))
              || (has_char "]" n && negb (has_char "[" n))); [discriminate|].
    destruct (if has_char "[" n && has_char "]" n then _ else _) as [[]|e];
      [|discriminate].
    by injection H as <- <-.
  - by intros [= <- <-].
Qed.

(** A netloc without brackets passes the checks of the brackets. *)
Lemma split_netloc_plain (url : string) :
  has_char "[" url = false -> has_char "]" url = false ->
  exists netloc rest, split_netloc url = Ok (netloc, rest).
Proof.
  intros Ho Hc. unfold split_netloc. destruct (String.prefix "//" url); [|by eexists _, _].
  apply has_char_all_chars in Ho, Hc.
  pose proof (all_chars_splitnetloc _ _ (all_chars_drop _ 2 url Ho)) as [Ho' _].
  pose proof (all_chars_splitnetloc _ _ (all_chars_drop _ 2 url Hc)) as [Hc' _].
  destruct (splitnetloc (drop 2 url)) as [n r]. simpl in Ho', Hc'.
  apply has_char_all_chars in Ho', Hc'. rewrite Ho', Hc'. by eexists _, _.
Qed.

Lemma checknetloc_ascii (netloc : string) :
  isascii netloc = true -> checknetloc netloc = Ok tt.
Proof. intros H. unfold checknetloc. by rewrite H, orb_true_r. Qed.

Lemma prefix_slashes_app (a : string) :
  String.prefix "//" (a ++ "?S=31113-1")%string = String.prefix "//" a.
Proof.
  destruct a as [|x [|y a]]; [reflexivity| |].
  - change (String.prefix "//" (String x "?S=31113-1") = String.prefix "//" (String x "")).
    cbn [String.prefix]. by destruct (ascii_dec "/" x).
  - change (String x (String y a) ++ "?S=31113-1")%string
      with (String x (String y (a ++ "?S=31113-1")%string)).
    cbn [String.prefix].
    destruct (ascii_dec "/" x), (ascii_dec "/" y); try reflexivity. by destruct a.
Qed.

Lemma drop_slashes_app (a : string) :
  String.prefix "//" a = true ->
  drop 2 (a ++ "?S=31113-1")%string = (drop 2 a ++ "?S=31113-1")%string.
Proof.
  destruct a as [|x [|y a]]; [discriminate| |reflexivity].
  cbn [String.prefix]. by destruct (ascii_dec "/" x).
Qed.

Lemma split_netloc_app (url : string) :
  split_netloc (url ++ "?S=31113-1")%string
  = match split_netloc url with
    | Ok (netloc, rest) => Ok (netloc, (rest ++ "?S=31113-1")%string)
    | Raise e => Raise e
    end.
Proof.
  unfold split_netloc. rewrite prefix_slashes_app.
  destruct (String.prefix "//" url) eqn:E; [|reflexivity].
  rewrite (drop_slashes_app url E), splitnetloc_app by reflexivity.
  destruct (splitnetloc (drop 2 url)) as [n r]. cbn [fst snd].
  destruct ((has_char "[" n && negb (has_char "]" n))
            || (has_char "]" n && negb (has_char "[" n))); [reflexivity|].
  by destruct (if has_char "[" n && has_char "]" n then _ else _) as [[]|e].
Qed.

(** The query of a URL that ends in [?S=31113-1], when [urlparse] returns:
    what the URL has before it is scheme, netloc and path. *)
Lemma urlparse_query_set (base : string) :
  has_char "?" base = false -> has_char "#" base = false ->
  urlparse_query (base ++ "?S=31113-1")
  = ('(netloc, _) ← split_netloc
        (snd (split_scheme
                (replace "010" "" (replace "013" ""
                   (replace "009" "" (lstrip_with c0_or_space base))))));
     checknetloc netloc;; Ok "S=31113-1").
Proof.
  intros Hq Hf. unfold urlparse_query, urlsplit.
  rewrite lstrip_with_app by reflexivity. rewrite !replace_app.
  change (replace "010" "" (replace "013" "" (replace "009" "" "?S=31113-1")))
    with "?S=31113-1".
  apply has_char_all_chars in Hq, Hf.
  pose proof (all_chars_split_scheme _ _ (all_chars_prepared _ base Hq)) as Hq3.
  pose proof (all_chars_split_scheme _ _ (all_chars_prepared _ base Hf)) as Hf3.
  rewrite split_scheme_app by reflexivity.
  destruct (split_scheme _) as [scheme url3]. cbn [fst snd] in *.
  rewrite split_netloc_app.
  destruct (split_netloc url3) as [[netloc rest]|e] eqn:E; [|reflexivity].
  cbn [mbind Ex_bind].
  destruct (all_chars_split_netloc _ _ _ _ E Hq3) as [_ Hq4].
  destruct (all_chars_split_netloc _ _ _ _ E Hf3) as [_ Hf4].
  apply has_char_all_chars in Hq4, Hf4.
  rewrite (split1_absent "#") by (by rewrite has_char_app, Hf4).
  rewrite (split1_first "?" rest "S=31113-1" Hq4).
  by destruct (checknetloc netloc) as [[]|e].
Qed.

(** An ASCII URL without square brackets is split. *)
Lemma urlparse_query_returns (url : string) :
  has_char "[" url = false -> has_char "]" url = false -> isascii url = true ->
  exists query, urlparse_query url = Ok query.
Proof.
  intros Ho Hc Ha. unfold urlparse_query, urlsplit.
  apply has_char_all_chars in Ho, Hc. rewrite isascii_all_chars in Ha.
  pose proof (all_chars_split_scheme _ _ (all_chars_prepared _ url Ho)) as Ho3.
  pose proof (all_chars_split_scheme _ _ (all_chars_prepared _ url Hc)) as Hc3.
  pose proof (all_chars_split_scheme _ _ (all_chars_prepared _ url Ha)) as Ha3.
  destruct (split_scheme _) as [scheme url3]. cbn [snd] in *.
  apply has_char_all_chars in Ho3, Hc3.
  destruct (split_netloc_plain url3 Ho3 Hc3) as (netloc & rest & E). rewrite E.
  cbn [mbind Ex_bind].
  destruct (all_chars_split_netloc _ _ _ _ E Ha3) as [Han _].
  rewrite <- isascii_all_chars in Han.
  destruct (split1 "#" rest) as [rest' fragment].
  destruct (split1 "?" rest') as [path query].
  rewrite (checknetloc_ascii netloc Han). by eexists.
Qed.

(** C3. Whenever [urlparse] returns the query of the URL, the locator is
    the first key of P, S, M, G, C, I, O, B that the query parameters hold,
    with the first value of that key: keys before it in the order are
    absent, keys after it do not matter.  A URL that ends in [?S=31113-1]
    yields kind S and id 31113-1 whenever [urlparse] returns, and it
    returns on every ASCII URL without square brackets.  On a URL that
    [urlparse] refuses there is no locator: [locate] raises as it does. *)
Theorem C3_locator_priority :
  (forall (url query : string) (earlier later : list string) (key : string)
          (values : list string),
     urlparse_query url = Ok query ->
     KEYS = earlier ++ key :: later ->
     (forall k, k ∈ earlier -> parse_qs query !! k = None) ->
     parse_qs query !! key = Some values ->
     exists v rest, values = v :: rest /\ locate url = Ok (key, v))
  /\ (forall base query : string,
        has_char "?" base = false -> has_char "#" base = false ->
        urlparse_query (base ++ "?S=31113-1") = Ok query ->
        query = "S=31113-1" /\ locate (base ++ "?S=31113-1") = Ok ("S", "31113-1"))
  /\ (forall base : string,
        has_char "?" base = false -> has_char "#" base = false ->
        has_char "[" base = false -> has_char "]" base = false ->
        isascii base = true ->
        locate (base ++ "?S=31113-1") = Ok ("S", "31113-1"))
  /\ (forall (url : string) (e : exn),
        urlparse_query url = Raise e -> locate url = Raise e).
Proof.
  assert (Hset : forall base query : string,
    has_char "?" base = false -> has_char "#" base = false ->
    urlparse_query (base ++ "?S=31113-1") = Ok query ->
    query = "S=31113-1" /\ locate (base ++ "?S=31113-1") = Ok ("S", "31113-1")).
  { intros base query Hq Hf Hret.
    assert (Hquery : query = "S=31113-1").
    { rewrite (urlparse_query_set base Hq Hf) in Hret.
      destruct (split_netloc _) as [[netloc rest]|e]; [|discriminate].
      cbn [mbind Ex_bind] in Hret.
      destruct (checknetloc netloc) as [[]|e]; [|discriminate].
      by injection Hret as <-. }
    subst query. split; [reflexivity|]. unfold locate. by rewrite Hret. }
  split; [|split; [exact Hset|split]].
  - intros url query earlier later key values Hret HK Hearlier Hkey.
    destruct (parse_qs_first_value _ _ _ Hkey) as (v & rest & -> & Hv).
    exists v, rest. split; [reflexivity|].
    unfold locate. rewrite Hret. cbn [mbind Ex_bind].
    rewrite HK, detect_skip by exact Hearlier.
    cbn [detect]. rewrite Hkey. cbn [mbind Ex_bind].
    assert (Hk : key ∈ KEYS) by (rewrite HK; apply elem_of_app; right; left).
    assert (Hkne : (key =? "") = false).
    { apply String.eqb_neq. intros ->. unfold KEYS in Hk.
      repeat (apply elem_of_cons in Hk as [Hk|Hk]; [discriminate Hk|]).
      by apply elem_of_nil in Hk. }
    assert (Hvne : (v =? "") = false) by (by apply String.eqb_neq).
    cbn [truthy default]. by rewrite Hkne, Hvne.
  - intros base Hq Hf Ho Hc Ha.
    destruct (urlparse_query_returns (base ++ "?S=31113-1")) as [query Hret].
    + by rewrite has_char_app, Ho.
    + by rewrite has_char_app, Hc.
    + by rewrite isascii_all_chars, all_chars_app, <- isascii_all_chars, Ha.
    + exact (proj2 (Hset base query Hq Hf Hret)).
  - intros url e Hret. unfold locate. by rewrite Hret.
Qed.

End Locator.

(** A host in unbalanced brackets makes [urlparse] raise, and [locate] with
    it, whatever the query holds. *)
Example locate_unbalanced_bracket (Url : UrlModules) :
  locate "http://[x/?S=31113-1" = Raise (ValueError "Invalid IPv6 URL").
Proof. reflexivity. Qed.

Lemma C3_locator_priority_witness :
  urlparse_query (Url := loopback_modules) url_set_and_part = Ok "S=31113-1&P=3001"
  /\ parse_qs "S=31113-1&P=3001" !! "P" = Some ["3001"]
  /\ parse_qs "S=31113-1&P=3001" !! "S" = Some ["31113-1"]
  /\ locate (Url := loopback_modules) url_set_and_part = Ok ("P", "3001").
Proof.
  assert (Hret : urlparse_query (Url := loopback_modules) url_set_and_part
                 = Ok "S=31113-1&P=3001") by (vm_compute; reflexivity).
  assert (HP : parse_qs "S=31113-1&P=3001" !! "P" = Some ["3001"])
    by (vm_compute; reflexivity).
  assert (HS : parse_qs "S=31113-1&P=3001" !! "S" = Some ["31113-1"])
    by (vm_compute; reflexivity).
  split; [exact Hret|split; [exact HP|split; [exact HS|]]].
  destruct (proj1 (C3_locator_priority (Url := loopback_modules))
              url_set_and_part _ [] _ "P" _ Hret eq_refl
              ltac:(intros k Hk; inversion Hk) HP) as (v & rest & Hv & Hloc).
  injection Hv as <- <-. exact Hloc.
Defined.

(** *** Price boxes and the fetch *)

Section Fetch.
Context {Tag : Type} {Nav : Navigation Tag} {Bld : Builder Tag} {Sel : Css Tag}
  {Net : Http} {Flt : Float} {Url : UrlModules}.

(** C7. A URL whose query parameters hold none of the eight keys makes
    [scrape_bricklink_item] raise a [ValueError], and no request has been
    issued by then: the [ValueError] of line 49 whenever [urlparse] returns
    the query, that of [urlparse] (line 35) on a URL that it refuses. *)
Theorem C7_no_locator_no_request (url : string) (issued : net) :
  (forall query,
     urlparse_query url = Ok query ->
     forall k, k ∈ KEYS -> parse_qs query !! k = None) ->
  exists msg,
    scrape_bricklink_item url issued = (Raise (ValueError msg), issued)
    /\ (forall query,
          urlparse_query url = Ok query ->
          msg = ("Could not extract item type and ID from URL: " ++ url)%string)
    /\ (forall e, urlparse_query url = Raise e -> e = ValueError msg).
Proof.
  intros Hnone. unfold scrape_bricklink_item, mbind, M_bind, lift, locate.
  unfold mbind, Ex_bind.
  destruct (urlparse_query url) as [query|e] eqn:Hret.
  - rewrite (detect_none KEYS _ (Hnone query eq_refl)). cbn [truthy negb orb].
    eexists. split; [reflexivity|]. split; [by intros query' [= <-]|discriminate].
  - destruct (urlparse_query_raises url e Hret) as [msg ->].
    exists msg. split; [reflexivity|]. split; [discriminate|by intros e [= <-]].
Qed.

(** C5. A box whose text holds "(unavailable)", in any letter case, yields
    no bucket, whatever else the text holds. *)
Theorem C5_unavailable_is_none (box : Tag) (text : string) :
  get_text box (String "010" "") true = Ok text ->
  contains "(unavailable)" (lower text) = true ->
  extract_price_box box = Ok None.
Proof.
  intros Htext Hun. unfold extract_price_box, extract_price_text.
  rewrite Htext. cbn [mbind Ex_bind]. by rewrite Hun.
Qed.

(** C8. A box whose text has no "(unavailable)" and in which none of the
    seven patterns is found yields no bucket rather than an empty one. *)
Theorem C8_no_field_is_none (box : Tag) (text : string) :
  get_text box (String "010" "") true = Ok text ->
  contains "(unavailable)" (lower text) = false ->
  search RE_TIMES_SOLD text = None ->
  search RE_TOTAL_LOTS text = None ->
  search RE_TOTAL_QTY text = None ->
  search RE_MIN_PRICE text = None ->
  search RE_AVG_PRICE text = None ->
  search RE_QTY_AVG_PRICE text = None ->
  search RE_MAX_PRICE text = None ->
  extract_price_box box = Ok None.
Proof.
  intros Htext Hun H1 H2 H3 H4 H5 H6 H7.
  unfold extract_price_box, extract_price_text, set_count, set_price.
  rewrite Htext. cbn [mbind Ex_bind].
  rewrite Hun, H1, H2, H3, H4, H5, H6, H7. reflexivity.
Qed.

Lemma pricing_data_few (price_boxes : list Tag) :
  List.length price_boxes < 4 ->
  pricing_data price_boxes = Ok (None, None, None, None).
Proof.
  intros Hlen. unfold pricing_data.
  destruct (4 <=? List.length price_boxes)%nat eqn:E; [|reflexivity].
  apply Nat.leb_le in E. lia.
Qed.

(** C4. When both pages are fetched and parsed and the selector finds fewer
    than four boxes on the price-guide page, the summary is returned with
    all four buckets [None]: no box that was found is looked at. *)
Theorem C4_fewer_than_four_all_none (url : string) (issued : net)
    (kind id : string) (response price_response : response)
    (soup price_soup : Tag) (title_elem weight_elem : option Tag)
    (title weight : option string) (price_boxes : list Tag) :
  let get u := {| url_ := u; headers_ := headers; timeout_ := 30 |} in
  let price_guide_url :=
    ("https://www.bricklink.com/catalogPG.asp?" ++ kind ++ "=" ++ id)%string in
  locate url = Ok (kind, id) ->
  requests_get (get url) = Ok response ->
  raise_for_status response = Ok tt ->
  BeautifulSoup (text response) "lxml" = Ok soup ->
  select_one soup "h1#item-name-title" = Ok title_elem ->
  text_or_none title_elem = Ok title ->
  select_one soup "span#item-weight-info" = Ok weight_elem ->
  text_or_none weight_elem = Ok weight ->
  requests_get (get price_guide_url) = Ok price_response ->
  raise_for_status price_response = Ok tt ->
  BeautifulSoup (text price_response) "lxml" = Ok price_soup ->
  select price_soup SELECTOR_PRICE_BOXES = Ok price_boxes ->
  List.length price_boxes < 4 ->
  scrape_bricklink_item url issued
  = (Ok {| item_id := id; item_type := kind; title := title; weight := weight;
           six_month_new := None; six_month_used := None;
           current_new := None; current_used := None |},
     issued ++ [get url; get price_guide_url]).
Proof.
  intros get price_guide_url Hloc Hget Hst Hsoup Ht1 Ht2 Hw1 Hw2 Hget2 Hst2
    Hsoup2 Hsel Hlen.
  subst get price_guide_url.
  unfold scrape_bricklink_item, mbind, M_bind, lift, http_get, mret, M_ret.
  rewrite Hloc, Hget, Hst, Hsoup, Ht1, Ht2, Hw1, Hw2.
  rewrite Hget2, Hst2, Hsoup2, Hsel.
  rewrite (pricing_data_few _ Hlen). by rewrite <- app_assoc.
Qed.

End Fetch.

Lemma C7_no_locator_no_request_witness :
  urlparse_query (Url := loopback_modules) url_no_locator = Ok "id=31113"
  /\ scrape_bricklink_item (Nav := dom_bs4) (Bld := fixed_builder page)
       (Sel := fixed_css []) (Net := echo_http) (Flt := numeral_float)
       (Url := loopback_modules) url_no_locator []
     = (Raise (ValueError
          "Could not extract item type and ID from URL: https://www.bricklink.com/v2/catalog/catalogitem.page?id=31113"),
        []).
Proof.
  assert (Hret : urlparse_query (Url := loopback_modules) url_no_locator = Ok "id=31113")
    by (vm_compute; reflexivity).
  split; [exact Hret|].
  destruct (C7_no_locator_no_request (Nav := dom_bs4)
              (Bld := fixed_builder page) (Sel := fixed_css [])
              (Net := echo_http) (Flt := numeral_float) (Url := loopback_modules)
              url_no_locator []) as (msg & Hrun & Hmsg & _).
  - intros query Hq k Hk. rewrite Hret in Hq. injection Hq as <-.
    unfold KEYS in Hk.
    repeat (apply elem_of_cons in Hk as [->|Hk]; [vm_compute; reflexivity|]).
    by apply elem_of_nil in Hk.
  - rewrite Hrun. by rewrite (Hmsg _ Hret).
Defined.

Lemma C5_unavailable_is_none_witness :
  get_text box_unavailable (String "010" "") true
    = Ok ("(Unavailable)" ++ String "010" "Qty Avg Price: USD 5.00")%string
  /\ extract_price_box (Flt := numeral_float) box_unavailable = Ok None.
Proof.
  assert (Ht : get_text box_unavailable (String "010" "") true
    = Ok ("(Unavailable)" ++ String "010" "Qty Avg Price: USD 5.00")%string)
    by reflexivity.
  split; [exact Ht|].
  apply (C5_unavailable_is_none (Flt := numeral_float) box_unavailable _ Ht).
  reflexivity.
Defined.

Lemma C8_no_field_is_none_witness :
  extract_price_box (Flt := numeral_float) box_blank = Ok None.
Proof.
  apply (C8_no_field_is_none (Flt := numeral_float) box_blank "Price Guide");
    reflexivity.
Defined.

Lemma C4_fewer_than_four_all_none_witness :
  scrape_bricklink_item (Nav := dom_bs4) (Bld := fixed_builder page)
    (Sel := fixed_css [box_qty_avg; box_blank; box_qty_avg])
    (Net := echo_http) (Flt := numeral_float) (Url := loopback_modules) url_set []
  = (Ok {| item_id := "31113-1"; item_type := "S"; title := None; weight := None;
           six_month_new := None; six_month_used := None;
           current_new := None; current_used := None |},
     [{| url_ := url_set; headers_ := headers; timeout_ := 30 |};
      {| url_ := "https://www.bricklink.com/catalogPG.asp?S=31113-1";
         headers_ := headers; timeout_ := 30 |}]).
Proof.
  apply (C4_fewer_than_four_all_none (Nav := dom_bs4)
           (Bld := fixed_builder page)
           (Sel := fixed_css [box_qty_avg; box_blank; box_qty_avg])
           (Net := echo_http) (Flt := numeral_float) (Url := loopback_modules)
           url_set [] "S" "31113-1"
           {| status_code := 200; text := url_set |}
           {| status_code := 200;
              text := "https://www.bricklink.com/catalogPG.asp?S=31113-1" |}
           page page None None None None
           [box_qty_avg; box_blank; box_qty_avg]);
    first [reflexivity | simpl; lia].
Defined.

(** The avg-price pattern is the qty-avg-price pattern without its first
    four characters, so where the text "Avg Price:" occurs only inside the
    match of the latter, the former finds the same groups there. *)
Lemma avg_inside_qty_avg (text : string) (mq : match_) :
  search RE_QTY_AVG_PRICE text = Some mq ->
  positions AVG_LABEL text = [m_start mq + 4] ->
  search RE_AVG_PRICE text = Some (mk_match (m_start mq + 4) (m_groups mq)).
Proof.
  unfold search, positions. intros Hq Hpos.
  destruct (search_from_inv _ _ _ _ Hq) as (k & rest & Hk & Hst & Hm & _).
  simpl in Hst. rewrite Hst in *.
  change RE_QTY_AVG_PRICE
    with (compile (seq (lit ("Qty " ++ "Avg Price:")%string :: price_tail)) true) in Hm.
  apply match_here_lit_prefix in Hm as [Hlen Hm].
  rewrite drop_drop in Hm. rewrite length_drop in Hlen.
  change (String.length "Qty ") with 4 in *.
  apply (search_from_intro RE_AVG_PRICE text 0 (k + 4) rest); [lia|exact Hm|].
  intros j Hj.
  destruct (match_here RE_AVG_PRICE (drop j text)) as [r|] eqn:Hmj; [|reflexivity].
  exfalso. apply match_here_lit_head in Hmj as [s' Hlit].
  assert (Hlabel : match_here AVG_LABEL (drop j text) = Some (s', ∅)).
  { unfold match_here, AVG_LABEL. cbn [syntax ignorecase seq fold_right rmatch].
    by rewrite rmatch_lit, Hlit. }
  pose proof (positions_from_complete AVG_LABEL text 0 j _ ltac:(lia) Hlabel) as Hin.
  rewrite Hpos in Hin. apply list_elem_of_singleton in Hin. simpl in Hin. lia.
Qed.

(** *** [int] on the digits that the count patterns capture *)

Lemma digit_plain (c : ascii) :
  is_digit c = true ->
  is_c_space c = false /\ Ascii.eqb c "-" = false /\ Ascii.eqb c "+" = false.
Proof.
  destruct c as [[] [] [] [] [] [] [] []]; vm_compute; intros;
    first [discriminate | by repeat split].
Qed.

Lemma rstrip_with_none (f : ascii -> bool) (s : string) :
  every (fun c => negb (f c)) s = true -> rstrip_with f s = s.
Proof.
  induction s as [|c s IH]; [done|]. simpl.
  intros [Hc Hs]%andb_true_iff. rewrite (IH Hs).
  apply negb_true_iff in Hc. rewrite Hc. by destruct s.
Qed.

Lemma numeral_digits_all (s : string) (after_digit : bool) :
  every is_digit s = true -> s <> "" \/ after_digit = true ->
  numeral_digits after_digit s = Some s.
Proof.
  revert after_digit. induction s as [|c s IH]; intros after_digit.
  - intros _ [H | ->]; done.
  - simpl. intros [Hc Hs]%andb_true_iff _. rewrite Hc.
    by rewrite (IH true Hs) by (by right).
Qed.

(** On a non-empty run of digits [int] looks at their number only. *)
Lemma int_digits (s : string) :
  s <> "" -> every is_digit s = true ->
  (if (String.length s <=? MAX_STR_DIGITS)%nat
   then int s = Ok (int_go 0 s)
   else exists msg, int s = Raise (ValueError msg)).
Proof.
  intros Hne Hd. unfold int.
  assert (Hns : every (fun c => negb (is_c_space c)) s = true).
  { eapply every_impl; [|exact Hd]. intros c Hc.
    by rewrite (proj1 (digit_plain c Hc)). }
  destruct s as [|c s']; [done|].
  pose proof Hd as Hd'. simpl in Hd'. apply andb_true_iff in Hd' as [Hc _].
  destruct (digit_plain c Hc) as (Hsp & Hminus & Hplus).
  cbn [lstrip_with]. rewrite Hsp, (rstrip_with_none _ _ Hns), Hminus, Hplus.
  rewrite (numeral_digits_all _ false Hd) by (by left).
  rewrite Nat.ltb_antisym.
  destruct (String.length (String c s') <=? MAX_STR_DIGITS)%nat; cbn [negb];
    [reflexivity|by eexists].
Qed.

Section Counts.
Context {Flt : Float}.

(** A count of at most 4300 digits is stored; a longer one makes the
    extraction raise. *)
Lemma set_count_run (key label text : string) (data : gmap string value) :
  let p := compile (seq (lit label :: count_tail)) true in
  if count_ok p text
  then set_count key p text data
       = Ok (match search p text with
             | Some m => <[key := VInt (int_go 0 (group m 1))]> data
             | None => data
             end)
  else exists msg, set_count key p text data = Raise (ValueError msg).
Proof.
  intros p. unfold count_ok, set_count.
  destruct (search p text) as [m|] eqn:Hm; [|reflexivity].
  destruct (count_group label text m Hm) as [Hne Hd].
  pose proof (int_digits _ Hne Hd) as Hint.
  destruct (String.length (group m 1) <=? MAX_STR_DIGITS)%nat.
  - by rewrite Hint.
  - destruct Hint as [msg ->]. by exists msg.
Qed.

Lemma set_count_ok (key label text : string) (data : gmap string value) :
  let p := compile (seq (lit label :: count_tail)) true in
  count_ok p text = true ->
  set_count key p text data
  = Ok (match search p text with
        | Some m => <[key := VInt (int_go 0 (group m 1))]> data
        | None => data
        end).
Proof.
  intros p Hok. pose proof (set_count_run key label text data) as H.
  cbv zeta in H. fold p in H. by rewrite Hok in H.
Qed.

End Counts.

Section Buckets.
Context {Tag : Type} {Nav : Navigation Tag} {Flt : Float}.

Lemma money_ok (m : match_) :
  decimal_numeral (replace "," "" (group m 2)) = true ->
  money m = Ok (VMoney (upper (group m 1)) (nearest (replace "," "" (group m 2)))).
Proof. intros Hnum. unfold money, float. by rewrite Hnum. Qed.

Lemma nonempty_bucket (data : gmap string value) (key : string) (v : value) :
  data !! key = Some v ->
  (if bool_decide (size data = 0) then None else Some data) = Some data.
Proof.
  intros Hkey. rewrite bool_decide_eq_false_2; [reflexivity|].
  intros Hsize. apply map_size_empty_inv in Hsize. subst data.
  by rewrite lookup_empty in Hkey.
Qed.

(** C10, as amended. For a box without "(unavailable)" whose text is
    ASCII and has a match of the qty-avg-price pattern and no occurrence of
    "Avg Price:" but the one inside that match, whose counts have no more
    than 4300 digits (more make [int] raise) and whose min, qty-avg and max
    amounts are numerals that [float] accepts, the bucket is returned and
    its [avg_price] is the currency and amount of the qty-avg-price match,
    the same as its [qty_avg_price]. *)
Theorem C10_avg_price_is_qty_avg (box : Tag) (text : string) (mq : match_) :
  get_text box (String "010" "") true = Ok text ->
  isascii text = true ->
  contains "(unavailable)" (lower text) = false ->
  search RE_QTY_AVG_PRICE text = Some mq ->
  positions AVG_LABEL text = [m_start mq + 4] ->
  count_ok RE_TIMES_SOLD text = true ->
  count_ok RE_TOTAL_LOTS text = true ->
  count_ok RE_TOTAL_QTY text = true ->
  amount_ok RE_MIN_PRICE text = true ->
  amount_ok RE_QTY_AVG_PRICE text = true ->
  amount_ok RE_MAX_PRICE text = true ->
  exists data : gmap string value,
    extract_price_box box = Ok (Some data)
    /\ data !! "avg_price"
       = Some (VMoney (upper (group mq 1)) (nearest (replace "," "" (group mq 2))))
    /\ data !! "qty_avg_price" = data !! "avg_price".
Proof.
  intros Htext _ Hun Hq Hpos Hsold Hlots Htotal Hmin Hqty Hmax.
  pose proof (avg_inside_qty_avg text mq Hq Hpos) as Havg.
  unfold amount_ok in Hmin, Hqty, Hmax. rewrite Hq in Hqty.
  unfold extract_price_box. rewrite Htext. cbn [mbind Ex_bind].
  unfold extract_price_text. rewrite Hun.
  rewrite (set_count_ok "times_sold" "Times Sold:" text _ Hsold). cbn [mbind Ex_bind].
  rewrite (set_count_ok "total_lots" "Total Lots:" text _ Hlots). cbn [mbind Ex_bind].
  rewrite (set_count_ok "total_qty" "Total Qty:" text _ Htotal). cbn [mbind Ex_bind].
  match goal with
  | |- context [set_price "min_price" RE_MIN_PRICE text ?d] => generalize d
  end.
  intros d0.
  unfold set_price. rewrite Havg, Hq.
  assert (Hsame : money (mk_match (m_start mq + 4) (m_groups mq)) = money mq)
    by reflexivity.
  rewrite Hsame, (money_ok mq Hqty).
  set (V := VMoney _ _).
  destruct (search RE_MIN_PRICE text) as [mm|];
    [rewrite (money_ok mm Hmin)|]; cbn [mbind Ex_bind mret Ex_ret];
    (destruct (search RE_MAX_PRICE text) as [mx|];
     [rewrite (money_ok mx Hmax)|]; cbn [mbind Ex_bind mret Ex_ret]).
  all: eexists; split;
    [apply f_equal; eapply (nonempty_bucket _ "qty_avg_price");
     by simplify_map_eq
    |split; by simplify_map_eq].
Qed.

End Buckets.

(** C10, as stated, fails on a box that is marked unavailable (no bucket
    is returned) and on a box whose amount is not a number ([float]
    raises): both texts have the qty-avg-price line and no other
    "Avg Price:". *)
Lemma C10_avg_price_counterexample :
  (get_text box_unavailable (String "010" "") true = Ok text_unavailable
   /\ (exists mq, search RE_QTY_AVG_PRICE text_unavailable = Some mq
         /\ positions AVG_LABEL text_unavailable = [m_start mq + 4])
   /\ forall F : Float, extract_price_box (Flt := F) box_unavailable = Ok None)
  /\ (get_text box_bad_amount (String "010" "") true = Ok "Qty Avg Price: USD 1.2.3"
      /\ (exists mq, search RE_QTY_AVG_PRICE "Qty Avg Price: USD 1.2.3" = Some mq
            /\ positions AVG_LABEL "Qty Avg Price: USD 1.2.3" = [m_start mq + 4])
      /\ forall F : Float,
           extract_price_box (Flt := F) box_bad_amount
           = Raise (ValueError "could not convert string to float: '1.2.3'")).
Proof.
  split; (split; [reflexivity|split; [eexists; split; reflexivity|]]).
  - intros F. reflexivity.
  - intros F. reflexivity.
Qed.

(** A count of 4301 digits stops the extraction. *)
Example long_count_raises (F : Float) :
  count_ok RE_TIMES_SOLD text_long_count = false
  /\ extract_price_text (Flt := F) text_long_count
     = Raise (ValueError "Exceeds the limit (4300 digits) for integer string conversion: value has 4301 digits; use sys.set_int_max_str_digits() to increase the limit").
Proof. split; vm_compute; reflexivity. Qed.

Lemma C10_avg_price_is_qty_avg_witness :
  exists data,
    extract_price_box (Flt := numeral_float) box_qty_avg = Ok (Some data)
    /\ data !! "avg_price" = Some (VMoney (Flt := numeral_float) "USD" "1012.34")
    /\ data !! "qty_avg_price" = data !! "avg_price".
Proof.
  assert (Hq : search RE_QTY_AVG_PRICE text_qty_avg
               = Some (mk_match 15 (<[2 := "1,012.34"]> (<[1 := "usd"]> ∅))))
    by (vm_compute; reflexivity).
  exact (C10_avg_price_is_qty_avg (Flt := numeral_float) box_qty_avg text_qty_avg _
           eq_refl eq_refl eq_refl Hq eq_refl eq_refl eq_refl eq_refl eq_refl eq_refl
           eq_refl).
Defined.

End ScrapeBricklinkProofs.

(** ** More properties of parse-shopee.py: the shape of the records *)

Module ParseShopeeShapes.
Import Py Re Bs4 ParseShopee Examples ReSpec ReProofs ReSpecProofs ParseShopeeProofs.
Local Open Scope string_scope.
Local Open Scope list_scope.

Lemma lego_head_not_blank (t t' : string) :
  lit_rest true "LEGO" t = Some t' ->
  exists d t1, t = String d t1 /\ is_space d = false.
Proof.
  destruct t as [|d t1]; [discriminate|]. cbn [lit_rest].
  destruct (set_match true [Char "L"] d) eqn:Hd; [|discriminate].
  intros _. exists d, t1. split; [reflexivity|].
  revert Hd. by_cases_of d.
Qed.

Lemma rstrip_head_not_blank (c : ascii) (t : string) :
  is_space c = false -> rstrip (String c t) <> "".
Proof.
  intros Hc. cbn [rstrip]. rewrite Hc. by destruct (rstrip t).
Qed.

(** A text that holds a character that is not blank does not strip to the
    empty text. *)
Lemma strip_not_blank (k : nat) (s : string) (d : ascii) (t : string) :
  drop k s = String d t -> is_space d = false -> strip s <> "".
Proof.
  unfold strip. revert k. induction s as [|c s IH]; intros k Hk Hd.
  - by rewrite drop_empty in Hk.
  - cbn [lstrip]. destruct (is_space c) eqn:Hc.
    + destruct k as [|k]; [simpl in Hk; congruence|]. exact (IH k Hk Hd).
    + by apply rstrip_head_not_blank.
Qed.

(** A text in which the name pattern is found has a name left after
    [strip]. *)
Lemma found_name_not_blank (s : string) : found RE_NAME s = true -> strip s <> "".
Proof.
  unfold found. destruct (search RE_NAME s) as [m|] eqn:Hm; [|discriminate].
  intros _. apply search_from_inv in Hm as (k & rest & _ & _ & Hm & _).
  apply match_here_lit_head in Hm as [t' Hlit].
  apply lego_head_not_blank in Hlit as (d & t1 & Hk & Hd).
  exact (strip_not_blank k s d t1 Hk Hd).
Qed.

Lemma replace_comma_price (w : string) :
  every (fun c => price_char c || Ascii.eqb c ",") w = true ->
  every price_char (replace "," "" w) = true.
Proof.
  induction w as [|c w IH]; [done|]. simpl.
  intros [Hc Hw]%andb_true_iff. destruct (Ascii.eqb c ",") eqn:E.
  - rewrite append_empty_l. by apply IH.
  - simpl. rewrite orb_false_r in Hc. by rewrite Hc, IH.
Qed.

Section Container.
Context {Tag : Type} {Nav : Navigation Tag}.



(** X2. When the container holds a text in which the name pattern is found,
    the name is the first such text with the blanks around it removed; it
    is not empty, the title element is not consulted, and a record with
    that name is added as soon as the two other extractions return. *)
Theorem name_from_matching_text (item : Tag) (s : string) (others : list string) :
  find_all_string item RE_NAME = Ok (s :: others) ->
  found RE_NAME s = true ->
  strip s <> ""
  /\ extract_name item = Ok (Some (strip s))
  /\ forall idx st price sold_units,
       extract_price item = Ok price ->
       extract_sold item = Ok sold_units ->
       products (snd (process_item idx item st))
       = products st ++ [{| product_name_ := strip s;
                            price_rm := or_default price "N/A";
                            units_sold := or_default sold_units "N/A" |}].
Proof.
  intros Hfind Hfound. pose proof (found_name_not_blank s Hfound) as Hne.
  assert (Ht : truthy (Some (strip s)) = true).
  { simpl. by apply negb_true_iff, String.eqb_neq. }
  assert (Hname : extract_name item = Ok (Some (strip s))).
  { unfold extract_name. rewrite Hfind. cbn [mbind Ex_bind]. by rewrite Ht. }
  split; [exact Hne|]. split; [exact Hname|].
  intros idx st price sold_units Hp Hs.
  rewrite process_item_unfold, Hname, Hp, Hs, Ht. reflexivity.
Qed.

(** X3. The units sold of every record that a container adds are "N/A" or
    a non-empty text made of the characters 0-9, k, K, dot, plus and comma
    only. *)
Theorem units_sold_alphabet (idx : nat) (item : Tag) (st : state) (r : ProductRecord) :
  products (snd (process_item idx item st)) = products st ++ [r] ->
  units_sold r = "N/A"
  \/ (units_sold r <> "" /\ every sold_char (units_sold r) = true).
Proof.
  rewrite process_item_unfold.
  assert (Hno : forall P : Prop, products st = products st ++ [r] -> P).
  { intros P H. apply (f_equal (@List.length _)) in H.
    rewrite length_app in H. simpl in H. lia. }
  destruct (extract_name item) as [product_name|e]; [|apply Hno].
  destruct (extract_price item) as [price|e]; [|apply Hno].
  destruct (extract_sold item) as [sold_units|e] eqn:Hs; [|apply Hno].
  destruct (truthy product_name); [|apply Hno].
  simpl. intros H. apply app_inj_tail in H as [_ <-]. simpl.
  assert (Hgroup : forall t m, search RE_SOLD t = Some m ->
    or_default (Some (group m 1)) "N/A" = "N/A"
    \/ (or_default (Some (group m 1)) "N/A" <> ""
        /\ every sold_char (or_default (Some (group m 1)) "N/A") = true)).
  { intros t m Hm. right. destruct (sold_group t m Hm) as (Hne & Hall & _).
    simpl. destruct (group m 1 =? "") eqn:E; [by apply String.eqb_eq in E|done]. }
  destruct (extract_sold_cases item sold_units Hs)
    as [(d & t & m & _ & _ & Hm & ->)|[_ (t & _ & [(m & Hm & ->)|[_ ->]])]];
    [exact (Hgroup t m Hm)..|by left].
Qed.

(** X4. When the container has no styled price element, the price of the
    record it adds is "N/A" or a non-empty text of digits and dots. *)
Theorem fallback_price_alphabet (idx : nat) (item : Tag) (st : state)
    (r : ProductRecord) :
  find_class item "span" RE_PRICE_SPAN = Ok None ->
  products (snd (process_item idx item st)) = products st ++ [r] ->
  price_rm r = "N/A"
  \/ (price_rm r <> "" /\ every price_char (price_rm r) = true).
Proof.
  intros Hspan. rewrite process_item_unfold.
  assert (Hno : forall P : Prop, products st = products st ++ [r] -> P).
  { intros P H. apply (f_equal (@List.length _)) in H.
    rewrite length_app in H. simpl in H. lia. }
  destruct (extract_name item) as [product_name|e]; [|apply Hno].
  destruct (extract_price item) as [price|e] eqn:Hp; [|apply Hno].
  destruct (extract_sold item) as [sold_units|e]; [|apply Hno].
  destruct (truthy product_name); [|apply Hno].
  simpl. intros H. apply app_inj_tail in H as [_ <-]. simpl.
  revert Hp. unfold extract_price, mbind, Ex_bind, mret, Ex_ret.
  rewrite Hspan. cbn [truthy].
  destruct (get_text item "" false) as [text|e]; [|discriminate].
  destruct (search RE_PRICE text) as [m|] eqn:Hm; intros [= <-]; [|by left].
  simpl. destruct (replace "," "" (group m 1) =? "") eqn:E; [by left|right].
  split; [by apply String.eqb_neq|].
  apply replace_comma_price, (price_group text m Hm).
Qed.

End Container.

Lemma name_from_matching_text_witness :
  find_all_string item_plain RE_NAME
    = Ok ["LEGO Star Wars 75192 ... RM 1,299.00 ... 2.3k sold"]
  /\ extract_name item_plain
     = Ok (Some "LEGO Star Wars 75192 ... RM 1,299.00 ... 2.3k sold").
Proof.
  assert (H : find_all_string item_plain RE_NAME
              = Ok ["LEGO Star Wars 75192 ... RM 1,299.00 ... 2.3k sold"])
    by (vm_compute; reflexivity).
  split; [exact H|].
  exact (proj1 (proj2 (name_from_matching_text item_plain _ _ H
                         ltac:(vm_compute; reflexivity)))).
Defined.

Lemma units_sold_alphabet_witness :
  products (snd (process_item 1 item_styled start))
    = products start ++ [{| product_name_ := "LEGO City 60312 Police Car";
                            price_rm := "1299.00"; units_sold := "1,234" |}]
  /\ ("1,234" = "N/A" \/ ("1,234" <> "" /\ every sold_char "1,234" = true)).
Proof.
  assert (H : products (snd (process_item 1 item_styled start))
    = products start ++ [{| product_name_ := "LEGO City 60312 Police Car";
                            price_rm := "1299.00"; units_sold := "1,234" |}])
    by reflexivity.
  split; [exact H|].
  exact (units_sold_alphabet 1 item_styled start _ H).
Defined.

Lemma fallback_price_alphabet_witness :
  find_class item_plain_grouped "span" RE_PRICE_SPAN = Ok None
  /\ ("1299.00" = "N/A" \/ ("1299.00" <> "" /\ every price_char "1299.00" = true)).
Proof.
  assert (Hspan : find_class item_plain_grouped "span" RE_PRICE_SPAN = Ok None)
    by reflexivity.
  assert (H : products (snd (process_item 1 item_plain_grouped start))
    = products start
      ++ [{| product_name_ := "LEGO Creator 10281 RM 1,299.00 1,234 sold";
             price_rm := "1299.00"; units_sold := "1,234" |}])
    by reflexivity.
  split; [exact Hspan|].
  exact (fallback_price_alphabet 1 item_plain_grouped start _ Hspan H).
Defined.

End ParseShopeeShapes.

(** ** More properties of parse-shopee.py: the input files *)

Module ParseShopeeFiles.
Import Py Re Bs4 ParseShopee Batch Examples ReProofs ReSpecProofs ParseShopeeProofs.
Local Open Scope string_scope.
Local Open Scope list_scope.

Lemma prefix_split (p s : string) :
  String.prefix p s = true -> s = (p ++ drop (String.length p) s)%string.
Proof.
  revert s. induction p as [|a p IH]; intros s; [reflexivity|].
  destruct s as [|b s]; [discriminate|]. simpl.
  destruct (ascii_dec a b) as [->|]; [|discriminate].
  intros H. change (String b p ++ drop (String.length p) s)%string
    with (String b (p ++ drop (String.length p) s)%string).
  by rewrite <- (IH s H).
Qed.

Lemma prefix_app (p s : string) : String.prefix p (p ++ s)%string = true.
Proof.
  induction p as [|a p IH]; [by destruct s|].
  change (String a p ++ s)%string with (String a (p ++ s)%string). simpl.
  by destruct (ascii_dec a a).
Qed.

Lemma drop_app_exact (p s : string) : drop (String.length p) (p ++ s)%string = s.
Proof.
  induction p as [|a p IH]; [reflexivity|].
  change (String a p ++ s)%string with (String a (p ++ s)%string). exact IH.
Qed.

Lemma take_drop (n : nat) (s : string) : (take n s ++ drop n s)%string = s.
Proof.
  revert s. induction n as [|n IH]; intros s; [reflexivity|].
  destruct s as [|c s]; [reflexivity|].
  simpl. change (String c (take n s) ++ drop n s)%string
    with (String c (take n s ++ drop n s)%string). by rewrite IH.
Qed.

(** X5. The names that the pattern of the input files accepts are those
    that start with "shop-listing-" and end in ".txt". *)
Theorem fnmatch_listing_names (name : string) :
  fnmatch_listing name = true
  <-> exists middle, name = ("shop-listing-" ++ middle ++ ".txt")%string.
Proof.
  unfold fnmatch_listing, ends_with. split.
  - intros [Hp [Hlen He]%andb_true_iff]%andb_true_iff.
    apply prefix_split in Hp. apply String.eqb_eq in He.
    change (String.length "shop-listing-") with 13 in Hp.
    remember (drop 13 name) as rest eqn:Hrest. clear Hrest Hlen. subst name.
    exists (take (String.length rest - String.length ".txt") rest).
    f_equal.
    pose proof (take_drop (String.length rest - String.length ".txt") rest) as Htd.
    rewrite He in Htd. by symmetry.
  - intros [middle ->]. rewrite prefix_app.
    change 13 with (String.length "shop-listing-"). rewrite drop_app_exact.
    rewrite length_app_string.
    replace (String.length middle + String.length ".txt" - String.length ".txt")
      with (String.length middle) by lia.
    rewrite drop_app_exact, String.eqb_refl, andb_true_r.
    cbn [andb]. apply Nat.leb_le. lia.
Qed.

(** X6. The input files are taken in ascending order of their names, each
    once, and they are the entries of the directory whose name the pattern
    accepts. *)
Theorem sorted_glob_order (w : world) :
  Sorted String.le (sorted_glob w)
  /\ NoDup (sorted_glob w)
  /\ forall name,
       name ∈ sorted_glob w
       <-> is_Some (files w !! name) /\ fnmatch_listing name = true.
Proof.
  unfold sorted_glob.
  set (l := List.filter fnmatch_listing (elements (dom (files w)))).
  assert (Hnd : NoDup l).
  { apply NoDup_ListNoDup, List.NoDup_filter, NoDup_ListNoDup, NoDup_elements. }
  split; [apply Sorted_merge_sort, _|]. split.
  - by rewrite merge_sort_Permutation.
  - intros name. rewrite merge_sort_Permutation. unfold l.
    rewrite list_elem_of_In, List.filter_In, <- list_elem_of_In.
    by rewrite elem_of_elements, elem_of_dom.
Qed.

Section Files.
Context {Tag : Type} {Nav : Navigation Tag} {Bld : Builder Tag}.





Lemma read_all_unreadable (names : list string) :
  forall (acc : list ProductRecord) (w : world) (name : string) (e : exn),
    name ∈ names ->
    files w !! name = Some (Unreadable e) ->
    exists e', fst (read_all names acc w) = Raise e'.
Proof.
  induction names as [|n rest IH]; intros acc w name e Hin Hbad.
  - by apply elem_of_nil in Hin.
  - cbn [read_all]. unfold mbind, M_bind, print_w, read_file.
    cbn [print_error reliable files].
    destruct (files w !! n) as [[content|e1]|] eqn:Hn; [|by eexists..].
    match goal with
    | |- context [call_parse content ?w1] =>
        pose proof (proj1 (call_parse_frame content w1)) as Hfr;
        destruct (call_parse content w1) as [[records|e1] w2]
    end; [|by eexists].
    simpl in Hfr. apply elem_of_cons in Hin as [->|Hin]; [congruence|].
    apply (IH _ w2 name e Hin). by rewrite Hfr.
Qed.

(** X8. An input file that cannot be read stops the run: [main] raises,
    no CSV file is written and the directory stays as it was, whatever the
    other files hold. *)
Theorem unreadable_file_is_fatal (w : world) (name : string) (e : exn) :
  name ∈ sorted_glob w ->
  files w !! name = Some (Unreadable e) ->
  exists e',
    fst (main w) = Raise e'
    /\ writes (snd (main w)) = writes w
    /\ files (snd (main w)) = files w.
Proof.
  intros Hin Hbad. destruct (collect_frame w) as [Hf Hw].
  assert (Hc : exists e', fst (collect w) = Raise e').
  { unfold collect, mbind, M_bind, gets, print_w. cbn [print_error reliable].
    match goal with
    | |- context [read_all ?n ?a ?w1] =>
        exact (read_all_unreadable n a w1 name e Hin Hbad)
    end. }
  destruct Hc as [e' Hc]. exists e'.
  unfold main, mbind, M_bind.
  destruct (collect w) as [[records|e1] w1]; simpl in *; [discriminate|].
  injection Hc as ->. done.
Qed.

End Files.

Lemma fnmatch_listing_names_example :
  fnmatch_listing "shop-listing-2024-01.txt" = true
  /\ fnmatch_listing "shop-listing.txt" = false
  /\ fnmatch_listing "shop-listing-1.txt.bak" = false.
Proof. repeat split; reflexivity. Qed.


Lemma unreadable_file_is_fatal_witness :
  exists e',
    fst (main (Nav := dom_bs4) (Bld := fixed_builder listing_page) unreadable_listing)
      = Raise e'
    /\ writes (snd (main (Nav := dom_bs4) (Bld := fixed_builder listing_page)
                      unreadable_listing)) = []
    /\ files (snd (main (Nav := dom_bs4) (Bld := fixed_builder listing_page)
                     unreadable_listing)) = files unreadable_listing.
Proof.
  apply (unreadable_file_is_fatal (Nav := dom_bs4) (Bld := fixed_builder listing_page)
           unreadable_listing "shop-listing-2.txt" (OSError "Permission denied")).
  - assert (Hglob : sorted_glob unreadable_listing
                    = ["shop-listing-1.txt"; "shop-listing-2.txt"])
      by (vm_compute; reflexivity).
    rewrite Hglob. right. left.
  - vm_compute. reflexivity.
Defined.

End ParseShopeeFiles.

(** ** More properties of scrape-bricklink.py *)

Module ScrapeBricklinkShapes.
Import Py Re Bs4 ScrapeBricklink Buckets Examples ReSpec ReProofs ReSpecProofs
  ScrapeBricklinkProofs.
Local Open Scope string_scope.
Local Open Scope list_scope.

(** *** The locator *)

Section Locator.
Context {Url : UrlModules}.

(** X9. A locator that [locate] returns is the first of the eight keys that
    the query holds, with the first value of that key, which is not empty;
    and when [locate] raises, it is with the [ValueError] of [urlparse] on
    a URL that [urlparse] refuses, and else with the [ValueError] of line
    49, the query holding none of the keys. *)
Theorem locate_result (url : string) :
  (forall kind id,
     locate url = Ok (kind, id) ->
     id <> ""
     /\ exists query earlier later rest,
          urlparse_query url = Ok query
          /\ KEYS = earlier ++ kind :: later
          /\ (forall k, k ∈ earlier -> parse_qs query !! k = None)
          /\ parse_qs query !! kind = Some (id :: rest))
  /\ (forall e,
        locate url = Raise e ->
        (urlparse_query url = Raise e /\ exists msg, e = ValueError msg)
        \/ (e = ValueError ("Could not extract item type and ID from URL: " ++ url)%string
            /\ exists query,
                 urlparse_query url = Ok query
                 /\ forall k, k ∈ KEYS -> parse_qs query !! k = None)).
Proof.
  unfold locate. destruct (urlparse_query url) as [query|e0] eqn:Hret;
    cbn [mbind Ex_bind].
  2: { split; [discriminate|]. intros e [= <-]. left. split; [reflexivity|].
       exact (urlparse_query_raises url e0 Hret). }
  set (params := parse_qs query).
  assert (Hdet : forall keys,
    (exists earlier key later v rest,
       keys = earlier ++ key :: later
       /\ (forall k, k ∈ earlier -> params !! k = None)
       /\ params !! key = Some (v :: rest) /\ v <> ""
       /\ detect keys params = Ok (Some key, Some v))
    \/ ((forall k, k ∈ keys -> params !! k = None)
        /\ detect keys params = Ok (None, None))).
  { induction keys as [|key keys IH].
    - right. split; [|reflexivity]. intros k Hk. by apply elem_of_nil in Hk.
    - cbn [detect]. destruct (params !! key) as [values|] eqn:Hkey.
      + left. destruct (parse_qs_first_value _ _ _ Hkey) as (v & rest & -> & Hv).
        exists [], key, keys, v, rest. repeat split; try done.
        intros k Hk. by apply elem_of_nil in Hk.
      + destruct IH as [(earlier & k' & later & v & rest & -> & Hnone & Hk' & Hv & Hd)
                       |[Hnone Hd]].
        * left. exists (key :: earlier), k', later, v, rest.
          repeat split; try done.
          intros k [->|Hk]%elem_of_cons; [done|by apply Hnone].
        * right. split; [|exact Hd].
          intros k [->|Hk]%elem_of_cons; [done|by apply Hnone]. }
  destruct (Hdet KEYS) as [(earlier & key & later & v & rest & HK & Hnone & Hkey & Hv & Hd)
                          |[Hnone Hd]]; rewrite Hd; cbn [mbind Ex_bind].
  - assert (Hkne : (key =? "") = false).
    { apply String.eqb_neq. intros ->.
      assert (Hin : "" ∈ KEYS) by (rewrite HK; apply elem_of_app; right; left).
      unfold KEYS in Hin.
      repeat (apply elem_of_cons in Hin as [Hin|Hin]; [discriminate Hin|]).
      by apply elem_of_nil in Hin. }
    assert (Hvne : (v =? "") = false) by (by apply String.eqb_neq).
    cbn [truthy default]. rewrite Hkne, Hvne. cbn [negb orb]. split.
    + intros kind id [= <- <-]. split; [exact Hv|].
      by exists query, earlier, later, rest.
    + intros e. discriminate.
  - cbn [truthy negb orb]. split; [discriminate|].
    intros e [= <-]. right. split; [reflexivity|]. by exists query.
Qed.

End Locator.

(** *** Buckets *)

Lemma digit_value_nonneg (c : ascii) :
  is_digit c = true -> (0 <=? digit_value c)%Z = true.
Proof. by_cases_of c. Qed.

Lemma int_go_nonneg (s : string) (acc : Z) :
  (0 <= acc)%Z -> every is_digit s = true -> (0 <= int_go acc s)%Z.
Proof.
  revert acc. induction s as [|c s IH]; intros acc Hacc; [done|]. simpl.
  intros [Hc Hs]%andb_true_iff. apply IH; [|exact Hs].
  apply digit_value_nonneg, Z.leb_le in Hc. lia.
Qed.

Lemma upper_letters (w : string) :
  every (fun c => upper_letter (upper_char c)) w = true ->
  every upper_letter (upper w) = true.
Proof.
  unfold upper. induction w as [|c w IH]; [done|]. simpl.
  intros [Hc Hw]%andb_true_iff. by rewrite Hc, (IH Hw).
Qed.

Lemma upper_nonempty (w : string) : w <> "" -> upper w <> "".
Proof. by destruct w. Qed.

Section Values.
Context {Flt : Float}.

(** A price whose amount [float] accepts is stored; another one makes the
    extraction raise. *)
Lemma set_price_run (key : string) (p : pattern) (text : string)
    (data : gmap string value) :
  if amount_ok p text
  then set_price key p text data
       = Ok (match search p text with
             | Some m => <[key := VMoney (upper (group m 1))
                                    (nearest (replace "," "" (group m 2)))]> data
             | None => data
             end)
  else exists msg, set_price key p text data = Raise (ValueError msg).
Proof.
  unfold amount_ok, set_price, money, float, mbind, Ex_bind, mret, Ex_ret.
  destruct (search p text) as [m|]; [|reflexivity].
  destruct (decimal_numeral (replace "," "" (group m 2))); [reflexivity|by eexists].
Qed.

Lemma set_count_well_formed (key label text : string) (data data' : gmap string value) :
  key ∈ count_keys ->
  (forall k v, data !! k = Some v -> well_formed k v) ->
  set_count key (compile (seq (lit label :: count_tail)) true) text data = Ok data' ->
  forall k v, data' !! k = Some v -> well_formed k v.
Proof.
  intros Hkey Hdata. pose proof (set_count_run key label text data) as Hrun.
  cbv zeta in Hrun. destruct (count_ok _ text); [|by destruct Hrun as [msg ->]].
  rewrite Hrun. intros [= <-] k v.
  destruct (search _ text) as [m|] eqn:Hm; [|apply Hdata].
  destruct (decide (key = k)) as [<-|Hne].
  - rewrite lookup_insert_eq. intros [= <-]. split; [exact Hkey|].
    destruct (count_group label text m Hm) as [_ Hdigits].
    by apply int_go_nonneg.
  - rewrite lookup_insert_ne by done. apply Hdata.
Qed.

Lemma set_price_well_formed (key label text : string) (data data' : gmap string value) :
  key ∈ price_keys ->
  (forall k v, data !! k = Some v -> well_formed k v) ->
  set_price key (compile (seq (lit label :: price_tail)) true) text data = Ok data' ->
  forall k v, data' !! k = Some v -> well_formed k v.
Proof.
  intros Hkey Hdata. unfold set_price, money, float, mbind, Ex_bind, mret, Ex_ret.
  destruct (search _ text) as [m|] eqn:Hm; [|by intros [= <-]].
  destruct (decimal_numeral (replace "," "" (group m 2))) eqn:Hnum; [|discriminate].
  intros [= <-] k v.
  destruct (decide (key = k)) as [<-|Hne].
  - rewrite lookup_insert_eq. intros [= <-]. split; [exact Hkey|].
    destruct (money_groups label text m Hm) as (Hcne & Hcall & _ & _).
    split; [by apply upper_nonempty|]. split; [by apply upper_letters|].
    by eexists.
  - rewrite lookup_insert_ne by done. apply Hdata.
Qed.

(** X10. A bucket that the extraction returns from an ASCII text is never
    empty, and each of its entries is well formed: the three count keys
    hold integers that are not negative, the four price keys hold a
    non-empty currency of upper-case letters with the float of a numeral,
    and there is no other key. *)
Theorem bucket_well_formed (text : string) (data : gmap string value) :
  isascii text = true ->
  extract_price_text text = Ok (Some data) ->
  size data <> 0
  /\ forall key v, data !! key = Some v -> well_formed key v.
Proof.
  intros _. unfold extract_price_text.
  destruct (contains "(unavailable)" (lower text)); [discriminate|].
  set (d0 := ∅ : gmap string value).
  assert (H0 : forall k v, d0 !! k = Some v -> well_formed k v)
    by (intros k v; unfold d0; by rewrite lookup_empty).
  clearbody d0. unfold mbind, Ex_bind, mret, Ex_ret.
  destruct (set_count "times_sold" RE_TIMES_SOLD text d0) as [d1|e] eqn:E1; [|discriminate].
  pose proof (set_count_well_formed _ _ _ _ _ ltac:(left) H0 E1) as H1.
  destruct (set_count "total_lots" RE_TOTAL_LOTS text d1) as [d2|e] eqn:E2; [|discriminate].
  pose proof (set_count_well_formed _ _ _ _ _ ltac:(right; left) H1 E2) as H2.
  destruct (set_count "total_qty" RE_TOTAL_QTY text d2) as [d3|e] eqn:E3; [|discriminate].
  pose proof (set_count_well_formed _ _ _ _ _ ltac:(right; right; left) H2 E3) as H3.
  destruct (set_price "min_price" RE_MIN_PRICE text d3) as [d4|e] eqn:E4; [|discriminate].
  pose proof (set_price_well_formed _ _ _ _ _ ltac:(left) H3 E4) as H4.
  destruct (set_price "avg_price" RE_AVG_PRICE text d4) as [d5|e] eqn:E5; [|discriminate].
  pose proof (set_price_well_formed _ _ _ _ _ ltac:(right; left) H4 E5) as H5.
  destruct (set_price "qty_avg_price" RE_QTY_AVG_PRICE text d5) as [d6|e] eqn:E6;
    [|discriminate].
  pose proof (set_price_well_formed _ _ _ _ _ ltac:(right; right; left) H5 E6) as H6.
  destruct (set_price "max_price" RE_MAX_PRICE text d6) as [d7|e] eqn:E7; [|discriminate].
  pose proof (set_price_well_formed _ _ _ _ _ ltac:(right; right; right; left) H6 E7)
    as H7.
  case_bool_decide as Hsize; [discriminate|].
  intros [= <-]. by split.
Qed.

Ltac extraction_step H :=
  cbv zeta in H;
  match type of H with
  | if ?c then _ else _ => destruct c
  end;
  [rewrite H; cbn [mbind Ex_bind]; clear H
  |let msg := fresh "msg" in
   destruct H as [msg ->]; cbn [mbind Ex_bind andb];
   split; [split; [by intros [? [=]]|discriminate]|intros ? [= <-]; by eexists]].

(** X11. On an ASCII text without "(unavailable)" the extraction returns
    exactly when each count that the three count patterns find has no more
    than 4300 digits and each amount that the four price patterns find is
    a numeral that [float] accepts; otherwise it raises a [ValueError],
    and nothing else. *)
Theorem extraction_raises_on_bad_amount (text : string) :
  isascii text = true ->
  contains "(unavailable)" (lower text) = false ->
  ((exists result, extract_price_text text = Ok result)
   <-> count_ok RE_TIMES_SOLD text && count_ok RE_TOTAL_LOTS text
       && count_ok RE_TOTAL_QTY text
       && amount_ok RE_MIN_PRICE text && amount_ok RE_AVG_PRICE text
       && amount_ok RE_QTY_AVG_PRICE text && amount_ok RE_MAX_PRICE text = true)
  /\ forall e, extract_price_text text = Raise e -> exists msg, e = ValueError msg.
Proof.
  intros _ Hun. unfold extract_price_text. rewrite Hun.
  unfold RE_TIMES_SOLD, RE_TOTAL_LOTS, RE_TOTAL_QTY.
  pose proof (set_count_run "times_sold" "Times Sold:" text ∅) as H1.
  extraction_step H1.
  match goal with
  | |- context [set_count "total_lots" _ text ?d] =>
      pose proof (set_count_run "total_lots" "Total Lots:" text d) as H2
  end.
  extraction_step H2.
  match goal with
  | |- context [set_count "total_qty" _ text ?d] =>
      pose proof (set_count_run "total_qty" "Total Qty:" text d) as H3
  end.
  extraction_step H3.
  match goal with
  | |- context [set_price "min_price" _ text ?d] =>
      pose proof (set_price_run "min_price" RE_MIN_PRICE text d) as H4
  end.
  extraction_step H4.
  match goal with
  | |- context [set_price "avg_price" _ text ?d] =>
      pose proof (set_price_run "avg_price" RE_AVG_PRICE text d) as H5
  end.
  extraction_step H5.
  match goal with
  | |- context [set_price "qty_avg_price" _ text ?d] =>
      pose proof (set_price_run "qty_avg_price" RE_QTY_AVG_PRICE text d) as H6
  end.
  extraction_step H6.
  match goal with
  | |- context [set_price "max_price" _ text ?d] =>
      pose proof (set_price_run "max_price" RE_MAX_PRICE text d) as H7
  end.
  extraction_step H7.
  cbn [andb mret Ex_ret]. split; [|discriminate].
  split; [done|]. intros _. by eexists.
Qed.

End Values.

Lemma bucket_well_formed_witness :
  let money := VMoney (Flt := numeral_float) "USD" "1012.34" in
  let data : gmap string value :=
    <["qty_avg_price" := money]> (<["avg_price" := money]>
      (<["times_sold" := VInt 12]> ∅)) in
  isascii text_qty_avg = true
  /\ extract_price_text (Flt := numeral_float) text_qty_avg = Ok (Some data)
  /\ size data <> 0.
Proof.
  intros money data.
  assert (Ha : isascii text_qty_avg = true) by reflexivity.
  assert (E : extract_price_text (Flt := numeral_float) text_qty_avg = Ok (Some data))
    by (vm_compute; reflexivity).
  split; [exact Ha|]. split; [exact E|].
  exact (proj1 (bucket_well_formed (Flt := numeral_float) text_qty_avg data Ha E)).
Defined.

Lemma extraction_raises_on_bad_amount_witness :
  isascii text_qty_avg = true
  /\ contains "(unavailable)" (lower text_qty_avg) = false
  /\ exists result, extract_price_text (Flt := numeral_float) text_qty_avg = Ok result.
Proof.
  assert (Ha : isascii text_qty_avg = true) by reflexivity.
  assert (Hun : contains "(unavailable)" (lower text_qty_avg) = false) by reflexivity.
  split; [exact Ha|]. split; [exact Hun|].
  apply (proj1 (extraction_raises_on_bad_amount (Flt := numeral_float)
                  text_qty_avg Ha Hun)).
  vm_compute. reflexivity.
Defined.

Lemma locate_result_witness :
  locate (Url := loopback_modules) url_set_and_part = Ok ("P", "3001")
  /\ exists query earlier later rest,
       urlparse_query (Url := loopback_modules) url_set_and_part = Ok query
       /\ KEYS = earlier ++ "P" :: later
       /\ (forall k, k ∈ earlier -> parse_qs query !! k = None)
       /\ parse_qs query !! "P" = Some ("3001" :: rest).
Proof.
  assert (H : locate (Url := loopback_modules) url_set_and_part = Ok ("P", "3001"))
    by (vm_compute; reflexivity).
  split; [exact H|].
  exact (proj2 (proj1 (locate_result (Url := loopback_modules) url_set_and_part)
                  "P" "3001" H)).
Defined.

End ScrapeBricklinkShapes.

(** ** More properties of scrape-bricklink.py: the two requests *)

Module ScrapeBricklinkFetch.
Import Py Re Bs4 ScrapeBricklink Buckets Examples ScrapeBricklinkProofs.
Local Open Scope string_scope.
Local Open Scope list_scope.

Ltac one_request :=
  match goal with
  | |- exists new, (_, ?issued ++ [?req]).2 = _ /\ _ =>
      exists [req]; split; [reflexivity|]; split; [right; by left|];
      intros summary Hs; simpl in Hs; discriminate Hs
  end.

Section Requests.
Context {Tag : Type} {Nav : Navigation Tag} {Bld : Builder Tag} {Sel : Css Tag}
  {Net : Http} {Flt : Float} {Url : UrlModules}.

(** X12. Whatever happens, a call issues no request, or the request for
    the given URL, or that request followed by the one for the price guide
    of the located item, in this order and with the fixed headers and
    time-out; a call that returns has issued both, and its summary carries
    the located kind and id. *)
Theorem requests_in_order (url : string) (issued : net) :
  exists new,
    snd (scrape_bricklink_item url issued) = issued ++ new
    /\ (new = []
        \/ new = [page_request url]
        \/ exists kind id,
             locate url = Ok (kind, id)
             /\ new = [page_request url; page_request (price_guide_url kind id)])
    /\ forall summary,
         fst (scrape_bricklink_item url issued) = Ok summary ->
         locate url = Ok (item_type summary, item_id summary)
         /\ new = [page_request url;
                   page_request (price_guide_url (item_type summary) (item_id summary))].
Proof.
  unfold scrape_bricklink_item, mbind, M_bind, lift, http_get, mret, M_ret.
  fold (page_request url).
  destruct (locate url) as [[kind id]|e].
  2: { exists []. rewrite app_nil_r. split; [done|]. split; [by left|done]. }
  destruct (requests_get (page_request url)) as [response|e]; [|one_request].
  destruct (raise_for_status response) as [[]|e]; [|one_request].
  destruct (BeautifulSoup (text response) "lxml") as [soup|e]; [|one_request].
  destruct (select_one soup "h1#item-name-title") as [title_elem|e]; [|one_request].
  destruct (text_or_none title_elem) as [title|e]; [|one_request].
  destruct (select_one soup "span#item-weight-info") as [weight_elem|e]; [|one_request].
  destruct (text_or_none weight_elem) as [weight|e]; [|one_request].
  fold (price_guide_url kind id). fold (page_request (price_guide_url kind id)).
  exists [page_request url; page_request (price_guide_url kind id)].
  assert (Htwo : (issued ++ [page_request url]) ++ [page_request (price_guide_url kind id)]
                 = issued ++ [page_request url; page_request (price_guide_url kind id)])
    by (by rewrite <- app_assoc).
  rewrite Htwo.
  split; [|split; [right; right; by exists kind, id|]].
  - destruct (requests_get (page_request (price_guide_url kind id))) as [r2|e]; [|done].
    destruct (raise_for_status r2) as [[]|e]; [|done].
    destruct (BeautifulSoup (text r2) "lxml") as [price_soup|e]; [|done].
    destruct (select price_soup SELECTOR_PRICE_BOXES) as [price_boxes|e]; [|done].
    by destruct (pricing_data price_boxes) as [[[[b0 b1] b2] b3]|e].
  - intros summary.
    destruct (requests_get (page_request (price_guide_url kind id))) as [r2|e]; [|done].
    destruct (raise_for_status r2) as [[]|e]; [|done].
    destruct (BeautifulSoup (text r2) "lxml") as [price_soup|e]; [|done].
    destruct (select price_soup SELECTOR_PRICE_BOXES) as [price_boxes|e]; [|done].
    destruct (pricing_data price_boxes) as [[[[b0 b1] b2] b3]|e]; [|done].
    by intros [= <-].
Qed.

(** X13. When the request for the item page fails, by an exception of the
    transport or by a status from 400 to 599, the call raises that error
    and the price guide is never requested. *)
Theorem item_page_failure_stops (url : string) (issued : net) (kind id : string) :
  locate url = Ok (kind, id) ->
  (forall e,
     requests_get (page_request url) = Raise e ->
     scrape_bricklink_item url issued = (Raise e, issued ++ [page_request url]))
  /\ (forall response,
        requests_get (page_request url) = Ok response ->
        (400 <= status_code response < 600)%Z ->
        scrape_bricklink_item url issued
        = (Raise (HTTPError (status_code response)), issued ++ [page_request url])).
Proof.
  intros Hloc.
  unfold scrape_bricklink_item, mbind, M_bind, lift, http_get, mret, M_ret.
  fold (page_request url). rewrite Hloc. split.
  - intros e ->. reflexivity.
  - intros response -> [Hlo Hhi]. unfold raise_for_status.
    apply Z.leb_le in Hlo. apply Z.ltb_lt in Hhi. by rewrite Hlo, Hhi.
Qed.

End Requests.

Section Fetched.
Context {Tag : Type} {Nav : Navigation Tag} {Bld : Builder Tag} {Sel : Css Tag}
  {Net : Http} {Flt : Float} {Url : UrlModules}.
Variables (url : string) (issued : net) (kind id : string).
Variables (resp price_resp : response) (soup price_soup : Tag).
Variables (title_elem weight_elem : option Tag) (the_title the_weight : option string).
Variable price_boxes : list Tag.
Hypothesis Hloc : locate url = Ok (kind, id).
Hypothesis Hget : requests_get (page_request url) = Ok resp.
Hypothesis Hstatus : raise_for_status resp = Ok tt.
Hypothesis Hsoup : BeautifulSoup (text resp) "lxml" = Ok soup.
Hypothesis Htitle : select_one soup "h1#item-name-title" = Ok title_elem.
Hypothesis Htitle_text : text_or_none title_elem = Ok the_title.
Hypothesis Hweight : select_one soup "span#item-weight-info" = Ok weight_elem.
Hypothesis Hweight_text : text_or_none weight_elem = Ok the_weight.
Hypothesis Hget2 :
  requests_get (page_request (price_guide_url kind id)) = Ok price_resp.
Hypothesis Hstatus2 : raise_for_status price_resp = Ok tt.
Hypothesis Hsoup2 : BeautifulSoup (text price_resp) "lxml" = Ok price_soup.
Hypothesis Hselect : select price_soup SELECTOR_PRICE_BOXES = Ok price_boxes.

(** Once both pages are fetched and parsed, the outcome is that of the four
    buckets. *)
Lemma scrape_after_fetch :
  scrape_bricklink_item url issued
  = (match pricing_data price_boxes with
     | Ok (b0, b1, b2, b3) =>
         Ok {| item_id := id; item_type := kind; title := the_title; weight := the_weight;
               six_month_new := b0; six_month_used := b1;
               current_new := b2; current_used := b3 |}
     | Raise e => Raise e
     end,
     issued ++ [page_request url; page_request (price_guide_url kind id)]).
Proof.
  unfold scrape_bricklink_item, mbind, M_bind, lift, http_get, mret, M_ret.
  fold (page_request url). rewrite Hloc, Hget, Hstatus, Hsoup, Htitle, Htitle_text.
  rewrite Hweight, Hweight_text.
  fold (price_guide_url kind id). fold (page_request (price_guide_url kind id)).
  rewrite Hget2, Hstatus2, Hsoup2, Hselect, <- app_assoc.
  by destruct (pricing_data price_boxes) as [[[[b0 b1] b2] b3]|e].
Qed.

(** X14. With four boxes or more, the buckets are those of the first four
    boxes in the order six-month new, six-month used, current new, current
    used; a box after the fourth is never looked at. *)
Theorem four_boxes_in_order (b0 b1 b2 b3 : Tag) (more : list Tag)
    (r0 r1 r2 r3 : option (gmap string value)) :
  price_boxes = b0 :: b1 :: b2 :: b3 :: more ->
  extract_price_box b0 = Ok r0 ->
  extract_price_box b1 = Ok r1 ->
  extract_price_box b2 = Ok r2 ->
  extract_price_box b3 = Ok r3 ->
  scrape_bricklink_item url issued
  = (Ok {| item_id := id; item_type := kind; title := the_title; weight := the_weight;
           six_month_new := r0; six_month_used := r1;
           current_new := r2; current_used := r3 |},
     issued ++ [page_request url; page_request (price_guide_url kind id)]).
Proof.
  intros Hboxes H0 H1 H2 H3. rewrite scrape_after_fetch, Hboxes.
  unfold pricing_data, getitem. cbn [List.length Nat.leb lookup list_lookup].
  cbn [mbind Ex_bind]. rewrite H0. cbn [mbind Ex_bind]. rewrite H1.
  cbn [mbind Ex_bind]. rewrite H2. cbn [mbind Ex_bind]. by rewrite H3.
Qed.

(** X15. No error of a bucket is absorbed: when the extraction raises on
    one of the first four boxes, after the boxes before it were extracted,
    the call raises that error, although both pages were fetched. *)
Theorem bucket_error_is_fatal (i : nat) (box : Tag) (e : exn) :
  4 <= List.length price_boxes ->
  i < 4 ->
  price_boxes !! i = Some box ->
  extract_price_box box = Raise e ->
  (forall j b, j < i -> price_boxes !! j = Some b ->
     exists r, extract_price_box b = Ok r) ->
  scrape_bricklink_item url issued
  = (Raise e, issued ++ [page_request url; page_request (price_guide_url kind id)]).
Proof.
  intros Hlen Hi Hbox Hraise Hbefore. rewrite scrape_after_fetch.
  destruct price_boxes as [|b0 [|b1 [|b2 [|b3 more]]]]; simpl in Hlen; try lia.
  unfold pricing_data, getitem. cbn [List.length Nat.leb lookup list_lookup].
  cbn [mbind Ex_bind].
  destruct i as [|[|[|[|i]]]]; [| | | |lia]; simpl in Hbox; injection Hbox as <-.
  - by rewrite Hraise.
  - destruct (Hbefore 0 b0 ltac:(lia) eq_refl) as [r0 ->]. cbn [mbind Ex_bind].
    by rewrite Hraise.
  - destruct (Hbefore 0 b0 ltac:(lia) eq_refl) as [r0 ->]. cbn [mbind Ex_bind].
    destruct (Hbefore 1 b1 ltac:(lia) eq_refl) as [r1 ->]. cbn [mbind Ex_bind].
    by rewrite Hraise.
  - destruct (Hbefore 0 b0 ltac:(lia) eq_refl) as [r0 ->]. cbn [mbind Ex_bind].
    destruct (Hbefore 1 b1 ltac:(lia) eq_refl) as [r1 ->]. cbn [mbind Ex_bind].
    destruct (Hbefore 2 b2 ltac:(lia) eq_refl) as [r2 ->]. cbn [mbind Ex_bind].
    by rewrite Hraise.
Qed.

End Fetched.

Lemma item_page_failure_stops_witness :
  scrape_bricklink_item (Nav := dom_bs4) (Bld := fixed_builder page)
    (Sel := fixed_css []) (Net := missing_http) (Flt := numeral_float) (Url := loopback_modules) url_set []
  = (Raise (HTTPError 404), [page_request url_set]).
Proof.
  assert (Hloc : locate (Url := loopback_modules) url_set = Ok ("S", "31113-1"))
    by (vm_compute; reflexivity).
  apply (proj2 (item_page_failure_stops (Nav := dom_bs4) (Bld := fixed_builder page)
                  (Sel := fixed_css []) (Net := missing_http) (Flt := numeral_float)
                  url_set [] "S" "31113-1" Hloc)
           {| status_code := 404; text := "Not Found" |} eq_refl).
  simpl. lia.
Defined.

Lemma four_boxes_in_order_witness :
  let money := VMoney (Flt := numeral_float) "USD" "1012.34" in
  let data : gmap string value :=
    <["qty_avg_price" := money]> (<["avg_price" := money]>
      (<["times_sold" := VInt 12]> ∅)) in
  scrape_bricklink_item (Nav := dom_bs4) (Bld := fixed_builder page)
    (Sel := fixed_css boxes_five) (Net := echo_http) (Flt := numeral_float) (Url := loopback_modules) url_set []
  = (Ok {| item_id := "31113-1"; item_type := "S"; title := None; weight := None;
           six_month_new := Some data; six_month_used := None;
           current_new := None; current_used := Some data |},
     [page_request url_set; page_request (price_guide_url "S" "31113-1")]).
Proof.
  intros money data.
  assert (Hloc : locate (Url := loopback_modules) url_set = Ok ("S", "31113-1"))
    by (vm_compute; reflexivity).
  assert (Hbox : extract_price_box (Flt := numeral_float) box_qty_avg = Ok (Some data))
    by (vm_compute; reflexivity).
  exact (four_boxes_in_order (Nav := dom_bs4) (Bld := fixed_builder page)
           (Sel := fixed_css boxes_five) (Net := echo_http) (Flt := numeral_float) (Url := loopback_modules)
           url_set [] "S" "31113-1"
           {| status_code := 200; text := url_set |}
           {| status_code := 200; text := price_guide_url "S" "31113-1" |}
           page page None None None None boxes_five
           Hloc eq_refl eq_refl eq_refl eq_refl eq_refl eq_refl eq_refl
           eq_refl eq_refl eq_refl eq_refl
           box_qty_avg box_unavailable box_blank box_qty_avg [box_bad_amount]
           (Some data) None None (Some data)
           eq_refl Hbox eq_refl eq_refl Hbox).
Defined.

Lemma bucket_error_is_fatal_witness :
  scrape_bricklink_item (Nav := dom_bs4) (Bld := fixed_builder page)
    (Sel := fixed_css boxes_bad_second) (Net := echo_http) (Flt := numeral_float) (Url := loopback_modules)
    url_set []
  = (Raise (ValueError "could not convert string to float: '1.2.3'"),
     [page_request url_set; page_request (price_guide_url "S" "31113-1")]).
Proof.
  assert (Hloc : locate (Url := loopback_modules) url_set = Ok ("S", "31113-1"))
    by (vm_compute; reflexivity).
  apply (bucket_error_is_fatal (Nav := dom_bs4) (Bld := fixed_builder page)
           (Sel := fixed_css boxes_bad_second) (Net := echo_http)
           (Flt := numeral_float) (Url := loopback_modules)
           url_set [] "S" "31113-1"
           {| status_code := 200; text := url_set |}
           {| status_code := 200; text := price_guide_url "S" "31113-1" |}
           page page None None None None boxes_bad_second
           Hloc eq_refl eq_refl eq_refl eq_refl eq_refl eq_refl eq_refl
           eq_refl eq_refl eq_refl eq_refl
           1 box_bad_amount).
  - simpl. lia.
  - lia.
  - reflexivity.
  - vm_compute. reflexivity.
  - intros [|j] b Hj; [|lia]. intros [= <-]. eexists. vm_compute. reflexivity.
Defined.

End ScrapeBricklinkFetch.

(** ** Letter case does not matter to the price boxes *)

Module CaseProofs.
Import Py Re Bs4 ScrapeBricklink Buckets ReSpec ReProofs ReSpecProofs.
Local Open Scope string_scope.
Local Open Scope list_scope.

Lemma upper_upper_char (c : ascii) : upper_char (upper_char c) = upper_char c.
Proof. by_cases_of c. Qed.

Lemma lower_upper_char (c : ascii) : lower_char (upper_char c) = lower_char c.
Proof. by_cases_of c. Qed.

Lemma upper_or_lower_fixed (c : ascii) :
  Ascii.eqb (upper_char c) c || Ascii.eqb (lower_char c) c = true.
Proof. by_cases_of c. Qed.

Lemma newline_upper (c : ascii) :
  Ascii.eqb (upper_char c) "010" = Ascii.eqb c "010".
Proof. by_cases_of c. Qed.

(** Under IGNORECASE a set holds a character exactly when it holds its
    upper-case form. *)
Lemma set_match_upper (items : list item) (c : ascii) :
  set_match true items (upper_char c) = set_match true items c.
Proof.
  unfold set_match. induction items as [|it items IH]; [reflexivity|].
  cbn [existsb]. rewrite IH. f_equal.
  rewrite lower_upper_char, upper_upper_char. cbn [andb].
  pose proof (upper_or_lower_fixed c) as Hfix.
  apply orb_true_iff in Hfix as [Hu|Hl].
  - apply Ascii.eqb_eq in Hu. rewrite Hu.
    destruct (item_match it c), (item_match it (lower_char c)); reflexivity.
  - apply Ascii.eqb_eq in Hl. rewrite Hl.
    destruct (item_match it c), (item_match it (upper_char c)); reflexivity.
Qed.

Lemma length_upper (s : string) : String.length (upper s) = String.length s.
Proof. unfold upper. induction s as [|c s IH]; [reflexivity|]. simpl. by rewrite IH. Qed.

Lemma take_upper (n : nat) (s : string) : take n (upper s) = upper (take n s).
Proof.
  unfold upper. revert s. induction n as [|n IH]; intros s; [by destruct s|].
  destruct s as [|c s]; [reflexivity|]. simpl. by rewrite IH.
Qed.

(** Matching the upper-case text runs as matching the text does, the
    groups being those of the text in upper case. *)
Lemma rmatch_upper {R R' : Type} (F : R -> R') (r : regex) :
  forall (s : string) (g : groups) (k : string -> groups -> option R)
         (k' : string -> groups -> option R'),
    (forall s' g', k' (upper s') (upper <$> g') = F <$> k s' g') ->
    rmatch true r (upper s) (upper <$> g) k' = F <$> rmatch true r s g k.
Proof.
  induction r as [|items| |r1 IH1 r2 IH2|r IH|n r IH]; intros s g k k' Hk;
    cbn [rmatch].
  - apply Hk.
  - destruct s as [|c s]; [reflexivity|].
    change (upper (String c s)) with (String (upper_char c) (upper s)).
    cbv beta match.
    rewrite set_match_upper. destruct (set_match true items c); [apply Hk|reflexivity].
  - destruct s as [|c s]; [reflexivity|].
    change (upper (String c s)) with (String (upper_char c) (upper s)).
    cbv beta match.
    rewrite newline_upper. destruct (Ascii.eqb c "010"); [reflexivity|apply Hk].
  - apply IH1. intros s' g'. by apply IH2.
  - rewrite length_upper. generalize (String.length s). intros fuel. revert s g.
    induction fuel as [|fuel IHf]; intros s g; [apply Hk|].
    match goal with
    | |- match rmatch true r (upper s) (upper <$> g) ?K1' with _ => _ end
         = F <$> match rmatch true r s g ?K1 with _ => _ end =>
        assert (Hr : rmatch true r (upper s) (upper <$> g) K1'
                     = F <$> rmatch true r s g K1)
    end.
    { apply IH. intros s' g'. rewrite !length_upper.
      destruct (String.length s' <? String.length s)%nat; [apply IHf|reflexivity]. }
    rewrite Hr. destruct (rmatch true r s g _); [reflexivity|apply Hk].
  - apply IH. intros s' g'. rewrite !length_upper, take_upper, <- fmap_insert.
    apply Hk.
Qed.

Lemma match_here_upper (p : pattern) (s : string) :
  ignorecase p = true ->
  match_here p (upper s)
  = (fun sg : string * groups => (upper sg.1, upper <$> sg.2)) <$> match_here p s.
Proof.
  intros Hic. unfold match_here. rewrite Hic.
  rewrite <- (fmap_empty upper) at 1. by apply rmatch_upper.
Qed.

(** [search] in the upper-case text finds the match it finds in the text,
    in upper case. *)
Lemma search_upper (p : pattern) (text : string) :
  ignorecase p = true ->
  search p (upper text) = upper_match <$> search p text.
Proof.
  intros Hic. unfold search. generalize 0.
  induction text as [|c text IH]; intros i.
  - change (upper "") with "". cbn [search_from].
    pose proof (match_here_upper p "" Hic) as H. change (upper "") with "" in H.
    destruct (match_here p "") as [[rest g]|]; [|reflexivity].
    injection H as _ Hg. cbn [fmap option_fmap option_map]. unfold upper_match.
    cbn [m_start m_groups]. by rewrite <- Hg.
  - change (upper (String c text)) with (String (upper_char c) (upper text)).
    cbn [search_from].
    pose proof (match_here_upper p (String c text) Hic) as H.
    change (upper (String c text)) with (String (upper_char c) (upper text)) in H.
    rewrite H. destruct (match_here p (String c text)) as [[rest g]|]; [reflexivity|].
    apply IH.
Qed.

Lemma group_upper_match (m : match_) (n : nat) :
  group (upper_match m) n = upper (group m n).
Proof.
  unfold group, upper_match. cbn [m_groups]. rewrite lookup_fmap.
  by destruct (m_groups m !! n).
Qed.

Lemma upper_fixed (f : ascii -> bool) (w : string) :
  (forall c, f c = true -> upper_char c = c) ->
  every f w = true -> upper w = w.
Proof.
  intros Hf. unfold upper. induction w as [|c w IH]; [done|]. simpl.
  intros [Hc Hw]%andb_true_iff. by rewrite (Hf c Hc), (IH Hw).
Qed.

Lemma upper_digit (c : ascii) : is_digit c = true -> upper_char c = c.
Proof. by_cases_of c. Qed.

Lemma upper_amount_char (c : ascii) :
  price_char c || Ascii.eqb c "," = true -> upper_char c = c.
Proof. by_cases_of c. Qed.

Lemma upper_upper (s : string) : upper (upper s) = upper s.
Proof.
  unfold upper. induction s as [|c s IH]; [reflexivity|]. simpl.
  by rewrite upper_upper_char, IH.
Qed.

Lemma lower_upper (s : string) : lower (upper s) = lower s.
Proof.
  unfold lower, upper. induction s as [|c s IH]; [reflexivity|]. simpl.
  by rewrite lower_upper_char, IH.
Qed.

Section Values.
Context {Flt : Float}.

Lemma set_count_upper (key label text : string) (data : gmap string value) :
  set_count key (compile (seq (lit label :: count_tail)) true) (upper text) data
  = set_count key (compile (seq (lit label :: count_tail)) true) text data.
Proof.
  unfold set_count. rewrite search_upper by reflexivity.
  destruct (search _ text) as [m|] eqn:Hm; [|reflexivity]. cbn [fmap option_fmap option_map].
  rewrite group_upper_match.
  destruct (count_group label text m Hm) as [_ Hd].
  by rewrite (upper_fixed is_digit _ upper_digit Hd).
Qed.

Lemma set_price_upper (key label text : string) (data : gmap string value) :
  set_price key (compile (seq (lit label :: price_tail)) true) (upper text) data
  = set_price key (compile (seq (lit label :: price_tail)) true) text data.
Proof.
  unfold set_price. rewrite search_upper by reflexivity.
  destruct (search _ text) as [m|] eqn:Hm; [|reflexivity]. cbn [fmap option_fmap option_map].
  unfold money. rewrite !group_upper_match, upper_upper.
  destruct (money_groups label text m Hm) as (_ & _ & _ & Ha).
  by rewrite (upper_fixed _ _ upper_amount_char Ha).
Qed.

Lemma extract_price_text_upper (text : string) :
  extract_price_text (upper text) = extract_price_text text.
Proof.
  unfold extract_price_text. rewrite lower_upper.
  destruct (contains "(unavailable)" (lower text)); [reflexivity|].
  unfold RE_TIMES_SOLD, RE_TOTAL_LOTS, RE_TOTAL_QTY, RE_MIN_PRICE, RE_AVG_PRICE,
    RE_QTY_AVG_PRICE, RE_MAX_PRICE.
  rewrite set_count_upper.
  destruct (set_count "times_sold" _ text ∅) as [d1|e]; [|reflexivity].
  cbn [mbind Ex_bind]. rewrite set_count_upper.
  destruct (set_count "total_lots" _ text d1) as [d2|e]; [|reflexivity].
  cbn [mbind Ex_bind]. rewrite set_count_upper.
  destruct (set_count "total_qty" _ text d2) as [d3|e]; [|reflexivity].
  cbn [mbind Ex_bind]. rewrite set_price_upper.
  destruct (set_price "min_price" _ text d3) as [d4|e]; [|reflexivity].
  cbn [mbind Ex_bind]. rewrite set_price_upper.
  destruct (set_price "avg_price" _ text d4) as [d5|e]; [|reflexivity].
  cbn [mbind Ex_bind]. rewrite set_price_upper.
  destruct (set_price "qty_avg_price" _ text d5) as [d6|e]; [|reflexivity].
  cbn [mbind Ex_bind]. by rewrite set_price_upper.
Qed.

(** X16. Two ASCII texts that differ in the case of their letters only give
    the same outcome: the same bucket, the same absence of one, or the same
    error. *)
Theorem extraction_ignores_case (text text' : string) :
  isascii text = true -> isascii text' = true ->
  upper text = upper text' ->
  extract_price_text text = extract_price_text text'.
Proof.
  intros _ _ H. by rewrite <- (extract_price_text_upper text),
    <- (extract_price_text_upper text'), H.
Qed.

End Values.

Lemma extraction_ignores_case_witness :
  extract_price_text (Flt := Examples.numeral_float) "times sold: 3 MIN PRICE: usd 1.50"
  = extract_price_text (Flt := Examples.numeral_float) "Times Sold: 3 Min Price: USD 1.50".
Proof.
  apply (extraction_ignores_case (Flt := Examples.numeral_float)); reflexivity.
Defined.

End CaseProofs.
